(** * Twitter Likes Fetcher: resumable pagination engine

    A shallow embedding of [fetch_likers.py] (class [TwitterLikesFetcher])
    and the properties of its checkpoint store, record store, page fetcher,
    collection loop and snapshot exporter.

    Conventions of the embedding:
    - JSON payloads are the values [json.loads] produces, without floats.
    - SQLite tables are lists of rows in rowid order; Python integers are
      assumed to fit SQLite's 64-bit INTEGER.
    - Strings are byte strings (UTF-8), so the lexicographic order on them is
      SQLite's BINARY collation.
    - The clock counts milliseconds since the epoch; [time.sleep d] advances
      it by at least [d] seconds.
    - Logging ([print]) has no effect on the state and is left out, except
      where what it formats can raise: the diagnostics of a fetched page.
    - Only the main flow is embedded; the daemon thread of the periodic
      export mode runs concurrently and is outside the model. *)

From Stdlib Require Import ZArith List String Ascii Bool Lia.
From Stdlib Require Import DecimalString DecimalPos DecimalZ.
From Stdlib Require Import Sorted Permutation OrderedTypeEx.
Import ListNotations.

Local Open Scope string_scope.
Local Open Scope list_scope.
Local Open Scope Z_scope.


(** ** Python values *)

(** What [response.json()] returns. *)
#[warnings="-register-all"]
Inductive json : Type :=
| JNull
| JBool (b : bool)
| JInt (z : Z)
| JStr (s : string)
| JArr (items : list json)
| JObj (fields : list (string * json)).

(** Exceptions the embedded code can raise. *)
Inductive exn : Type :=
| AttributeError   (* [.get] or [.keys] on a value that is not a dict *)
| TypeError        (* iterating, or [len()] of, a value that has no length *)
| ValueError       (* [int()] of a text that is not a number *)
| InterfaceError.  (* sqlite3 cannot bind a list or a dict *)

Inductive res (A : Type) : Type :=
| Ok (a : A)
| Raise (e : exn).

Arguments Ok {A} a.
Arguments Raise {A} e.

Definition res_bind {A B} (r : res A) (k : A -> res B) : res B :=
  match r with
  | Ok a => k a
  | Raise e => Raise e
  end.

Notation "'doR' x <- r ; k" := (res_bind r (fun x => k))
  (at level 10, x name, r at level 100, k at level 200).

(** [bool(v)] *)
Definition truthy (v : json) : bool :=
  match v with
  | JNull => false
  | JBool b => b
  | JInt z => negb (z =? 0)
  | JStr s => negb (String.eqb s EmptyString)
  | JArr items => match items with [] => false | _ => true end
  | JObj fields => match fields with [] => false | _ => true end
  end.

Fixpoint assoc (k : string) (fields : list (string * json)) : option json :=
  match fields with
  | [] => None
  | (k', v) :: rest => if String.eqb k k' then Some v else assoc k rest
  end.

(** [d.get(k, default)] on a dict. *)
Definition dict_get (fields : list (string * json)) (k : string) (default : json) : json :=
  match assoc k fields with
  | Some v => v
  | None => default
  end.

(** [v.get(k, default)] on any value: only dicts have [get]. *)
Definition py_get (v : json) (k : string) (default : json) : res json :=
  match v with
  | JObj fields => Ok (dict_get fields k default)
  | _ => Raise AttributeError
  end.

(** [str(n)] for an integer. *)
Definition str_of_Z (z : Z) : string := NilZero.string_of_int (Z.to_int z).

(** ** SQLite values and tables *)

Inductive sqlval : Type :=
| SNull
| SInt (z : Z)
| SText (s : string).

(** Binding a Python value as a statement parameter. *)
Definition bind_param (v : json) : res sqlval :=
  match v with
  | JNull => Ok SNull
  | JBool b => Ok (SInt (if b then 1 else 0))
  | JInt z => Ok (SInt z)
  | JStr s => Ok (SText s)
  | JArr _ => Raise InterfaceError
  | JObj _ => Raise InterfaceError
  end.

(** Storing a value in a column of TEXT affinity: integers become text. *)
Definition text_affinity (v : sqlval) : option string :=
  match v with
  | SNull => None
  | SInt z => Some (str_of_Z z)
  | SText s => Some s
  end.

(** Reading a TEXT column back into Python. *)
Definition py_of_text (c : option string) : json :=
  match c with
  | None => JNull
  | Some s => JStr s
  end.

Definition cell_of_text (c : option string) : sqlval :=
  match c with
  | None => SNull
  | Some s => SText s
  end.

(** Table [likers], PRIMARY KEY(tweet_id, user_id), both NOT NULL. *)
Module Likers.

Record row : Type := Row {
  tweet_id : string;
  user_id : string;
  username : option string;
  name : option string;
  verified : Z;
  created_at : option string;
  description : option string;
  profile_url : option string;
  public_metrics : option string
}.

Definition same_key (r1 r2 : row) : bool :=
  String.eqb (tweet_id r1) (tweet_id r2) && String.eqb (user_id r1) (user_id r2).

(** INSERT OR IGNORE of a row whose key columns are not NULL. *)
Definition insert_or_ignore (r : row) (tbl : list row) : list row :=
  if existsb (same_key r) tbl then tbl else tbl ++ [r].

(** SELECT ... WHERE tweet_id=? *)
Definition of_tweet (t : string) (tbl : list row) : list row :=
  filter (fun r => String.eqb (tweet_id r) t) tbl.

(** SELECT COUNT( * ) FROM likers WHERE tweet_id=? *)
Definition count (t : string) (tbl : list row) : Z :=
  Z.of_nat (List.length (of_tweet t tbl)).

(** ORDER BY user_id, by insertion into a sorted list. *)
Fixpoint insert_sorted (r : row) (sorted : list row) : list row :=
  match sorted with
  | [] => [r]
  | r' :: rest =>
      if String.leb (user_id r) (user_id r') then r :: sorted
      else r' :: insert_sorted r rest
  end.

Definition order_by_user_id (rows : list row) : list row :=
  fold_right insert_sorted [] rows.

(** The columns the export selects, in the order of the SELECT. *)
Definition selected (r : row) : list sqlval :=
  [ SText (user_id r); cell_of_text (username r); cell_of_text (name r);
    SInt (verified r); cell_of_text (created_at r);
    cell_of_text (description r); cell_of_text (profile_url r);
    cell_of_text (public_metrics r) ].

End Likers.

(** Table [state], PRIMARY KEY tweet_id. *)
Module State.

Record row : Type := Row {
  tweet_id : string;
  next_token : option string;
  done : Z;
  last_request_time : option Z;
  total_users_found : Z;
  last_export_time : Z
}.

(** SELECT ... WHERE tweet_id=? followed by [fetchone()]. *)
Definition fetchone (t : string) (tbl : list row) : option row :=
  find (fun r => String.eqb (tweet_id r) t) tbl.

(** INSERT OR IGNORE INTO state(...) VALUES(?,NULL,0,0,0) *)
Definition insert_default (t : string) (tbl : list row) : list row :=
  if existsb (fun r => String.eqb (tweet_id r) t) tbl then tbl
  else tbl ++ [ Row t None 0 None 0 0 ].

(** UPDATE state SET next_token=?, done=?, total_users_found=?,
    last_request_time=? WHERE tweet_id=? *)
Definition update_progress (t : string) (tok : option string) (d total now : Z)
    (tbl : list row) : list row :=
  map (fun r =>
         if String.eqb (tweet_id r) t
         then Row (tweet_id r) tok d (Some now) total (last_export_time r)
         else r) tbl.

(** UPDATE state SET last_export_time=? WHERE tweet_id=? *)
Definition update_export (t : string) (now : Z) (tbl : list row) : list row :=
  map (fun r =>
         if String.eqb (tweet_id r) t
         then Row (tweet_id r) (next_token r) (done r) (last_request_time r)
                  (total_users_found r) now
         else r) tbl.

End State.

(** ** The outside world *)

(** A rate-limit header as [int()] sees its text. *)
Inductive header_text : Type :=
| HNum (z : Z)   (* a text [int()] parses to [z] *)
| HEmpty         (* the empty text *)
| HGarbage.      (* any other text: [int()] raises ValueError *)

Record headers : Type := Headers {
  x_rate_limit_remaining : option header_text;
  x_rate_limit_reset : option header_text
}.

(** Outcome of [session.get]: a response whose body, read on a 200 only,
    is the JSON value [body]; a 200 whose body [response.json()] cannot
    parse; or a network error. *)
Inductive http_result : Type :=
| Response (status_code : Z) (hdrs : headers) (body : json)
| NotJson (hdrs : headers)
| RequestException.

Record request : Type := Request {
  url : string;
  params : list (string * json)
}.

Inductive event : Type :=
| EvGet (at_ms : Z) (req : request) (resp : http_result)
| EvSleep (ms : Z)
| EvStopFlag (value : bool)
| EvExport (path : string).

(** Module-level configuration, read from the process environment. *)
Record config : Type := Config {
  TWEET_ID : string;
  OUT_DIR : string;
  EXPORT_MODE : string;   (* already lower-cased *)
  QUICK_TEST : bool;      (* os.environ.get("QUICK_TEST") == "true" *)
  TEST_MODE : bool        (* os.environ.get("TEST_MODE") == "true" *)
}.

(** What the program cannot decide: the library functions left abstract and
    the answers of the outside world.  Answers are indexed by the number of
    events so far, except the remote's, indexed by the number of requests. *)
Record env : Type := Env {
  json_dumps : json -> string;            (* json.dumps *)
  py_repr : json -> string;               (* str() of a list or dict *)
  remote : nat -> request -> http_result; (* answer to the n-th request *)
  signal : nat -> bool;                   (* SIGTERM/SIGINT delivered at event n *)
  lag : nat -> N;                         (* extra milliseconds event n takes *)
  rand : nat -> N                         (* random source at event n *)
}.

Definition csv_file : Type := list (list sqlval).

Record world : Type := World {
  clock : Z;                       (* time.time(), in milliseconds *)
  stop_flag : bool;                (* the global stop flag *)
  trace : list event;
  requests_made : nat;
  likers : list Likers.row;
  state : list State.row;
  files : list (string * csv_file)
}.

Definition M (A : Type) : Type := world -> res A * world.

Definition ret {A} (a : A) : M A := fun w => (Ok a, w).

Definition raise {A} (e : exn) : M A := fun w => (Raise e, w).

Definition bind {A B} (m : M A) (k : A -> M B) : M B :=
  fun w =>
    match m w with
    | (Ok a, w') => k a w'
    | (Raise e, w') => (Raise e, w')
    end.

Notation "'doM' x <- m ; k" := (bind m (fun x => k))
  (at level 10, x name, m at level 100, k at level 200).
Notation "'doM_' m ; k" := (bind m (fun _ => k))
  (at level 10, m at level 100, k at level 200).

Definition lift {A} (r : res A) : M A := fun w => (r, w).

(** [int(time.time())] *)
Definition now (w : world) : Z := Z.quot (clock w) 1000.

Definition set_likers (tbl : list Likers.row) (w : world) : world :=
  World (clock w) (stop_flag w) (trace w) (requests_made w) tbl (state w) (files w).

Definition set_state (tbl : list State.row) (w : world) : world :=
  World (clock w) (stop_flag w) (trace w) (requests_made w) (likers w) tbl (files w).

Definition write_file (path : string) (content : csv_file) (w : world) : world :=
  World (clock w) (stop_flag w) (trace w) (requests_made w) (likers w) (state w)
        ((path, content) :: filter (fun f => negb (String.eqb (fst f) path)) (files w)).

Fixpoint read_file (path : string) (fs : list (string * csv_file)) : option csv_file :=
  match fs with
  | [] => None
  | (p, c) :: rest => if String.eqb p path then Some c else read_file path rest
  end.

(** ** The program *)

Definition API_BASE : string := "https://api.twitter.com/2".

(** [os.path.join(a, b)] on POSIX. *)
Fixpoint ends_with_slash (s : string) : bool :=
  match s with
  | EmptyString => false
  | String c EmptyString => Ascii.eqb c "/"%char
  | String _ rest => ends_with_slash rest
  end.

Definition starts_with_slash (s : string) : bool :=
  match s with
  | String c _ => Ascii.eqb c "/"%char
  | EmptyString => false
  end.

Definition path_join (a b : string) : string :=
  if starts_with_slash b then b
  else if String.eqb a EmptyString || ends_with_slash a then String.append a b
  else String.append a (String.append "/" b).

Definition csv_header : list sqlval :=
  map SText [ "tweet_id"; "user_id"; "username"; "name"; "verified";
              "created_at"; "description"; "profile_url"; "public_metrics" ].

Section Fetcher.

Variable cfg : config.
Variable E : env.

(** *** Primitive effects *)

(** Every interaction with the outside world is one event: it is appended
    to the trace, takes its nominal duration plus the lag of the moment,
    and a signal delivered meanwhile sets the stop flag ([handle_stop]).
    Requests are counted. *)
Definition emit (ev : event) (duration : Z) (w : world) : world :=
  let n := List.length (trace w) in
  World (clock w + duration + Z.of_N (lag E n))
        (stop_flag w || signal E n)
        (trace w ++ [ev])
        (match ev with
         | EvGet _ _ _ => S (requests_made w)
         | _ => requests_made w
         end)
        (likers w) (state w) (files w).

(** [time.sleep(ms / 1000)] *)
Definition sleep (ms : Z) : M unit :=
  fun w => (Ok tt, emit (EvSleep ms) ms w).

(** Reading the global [stop_flag]. *)
Definition read_stop_flag : M bool :=
  fun w =>
    let b := stop_flag w || signal E (List.length (trace w)) in
    (Ok b, emit (EvStopFlag b) 0 w).

(** [self.session.get(url, params=params, timeout=30)] *)
Definition session_get (req : request) : M http_result :=
  fun w =>
    let r := remote E (requests_made w) req in
    (Ok r, emit (EvGet (clock w) req r) 0 w).

(** [random.uniform(lo, hi)], in milliseconds. *)
Definition random_uniform (lo hi : Z) (w : world) : Z :=
  lo + Z.of_N (rand E (List.length (trace w))) mod (hi - lo + 1).

(** *** Checkpoint store *)

Definition get_state (tweet_id : string) : M (json * bool * Z * Z) :=
  fun w =>
    match State.fetchone tweet_id (state w) with
    | Some row =>
        (Ok (py_of_text (State.next_token row),
             negb (State.done row =? 0),
             State.total_users_found row,
             State.last_export_time row), w)
    | None =>
        (Ok (JNull, false, 0, 0),
         set_state (State.insert_default tweet_id (state w)) w)
    end.

Definition save_state (tweet_id : string) (next_token : json) (done : bool)
    (total_users : Z) : M unit :=
  fun w =>
    let current_time := now w in
    match bind_param next_token with
    | Ok tok =>
        (Ok tt,
         set_state (State.update_progress tweet_id (text_affinity tok)
                      (if done then 1 else 0) total_users current_time
                      (state w)) w)
    | Raise e => (Raise e, w)
    end.

Definition update_export_time (tweet_id : string) : M unit :=
  fun w =>
    let current_time := now w in
    (Ok tt, set_state (State.update_export tweet_id current_time (state w)) w).

(** *** Record store *)

(** [str(v)] as the f-string formats it. *)
Definition py_str (v : json) : string :=
  match v with
  | JNull => "None"
  | JBool true => "True"
  | JBool false => "False"
  | JInt z => str_of_Z z
  | JStr s => s
  | JArr _ => py_repr E v
  | JObj _ => py_repr E v
  end.

(** The parameters one user binds, and the row they make; [None] when the
    NOT NULL constraint on [user_id] makes OR IGNORE skip the row. *)
Definition liker_row (tweet_id : string) (user : json) : res (option Likers.row) :=
  doR username <- py_get user "username" (JStr EmptyString);
  let profile_url :=
    if truthy username then String.append "https://x.com/" (py_str username)
    else EmptyString in
  doR metrics <- py_get user "public_metrics" (JObj []);
  let public_metrics := json_dumps E metrics in
  doR v_id <- py_get user "id" JNull;
  doR v_username <- py_get user "username" JNull;
  doR v_name <- py_get user "name" JNull;
  doR v_verified <- py_get user "verified" JNull;
  doR v_created_at <- py_get user "created_at" JNull;
  doR v_description <- py_get user "description" (JStr EmptyString);
  doR p_id <- bind_param v_id;
  doR p_username <- bind_param v_username;
  doR p_name <- bind_param v_name;
  doR p_created_at <- bind_param v_created_at;
  doR p_description <- bind_param v_description;
  match text_affinity p_id with
  | None => Ok None
  | Some user_id =>
      Ok (Some (Likers.Row tweet_id user_id
                  (text_affinity p_username) (text_affinity p_name)
                  (if truthy v_verified then 1 else 0)
                  (text_affinity p_created_at) (text_affinity p_description)
                  (Some profile_url) (Some public_metrics)))
  end.

(** The loop of [insert_users] over the table. *)
Fixpoint insert_rows (tweet_id : string) (users : list json)
    (tbl : list Likers.row) : res (list Likers.row) :=
  match users with
  | [] => Ok tbl
  | user :: rest =>
      doR r <- liker_row tweet_id user;
      insert_rows tweet_id rest
        (match r with
         | Some row => Likers.insert_or_ignore row tbl
         | None => tbl
         end)
  end.

(** [with self.conn:] commits when the block ends and rolls back when it
    raises. *)
Definition insert_users (tweet_id : string) (users : list json) : M unit :=
  fun w =>
    match insert_rows tweet_id users (likers w) with
    | Ok tbl => (Ok tt, set_likers tbl w)
    | Raise e => (Raise e, w)
    end.

(** *** Page fetcher *)

(** [int(response.headers.get(name, default))] *)
Definition int_of_header (h : option header_text) (default : Z) : res Z :=
  match h with
  | None => Ok default
  | Some (HNum z) => Ok z
  | Some HEmpty => Raise ValueError
  | Some HGarbage => Raise ValueError
  end.

(** [int(response.headers.get(name, "0") or "0")] *)
Definition int_of_header_or_zero (h : option header_text) : res Z :=
  match h with
  | None => Ok 0
  | Some (HNum z) => Ok z
  | Some HEmpty => Ok 0
  | Some HGarbage => Raise ValueError
  end.

(** The countdown of [pace_requests]: [break] when the stop flag is set. *)
Fixpoint pace_countdown (remaining_sec : nat) : M unit :=
  match remaining_sec with
  | O => ret tt
  | S k =>
      doM stop <- read_stop_flag;
      if stop then ret tt
      else doM_ sleep 1000; pace_countdown k
  end.

Definition pace_requests (hdrs : headers) : M unit :=
  let '(remaining, reset) :=
    match int_of_header (x_rate_limit_remaining hdrs) 1 with
    | Ok remaining =>
        match int_of_header (x_rate_limit_reset hdrs) 0 with
        | Ok reset => (remaining, reset)
        | Raise _ => (1, 0)
        end
    | Raise _ => (1, 0)
    end in
  if QUICK_TEST cfg then ret tt
  else if (remaining <=? 1) && negb (reset =? 0) then
    fun w =>
      let current_time := now w in
      let wait_time := Z.max 0 (reset - current_time) + 2 in
      pace_countdown (Z.to_nat wait_time) w
  else if remaining <=? 5 then
    fun w =>
      let delay := random_uniform 1000 3000 w in
      sleep delay w
  else ret tt.

Definition backoff_sleep (attempt : nat) : M unit :=
  fun w =>
    let delay := Z.min 300 (2 ^ Z.of_nat attempt) * 1000 + random_uniform 0 1200 w in
    sleep delay w.

(** The countdown after a 429: [true] when the stop flag was seen set, on
    which [fetch_page] returns [None]. *)
Fixpoint retry_countdown (remaining : nat) : M bool :=
  match remaining with
  | O => ret false
  | S k =>
      doM stop <- read_stop_flag;
      if stop then ret true
      else doM_ sleep 1000; retry_countdown k
  end.

Definition max_results : Z :=
  if TEST_MODE cfg then 2 else if QUICK_TEST cfg then 2 else 100.

Definition page_request (tweet_id : string) (next_token : json) : request :=
  Request (String.append API_BASE
             (String.append "/tweets/" (String.append tweet_id "/liking_users")))
          ([ ("user.fields",
              JStr "id,name,username,verified,created_at,description,public_metrics");
             ("max_results", JInt max_results) ]
           ++ (if truthy next_token then [ ("pagination_token", next_token) ] else [])).

(** The diagnostics printed for a fetched page: [list(data.keys())], and
    [len(data['data'])] when the key is there. *)
Definition page_diagnostics (data : json) : res unit :=
  match data with
  | JObj fields =>
      match assoc "data" fields with
      | Some JNull => Raise TypeError
      | Some (JBool _) => Raise TypeError
      | Some (JInt _) => Raise TypeError
      | _ => Ok tt
      end
  | _ => Raise AttributeError
  end.

(** What an attempt does with the outcome of its request; [retry] is the
    rest of the loop, run on [continue].  [response.json()] runs inside the
    [try]: its JSONDecodeError is a RequestException. *)
Definition handle_response (attempt : nat) (response : http_result)
    (retry : M (option json)) : M (option json) :=
  match response with
  | RequestException =>
      doM_ backoff_sleep attempt;
      retry
  | NotJson hdrs =>
      doM_ pace_requests hdrs;
      doM_ backoff_sleep attempt;
      retry
  | Response status_code hdrs body =>
      doM_ pace_requests hdrs;
      if status_code =? 200 then
        doM_ lift (page_diagnostics body);
        ret (Some body)
      else if status_code =? 429 then
        doM reset <- lift (int_of_header_or_zero (x_rate_limit_reset hdrs));
        if negb (reset =? 0) then
          doM delay <- (fun w =>
            let current_time := now w in
            let delay := Z.max 5 (reset - current_time + 2) in
            (Ok (if QUICK_TEST cfg then 5 else delay), w));
          doM stopped <- retry_countdown (Z.to_nat delay);
          if stopped then ret None
          else
            doM stop <- read_stop_flag;
            if stop then ret None
            else retry
        else
          doM_ backoff_sleep attempt;
          retry
      else if (500 <=? status_code) && (status_code <? 600) then
        doM_ backoff_sleep attempt;
        retry
      else ret None
  end.

(** [for attempt in range(7)], over the attempts left; [None] when they
    run out. *)
Fixpoint fetch_attempts (req : request) (attempts : list nat) : M (option json) :=
  match attempts with
  | [] => ret None
  | attempt :: rest =>
      doM response <- session_get req;
      handle_response attempt response (fetch_attempts req rest)
  end.

Definition fetch_page (tweet_id : string) (next_token : json) : M (option json) :=
  fetch_attempts (page_request tweet_id next_token) (seq 0 7).

(** *** Snapshot exporter *)

(** [primary] is [conn == self.conn]. *)
Definition export_csv_with_connection (tweet_id : string) (primary : bool) : M string :=
  fun w =>
    let epoch_suffix :=
      if String.eqb (EXPORT_MODE cfg) "final" then str_of_Z (now w) else "current" in
    let csv_path :=
      path_join (OUT_DIR cfg)
        (String.append tweet_id
           (String.append "_likers_" (String.append epoch_suffix ".csv"))) in
    let rows := Likers.order_by_user_id (Likers.of_tweet tweet_id (likers w)) in
    let content :=
      csv_header :: map (fun row => SText tweet_id :: Likers.selected row) rows in
    let w1 := emit (EvExport csv_path) 0 (write_file csv_path content w) in
    if primary
    then (doM_ update_export_time tweet_id; ret csv_path) w1
    else (Ok csv_path, w1).

Definition export_csv (tweet_id : string) : M string :=
  export_csv_with_connection tweet_id true.

(** *** Collection loop *)

(** The local variables of [run] that the loop updates. *)
Record progress : Type := Progress {
  next_token : json;
  done : bool;
  total_users : Z
}.

(** [self.insert_users(...)] and [total_users += len(users)] for a truthy
    [users]: iterating anything but a list of dicts raises. *)
Definition ingest (users : json) (total_users : Z) : M Z :=
  match users with
  | JArr items =>
      doM_ insert_users (TWEET_ID cfg) items;
      ret (total_users + Z.of_nat (List.length items))
  | JStr _ => raise AttributeError
  | JObj _ => raise AttributeError
  | _ => raise TypeError
  end.

(** The loop body once a page has arrived: process users, update
    pagination, save state, politeness delay. *)
Definition process_page (p : progress) (data : json) : M progress :=
  doM users <- lift (py_get data "data" (JArr []));
  doM total_users' <-
    (if truthy users then ingest users (total_users p)
     else ret (total_users p));
  doM meta <- lift (py_get data "meta" (JObj []));
  doM next_token' <- lift (py_get meta "next_token" JNull);
  let done' := negb (truthy next_token') in
  doM_ save_state (TWEET_ID cfg) next_token' done' total_users';
  doM_ (if negb done'
        then doM stop <- read_stop_flag;
             if negb stop
             then sleep (if QUICK_TEST cfg then 1000 else 2000)
             else ret tt
        else ret tt);
  ret (Progress next_token' done' total_users').

(** [while not done and not stop_flag and page_count < max_pages], over the
    pages left before the ceiling. *)
Fixpoint collect (pages_left : nat) (p : progress) : M progress :=
  if done p then ret p
  else
    doM stop <- read_stop_flag;
    if stop then ret p
    else
      match pages_left with
      | O => ret p
      | S k =>
          doM data <- fetch_page (TWEET_ID cfg) (next_token p);
          match data with
          | None =>
              doM_ save_state (TWEET_ID cfg) (next_token p) false (total_users p);
              ret p
          | Some data =>
              doM p' <- process_page p data;
              collect k p'
          end
      end.

Definition max_pages : nat :=
  if QUICK_TEST cfg then 3%nat else Z.to_nat 999999.

(** The export at the end of [run]. *)
Definition final_export : M unit :=
  if String.eqb (EXPORT_MODE cfg) "final" || String.eqb (EXPORT_MODE cfg) "periodic"
  then
    fun w =>
      let rows := Likers.count (TWEET_ID cfg) (likers w) in
      if 0 <? rows
      then (doM_ export_csv (TWEET_ID cfg); ret tt) w
      else (Ok tt, w)
  else ret tt.

Definition run : M unit :=
  doM st <- get_state (TWEET_ID cfg);
  let '(next_token, done, total_users, _) := st in
  if done then
    doM_ export_csv (TWEET_ID cfg);
    ret tt
  else
    doM_ collect max_pages (Progress next_token done total_users);
    doM_ read_stop_flag;
    final_export.

(** [main]: the exit status of the process is 1 when [run] dies of an
    exception and 0 otherwise (SIGINT and SIGTERM are handled by
    [handle_stop], so no KeyboardInterrupt reaches [main]). *)
Definition main : world -> Z * world :=
  fun w =>
    match run w with
    | (Ok _, w') => (0, w')
    | (Raise _, w') => (1, w')
    end.

End Fetcher.

(** * Vocabulary of the properties *)

(** Every record of the batch is in the table: the key of its row is taken. *)
Definition all_stored (E : env) (t : string) (us : list json) (tbl : list Likers.row) : Prop :=
  Forall (fun u =>
            exists ro, liker_row E t u = Ok ro /\
              match ro with
              | Some r => existsb (Likers.same_key r) tbl = true
              | None => True
              end) us.

(** Ascending record id, the order of the export. *)
Definition id_le (r1 r2 : Likers.row) : Prop :=
  String.leb (Likers.user_id r1) (Likers.user_id r2) = true.

(** The name [export_csv_with_connection] gives the snapshot taken at
    second [now_s]. *)
Definition snapshot_path (cfg : config) (t : string) (now_s : Z) : string :=
  path_join (OUT_DIR cfg)
    (String.append t
       (String.append "_likers_"
          (String.append
             (if String.eqb (EXPORT_MODE cfg) "final" then str_of_Z now_s else "current")
             ".csv"))).

(** The rows [export_csv_with_connection] writes for a target. *)
Definition snapshot (t : string) (tbl : list Likers.row) : csv_file :=
  csv_header ::
  map (fun row => SText t :: Likers.selected row)
      (Likers.order_by_user_id (Likers.of_tweet t tbl)).

(** A computation moves every world along the relation [R]. *)
Definition steps {A} (R : world -> world -> Prop) (m : M A) : Prop :=
  forall w, R w (snd (m w)).

(** A computation never raises. *)
Definition total {A} (m : M A) : Prop :=
  forall w, exists a, fst (m w) = Ok a.

Definition is_get (ev : event) : bool :=
  match ev with EvGet _ _ _ => true | _ => false end.

Definition is_export (ev : event) : bool :=
  match ev with EvExport _ => true | _ => false end.

(** Events that are neither a request nor an export: sleeping and reading
    the stop flag. *)
Definition is_quiet (ev : event) : bool :=
  match ev with
  | EvSleep _ => true
  | EvStopFlag _ => true
  | _ => false
  end.

Definition not_export (ev : event) : bool := negb (is_export ev).

Definition any_event (ev : event) : bool := true.

(** The world moved from [w] to [w'] through events that are all [allowed]:
    time did not go back, the stop flag was not cleared and, without a
    signal, not set either; requests were counted. *)
Definition moves (E : env) (allowed : event -> bool) (w w' : world) : Prop :=
  clock w <= clock w' /\
  (stop_flag w = true -> stop_flag w' = true) /\
  ((forall n, signal E n = false) -> stop_flag w' = stop_flag w) /\
  exists evs,
    trace w' = trace w ++ evs /\
    forallb allowed evs = true /\
    requests_made w' = (requests_made w + List.length (filter is_get evs))%nat.

Definition same_store (w w' : world) : Prop :=
  likers w' = likers w /\ state w' = state w /\ files w' = files w.

(** Only waiting happened between [w] and [w']. *)
Definition waited (E : env) (w w' : world) : Prop :=
  moves E is_quiet w w' /\ same_store w w'.

(** Requests and waiting happened, the stores were not touched. *)
Definition fetched (E : env) (w w' : world) : Prop :=
  moves E not_export w w' /\ same_store w w'.

(** Anything but an export happened: no file was written. *)
Definition collected (E : env) (w w' : world) : Prop :=
  moves E not_export w w' /\ files w' = files w.

(** ** Concrete scenarios *)

(** A production configuration for target 42. *)
Definition cfg_final : config := Config "42" "out" "final" false false.

(** The same with QUICK_TEST=true. *)
Definition cfg_quick : config := Config "42" "out" "final" true false.

Definition dumps_stub (v : json) : string := "{}".

Definition no_headers : headers := Headers None None.

(** A process started at 2023-11-14 22:13:20 UTC on an empty database. *)
Definition w_fresh : world := World 1700000000000 false [] 0 [] [] [].

(** The remote answers 429 with a reset time 100 s ahead, and a signal
    arrives while the program waits. *)
Definition E_interrupted : env :=
  Env dumps_stub dumps_stub
      (fun _ _ => Response 429 (Headers (Some (HNum 0)) (Some (HNum 1700000100))) JNull)
      (fun n => Nat.leb 1 n) (fun _ => 0%N) (fun _ => 0%N).

(** The remote answers 404 and no signal arrives. *)
Definition E_not_found : env :=
  Env dumps_stub dumps_stub
      (fun _ _ => Response 404 no_headers JNull)
      (fun _ => false) (fun _ => 0%N) (fun _ => 0%N).

(** The outcomes of [fetch_page]: a page that passed the diagnostics,
    [None], or an exception: the ValueError of an unreadable reset header on
    a 429, the AttributeError or TypeError of the diagnostics on a 200. *)
Definition page_or_none (r : res (option json)) : Prop :=
  (exists body, r = Ok (Some body) /\ page_diagnostics body = Ok tt) \/
  r = Ok None \/
  r = Raise ValueError \/ r = Raise AttributeError \/ r = Raise TypeError.

Definition not_get (ev : event) : bool := negb (is_get ev).

(** The request of the first fetch among some events. *)
Fixpoint first_request (evs : list event) : option request :=
  match evs with
  | [] => None
  | EvGet _ req _ :: _ => Some req
  | _ :: rest => first_request rest
  end.

(** A checkpoint already done for target 42, and no record. *)
Definition w_done_empty : world :=
  World 1700000000000 false [] 0 [] [ State.Row "42" None 1 None 0 0 ] [].

Definition row_of_id (id : string) : Likers.row :=
  Likers.Row "42" id None None 0 None (Some EmptyString) (Some EmptyString) (Some "{}").

(** One record collected so far, checkpoint not done. *)
Definition w_prior : world :=
  World 1700000000000 false [] 0 [ row_of_id "a" ] [ State.Row "42" None 0 None 1 0 ] [].


(** The remote serves one last page with one record, far from any limit. *)
Definition E_last_page : env :=
  Env dumps_stub dumps_stub
      (fun _ _ => Response 200 (Headers (Some (HNum 100)) (Some (HNum 1700000900)))
                    (JObj [ ("data", JArr [ JObj [ ("id", JStr "b") ] ]);
                            ("meta", JObj []) ]))
      (fun _ => false) (fun _ => 0%N) (fun _ => 0%N).

(** A new process on the database and the files a previous one left. *)
Definition restart (w : world) : world :=
  World (clock w) false [] 0 (likers w) (state w) (files w).

(** The two pages of the end-to-end scenario. *)
Definition page_1 : json :=
  JObj [ ("data", JArr [ JObj [ ("id", JStr "a") ]; JObj [ ("id", JStr "b") ] ]);
         ("meta", JObj [ ("next_token", JStr "X") ]) ].

Definition page_2 : json :=
  JObj [ ("data", JArr [ JObj [ ("id", JStr "c") ] ]);
         ("meta", JObj []) ].

(** The row a record with nothing but an id makes. *)
Definition bare_row (E : env) (t id : string) : Likers.row :=
  Likers.Row t id None None 0 None (Some EmptyString) (Some EmptyString)
             (Some (json_dumps E (JObj []))).

(** The line of the snapshot for such a record. *)
Definition bare_line (E : env) (t id : string) : list sqlval :=
  [ SText t; SText id; SNull; SNull; SInt 0; SNull;
    SText EmptyString; SText EmptyString; SText (json_dumps E (JObj [])) ].

(** ** Rate-limit pacing *)

(** The headers announce an exhausted rate limit that resets at second [T]. *)
Definition limited (h : headers) (T : Z) : Prop :=
  exists remaining,
    x_rate_limit_remaining h = Some (HNum remaining) /\ remaining <= 1 /\
    x_rate_limit_reset h = Some (HNum T).

(** At time [c] (milliseconds) every rate limit announced by a successful
    response of the trace has been reset for two seconds. *)
Definition due (tr : list event) (c : Z) : Prop :=
  forall t req h body T,
    In (EvGet t req (Response 200 h body)) tr -> limited h T -> 1000 * (T + 2) <= c.

(** Every request of the trace was made when the limits announced before it
    were due. *)
Definition paced (tr : list event) : Prop :=
  forall pre t req r post, tr = pre ++ EvGet t req r :: post -> due pre t.

(** The events of an interruptible countdown: before every second of sleep
    the stop flag is read. *)
Inductive countdown : list event -> Prop :=
| countdown_over : countdown []
| countdown_stopped : countdown [ EvStopFlag true ]
| countdown_second (evs : list event) :
    countdown evs -> countdown (EvStopFlag false :: EvSleep 1000 :: evs).

(** Pre- and postconditions. *)
Definition hoare {A} (P : world -> Prop) (m : M A) (Q : res A -> world -> Prop) : Prop :=
  forall w, P w -> Q (fst (m w)) (snd (m w)).

(** Nothing happened outside the database. *)
Definition io_same (w w' : world) : Prop :=
  trace w' = trace w /\ clock w' = clock w /\ stop_flag w' = stop_flag w.

(** A request can be made now. *)
Definition ready (w : world) : Prop :=
  paced (trace w) /\ 0 <= clock w /\ due (trace w) (clock w).

(** A page has arrived and its rate-limit headers were honoured: a second
    from now all limits are due, unless the stop flag is set. *)
Definition settled (w : world) : Prop :=
  paced (trace w) /\ 0 <= clock w /\
  (stop_flag w = true \/ due (trace w) (clock w + 1000)).

(** The loop can take its next turn with the progress [p]. *)
Definition resumable (is_done : bool) (w : world) : Prop :=
  paced (trace w) /\ 0 <= clock w /\
  (is_done = true \/ stop_flag w = true \/ due (trace w) (clock w)).

(** Headers of an exhausted rate limit that resets 100 s after the start of
    [w_fresh]. *)
Definition h_exhausted : headers := Headers (Some (HNum 0)) (Some (HNum 1700000100)).

(** Headers of an exhausted rate limit with a reset time of 0. *)
Definition h_exhausted_no_reset : headers := Headers (Some (HNum 0)) (Some (HNum 0)).

Definition page_with_more : json :=
  JObj [ ("data", JArr [ JObj [ ("id", JStr "a") ] ]);
         ("meta", JObj [ ("next_token", JStr "X") ]) ].

(** Every page is a success that announces the exhausted rate limit and a
    next page; the random source gives 2000. *)
Definition E_limited : env :=
  Env dumps_stub dumps_stub
      (fun _ _ => Response 200 h_exhausted page_with_more)
      (fun _ => false) (fun _ => 0%N) (fun _ => 2000%N).

(** Two records with the same id and different names. *)
Definition u_ann : json := JObj [ ("id", JStr "a"); ("name", JStr "Ann") ].
Definition u_bob : json := JObj [ ("id", JStr "a"); ("name", JStr "Bob") ].

(** The remote of the end-to-end scenario: page 1, then page 2. *)
Definition E_two_pages : env :=
  Env dumps_stub dumps_stub
      (fun n _ => match n with
                  | O => Response 200 no_headers page_1
                  | _ => Response 200 no_headers page_2
                  end)
      (fun _ => false) (fun _ => 0%N) (fun _ => 0%N).

(** A checkpoint saved with cursor X, not done, after two records. *)
Definition w_saved : world :=
  World 1700000000000 false [] 0 [ row_of_id "a"; row_of_id "b" ]
        [ State.Row "42" (Some "X") 0 (Some 1699999000) 2 0 ] [].

(** The records of [w_prior] at another time, with no checkpoint. *)
Definition w_later : world :=
  World 1800000000000 false [] 0 [ row_of_id "a" ] [] [].

(** Headers of an exhausted rate limit that resets 3 s after the start of
    [w_fresh]. *)
Definition h_soon : headers := Headers (Some (HNum 0)) (Some (HNum 1700000003)).

(** The two pages of the scenario, the first with an exhausted rate limit. *)
Definition E_short_limit : env :=
  Env dumps_stub dumps_stub
      (fun n _ => match n with
                  | O => Response 200 h_soon page_1
                  | _ => Response 200 no_headers page_2
                  end)
      (fun _ => false) (fun _ => 0%N) (fun _ => 0%N).

(** ** Vocabulary of the further properties *)

(** The events of one [fetch_page]: waiting, and requests that are all the
    request [req]. *)
Definition fetch_events (req : request) (evs : list event) : Prop :=
  Forall (fun ev => is_quiet ev = true \/ exists t r, ev = EvGet t req r) evs.

(** An outcome [fetch_page] answers by a backoff and one more attempt: a
    network error, a 200 whose body is not JSON, a 5xx, or a 429 without a
    reset time. *)
Definition transient (r : http_result) : bool :=
  match r with
  | RequestException => true
  | NotJson _ => true
  | Response s h _ =>
      ((500 <=? s) && (s <? 600))
      || ((s =? 429)
          && match x_rate_limit_reset h with
             | None => true
             | Some HEmpty => true
             | Some (HNum z) => z =? 0
             | Some HGarbage => false
             end)
  end.

(** The seconds of backoff before jitter over some attempts. *)
Fixpoint backoff_seconds (attempts : list nat) : Z :=
  match attempts with
  | [] => 0
  | attempt :: rest => Z.min 300 (2 ^ Z.of_nat attempt) + backoff_seconds rest
  end.

(** A request answered by a 200 with a JSON body. *)
Definition is_success (ev : event) : bool :=
  match ev with
  | EvGet _ _ (Response s _ _) => s =? 200
  | _ => false
  end.

(** The primary key of a row of [likers]. *)
Definition liker_key (r : Likers.row) : string * string :=
  (Likers.tweet_id r, Likers.user_id r).

Definition keys_unique (tbl : list Likers.row) : Prop :=
  NoDup (map liker_key tbl).

(** A value sqlite3 can bind: no list, no dict, and an integer only
    within 64 bits. *)
Definition is_scalar (v : json) : bool :=
  match v with
  | JArr _ => false
  | JObj _ => false
  | JInt z => (- 2 ^ 63 <=? z) && (z <? 2 ^ 63)
  | _ => true
  end.

(** A record [insert_users] can bind: a dict whose id, username, name,
    created_at and description are no lists or dicts. *)
Definition record_binds (u : json) : bool :=
  match u with
  | JObj fields =>
      is_scalar (dict_get fields "id" JNull)
      && is_scalar (dict_get fields "username" JNull)
      && is_scalar (dict_get fields "name" JNull)
      && is_scalar (dict_get fields "created_at" JNull)
      && is_scalar (dict_get fields "description" (JStr EmptyString))
  | _ => false
  end.

(** A record without id: the key is missing or null. *)
Definition has_no_id (u : json) : bool :=
  match u with
  | JObj fields =>
      match dict_get fields "id" JNull with
      | JNull => true
      | _ => false
      end
  | _ => false
  end.

(** A body the loop can process: a dict whose [data] is absent or a list
    of records that bind, and whose [meta] is absent or a dict with a
    cursor that binds.  (On a 200 the diagnostics of [fetch_page] call
    [data.keys()] and [len(data['data'])]; such a body passes them.) *)
Definition body_ok (body : json) : bool :=
  match body with
  | JObj fields =>
      (match dict_get fields "data" (JArr []) with
       | JArr items => forallb record_binds items
       | _ => false
       end)
      && match dict_get fields "meta" (JObj []) with
         | JObj meta => is_scalar (dict_get meta "next_token" JNull)
         | _ => false
         end
  | _ => false
  end.

(** An answer [run] survives: a 200 with a body it can process, a 429
    whose reset header [int()] can read, or anything else. *)
Definition answer_ok (r : http_result) : bool :=
  match r with
  | RequestException => true
  | NotJson _ => true
  | Response s h body =>
      if s =? 200 then body_ok body
      else if s =? 429 then
        match x_rate_limit_reset h with
        | Some HGarbage => false
        | _ => true
        end
      else true
  end.

(** The checkpoint of the target holds what the loop has in memory. *)
Definition checkpointed (t : string) (p : progress) (w : world) : Prop :=
  exists row v,
    State.fetchone t (state w) = Some row /\
    bind_param (next_token p) = Ok v /\
    State.next_token row = text_affinity v /\
    State.done row = (if done p then 1 else 0) /\
    State.total_users_found row = total_users p.

(** A header text [int()] cannot read. *)
Definition unreadable (h : option header_text) : bool :=
  match h with
  | Some HEmpty => true
  | Some HGarbage => true
  | _ => false
  end.

(** Rate-limit headers [pace_requests] has no use for: both are absent, or
    one of them is unreadable. *)
Definition headers_unusable (h : headers) : bool :=
  unreadable (x_rate_limit_remaining h)
  || unreadable (x_rate_limit_reset h)
  || match x_rate_limit_remaining h, x_rate_limit_reset h with
     | None, None => true
     | _, _ => false
     end.

(** No request was made between [w] and [w']. *)
Definition no_request (w w' : world) : Prop :=
  requests_made w' = requests_made w.

(** At most [n] requests were made between [w] and [w']. *)
Definition requests_within (n : nat) (w w' : world) : Prop :=
  (requests_made w' <= requests_made w + n)%nat.

(** Between [w] and [w'] the table [likers] only grew, by rows of the
    target [t], and kept its primary key. *)
Definition grown (t : string) (w w' : world) : Prop :=
  exists added,
    likers w' = likers w ++ added /\
    Forall (fun r => Likers.tweet_id r = t) added /\
    (keys_unique (likers w) -> keys_unique (likers w')).

(** The checkpoint and the records of the target [t] read the same in
    [w] and [w']. *)
Definition kept (t : string) (w w' : world) : Prop :=
  State.fetchone t (state w') = State.fetchone t (state w) /\
  Likers.of_tweet t (likers w') = Likers.of_tweet t (likers w).

(** The progress columns of two checkpoint rows agree. *)
Definition same_progress (r r' : State.row) : Prop :=
  State.next_token r' = State.next_token r /\
  State.done r' = State.done r /\
  State.total_users_found r' = State.total_users_found r.

(** What [fetch_page] may hand to a loop that is to survive it: [None],
    or a body the loop can process. *)
Definition page_ok (r : res (option json)) : Prop :=
  match r with
  | Ok None => True
  | Ok (Some body) => body_ok body = true
  | Raise _ => False
  end.

(** ** Further scenarios *)

(** The remote cannot be reached and no signal arrives. *)
Definition E_unreachable : env :=
  Env dumps_stub dumps_stub
      (fun _ _ => RequestException)
      (fun _ => false) (fun _ => 0%N) (fun _ => 0%N).

(** The database of [w_prior], found with the stop flag already set. *)
Definition w_stopped : world :=
  World 1700000000000 true [] 0 [ row_of_id "a" ] [ State.Row "42" None 0 None 1 0 ] [].

(** A record whose name is a list: sqlite3 cannot bind it. *)
Definition u_bad : json := JObj [ ("id", JStr "b"); ("name", JArr []) ].

(** A record without id. *)
Definition u_anonymous : json := JObj [ ("name", JStr "Ann") ].

(** The same two records, collected in either order. *)
Definition w_ab : world :=
  World 1700000000000 false [] 0 [ row_of_id "a"; row_of_id "b" ] [] [].

Definition w_ba : world :=
  World 1700000500000 false [] 0 [ row_of_id "b"; row_of_id "a" ] [] [].

(** A configuration that asks for no export. *)
Definition cfg_none : config := Config "42" "out" "none" false false.

(** ** Vocabulary of the terminal failure *)




(** ** The snapshot, cell by cell *)

(** The cell csv.writer gets for a TEXT column: the text, or [None] for
    NULL. *)
Definition expected_cell (c : option string) : sqlval :=
  match c with
  | Some s => SText s
  | None => SNull
  end.

(** The first line of every snapshot. *)
Definition expected_header : list sqlval :=
  [ SText "tweet_id"; SText "user_id"; SText "username"; SText "name";
    SText "verified"; SText "created_at"; SText "description";
    SText "profile_url"; SText "public_metrics" ].

(** The line of a stored record: the target, then the eight columns of
    the SELECT. *)
Definition expected_line (t : string) (r : Likers.row) : list sqlval :=
  [ SText t; SText (Likers.user_id r);
    expected_cell (Likers.username r); expected_cell (Likers.name r);
    SInt (Likers.verified r); expected_cell (Likers.created_at r);
    expected_cell (Likers.description r); expected_cell (Likers.profile_url r);
    expected_cell (Likers.public_metrics r) ].


(** The remote answers 200 with a body that is not JSON and the headers
    of an exhausted rate limit that resets 100 s ahead, and a signal
    arrives while the program waits. *)
Definition E_garbled : env :=
  Env dumps_stub dumps_stub
      (fun _ _ => NotJson h_exhausted)
      (fun n => Nat.leb 1 n) (fun _ => 0%N) (fun _ => 0%N).

(** The same with a 503. *)
Definition E_overloaded : env :=
  Env dumps_stub dumps_stub
      (fun _ _ => Response 503 h_exhausted JNull)
      (fun n => Nat.leb 1 n) (fun _ => 0%N) (fun _ => 0%N).

(** * Properties *)

(** ** Texts of integers and snapshot names *)

Section Names.

Lemma to_int_nonnil (z : Z) :
  Z.to_int z <> Decimal.Pos Decimal.Nil /\ Z.to_int z <> Decimal.Neg Decimal.Nil.
Proof.
  destruct z as [|p|p]; simpl; split; try discriminate;
    intros H; inversion H as [H']; now apply (DecimalPos.Unsigned.to_uint_nonnil p).
Qed.


Lemma str_of_Z_not_empty (z : Z) : str_of_Z z <> EmptyString.
Proof.
unfold str_of_Z. intros H.
destruct (to_int_nonnil z) as [H1 H2].
pose proof (NilZero.isi (Z.to_int z) H1 H2) as Hi.
rewrite H in Hi. discriminate.
Qed.




Lemma starts_with_slash_append (s1 s2 : string) :
  s1 <> EmptyString ->
  starts_with_slash (String.append s1 s2) = starts_with_slash s1.
Proof. destruct s1; [contradiction|reflexivity]. Qed.


End Names.

(** ** Record store *)

Section RecordStore.

Variable E : env.

Lemma same_key_refl (r : Likers.row) : Likers.same_key r r = true.
Proof.
  unfold Likers.same_key. now rewrite !String.eqb_refl.
Qed.

Lemma insert_or_ignore_present (r : Likers.row) (tbl : list Likers.row) :
  existsb (Likers.same_key r) tbl = true -> Likers.insert_or_ignore r tbl = tbl.
Proof.
  unfold Likers.insert_or_ignore. now intros ->.
Qed.

Lemma insert_or_ignore_keeps (r r' : Likers.row) (tbl : list Likers.row) :
  existsb (Likers.same_key r) tbl = true ->
  existsb (Likers.same_key r) (Likers.insert_or_ignore r' tbl) = true.
Proof.
  intros H. unfold Likers.insert_or_ignore.
  destruct (existsb (Likers.same_key r') tbl); [assumption|].
  rewrite existsb_app, H. reflexivity.
Qed.

Lemma insert_or_ignore_holds (r : Likers.row) (tbl : list Likers.row) :
  existsb (Likers.same_key r) (Likers.insert_or_ignore r tbl) = true.
Proof.
  unfold Likers.insert_or_ignore.
  destruct (existsb (Likers.same_key r) tbl) eqn:H; [assumption|].
  rewrite existsb_app. simpl. rewrite same_key_refl.
  now rewrite orb_true_r.
Qed.

(** What identifies the row a user makes: the target and the bound id. *)
Lemma liker_row_key (t : string) (u : json) (ro : option Likers.row) :
  liker_row E t u = Ok ro ->
  exists v p,
    py_get u "id" JNull = Ok v /\ bind_param v = Ok p /\
    match text_affinity p with
    | None => ro = None
    | Some i => exists r, ro = Some r /\ Likers.tweet_id r = t /\ Likers.user_id r = i
    end.
Proof.
  unfold liker_row. destruct u; simpl; try discriminate.
  destruct (bind_param (dict_get fields "id" JNull)) as [p|] eqn:Hp; simpl;
    [|discriminate].
  destruct (bind_param (dict_get fields "username" JNull)); simpl; [|discriminate].
  destruct (bind_param (dict_get fields "name" JNull)); simpl; [|discriminate].
  destruct (bind_param (dict_get fields "created_at" JNull)); simpl; [|discriminate].
  destruct (bind_param (dict_get fields "description" (JStr EmptyString))); simpl;
    [|discriminate].
  intros H. exists (dict_get fields "id" JNull), p. repeat split; try assumption.
  destruct (text_affinity p); inversion H; subst; eauto.
Qed.

(** Two users with the same id make rows with the same key. *)
Lemma liker_row_same_id (t : string) (u u' : json) (ro ro' : option Likers.row) :
  py_get u "id" JNull = py_get u' "id" JNull ->
  liker_row E t u = Ok ro -> liker_row E t u' = Ok ro' ->
  match ro, ro' with
  | Some r, Some r' => Likers.same_key r' r = true
  | None, None => True
  | _, _ => False
  end.
Proof.
  intros Hid H H'.
  apply liker_row_key in H as (v & p & Hv & Hp & H).
  apply liker_row_key in H' as (v' & p' & Hv' & Hp' & H').
  rewrite Hid, Hv' in Hv. inversion Hv; subst v'.
  rewrite Hp' in Hp. inversion Hp; subst p'.
  destruct (text_affinity p).
  - destruct H as (r & -> & Ht & Hi), H' as (r' & -> & Ht' & Hi').
    unfold Likers.same_key. rewrite Ht, Ht', Hi, Hi', !String.eqb_refl. reflexivity.
  - now subst.
Qed.

Lemma insert_rows_keeps (t : string) (us : list json) :
  forall (tbl tbl1 : list Likers.row) (r : Likers.row),
    insert_rows E t us tbl = Ok tbl1 ->
    existsb (Likers.same_key r) tbl = true ->
    existsb (Likers.same_key r) tbl1 = true.
Proof.
  induction us as [|u rest IH]; simpl; intros tbl tbl1 r H Hr.
  - now inversion H; subst.
  - destruct (liker_row E t u) as [[row|]|]; simpl in H; try discriminate.
    + eapply IH; [eassumption|]. now apply insert_or_ignore_keeps.
    + eapply IH; eassumption.
Qed.

Lemma insert_rows_stores (t : string) (us : list json) :
  forall tbl tbl1, insert_rows E t us tbl = Ok tbl1 -> all_stored E t us tbl1.
Proof.
  induction us as [|u rest IH]; simpl; intros tbl tbl1 H.
  - constructor.
  - destruct (liker_row E t u) as [ro|] eqn:Hu; simpl in H; [|discriminate].
    constructor; [|eapply IH; eassumption].
    exists ro. split; [assumption|].
    destruct ro as [r|]; [|exact I].
    eapply insert_rows_keeps; [eassumption|]. apply insert_or_ignore_holds.
Qed.

Lemma insert_rows_stored (t : string) (us : list json) (tbl : list Likers.row) :
  all_stored E t us tbl -> insert_rows E t us tbl = Ok tbl.
Proof.
  induction 1 as [|u rest (ro & Hu & Hr) _ IH]; simpl; [reflexivity|].
  rewrite Hu. simpl. destruct ro as [r|]; [|assumption].
  now rewrite insert_or_ignore_present.
Qed.

(** Ingesting a batch a second time changes nothing. *)
Lemma insert_rows_twice (t : string) (us : list json) (tbl tbl1 : list Likers.row) :
  insert_rows E t us tbl = Ok tbl1 -> insert_rows E t us tbl1 = Ok tbl1.
Proof.
  intros H. apply insert_rows_stored. eapply insert_rows_stores; eassumption.
Qed.


Lemma same_key_trans (r1 r2 : Likers.row) (tbl : list Likers.row) :
  Likers.same_key r1 r2 = true ->
  existsb (Likers.same_key r2) tbl = true ->
  existsb (Likers.same_key r1) tbl = true.
Proof.
  unfold Likers.same_key. intros H12 H2.
  apply andb_true_iff in H12 as [Ht Hu].
  apply String.eqb_eq in Ht, Hu.
  now rewrite Ht, Hu.
Qed.

Lemma set_likers_same (w : world) : set_likers (likers w) w = w.
Proof. now destruct w. Qed.

Lemma insert_users_inv (t : string) (us : list json) (w w1 : world) :
  insert_users E t us w = (Ok tt, w1) ->
  exists tbl, insert_rows E t us (likers w) = Ok tbl /\ w1 = set_likers tbl w.
Proof.
  unfold insert_users. destruct (insert_rows E t us (likers w)) as [tbl|];
    intros H; inversion H. eauto.
Qed.

(** C2. Idempotent ingestion: once a record with some id has been inserted
    for a target, inserting a record with that id again (the same record or
    one with other fields) returns normally and leaves the store as it
    was: same rows, same count. *)
Theorem insert_users_duplicate_is_noop (t : string) (u u' : json) (w w1 w' : world) :
  py_get u "id" JNull = py_get u' "id" JNull ->
  insert_users E t [u] w = (Ok tt, w1) ->
  insert_users E t [u'] w = (Ok tt, w') ->
  insert_users E t [u'] w1 = (Ok tt, w1) /\
  likers (snd (insert_users E t [u'] w1)) = likers w1 /\
  Likers.count t (likers (snd (insert_users E t [u'] w1))) = Likers.count t (likers w1).
Proof.
  intros Hid Hu Hu'.
  assert (Hnoop : insert_users E t [u'] w1 = (Ok tt, w1)).
  { apply insert_users_inv in Hu as (tbl & Hrows & ->).
    apply insert_users_inv in Hu' as (tbl' & Hrows' & _).
    pose proof (insert_rows_stores _ _ _ _ Hrows) as Hstored.
    inversion Hstored as [|? ? (ro & Hro & Hin) _]; subst.
    simpl in Hrows'.
    destruct (liker_row E t u') as [ro'|] eqn:Hro'; [|discriminate].
    pose proof (liker_row_same_id _ _ _ _ _ Hid Hro Hro') as Hkey.
    unfold insert_users. simpl. rewrite Hro'. simpl.
    destruct ro as [r|], ro' as [r'|]; try contradiction.
    - rewrite insert_or_ignore_present by (eapply same_key_trans; eassumption).
      reflexivity.
    - reflexivity. }
  rewrite Hnoop. auto.
Qed.

End RecordStore.

(** ** Checkpoint store *)

Section CheckpointStore.

Lemma set_state_same (w : world) : set_state (state w) w = w.
Proof. now destruct w. Qed.

Lemma find_none_app {A} (f : A -> bool) (l l' : list A) :
  find f l = None -> find f (l ++ l') = find f l'.
Proof.
  induction l as [|a l IH]; simpl; [reflexivity|].
  destruct (f a); [discriminate|assumption].
Qed.

Lemma find_none_existsb {A} (f : A -> bool) (l : list A) :
  find f l = None -> existsb f l = false.
Proof.
  induction l as [|a l IH]; simpl; [reflexivity|].
  destruct (f a); [discriminate|assumption].
Qed.

Lemma find_some_existsb {A} (f : A -> bool) (l : list A) (a : A) :
  find f l = Some a -> existsb f l = true.
Proof.
  induction l as [|b l IH]; simpl; [discriminate|].
  destruct (f b); [reflexivity|assumption].
Qed.

(** An UPDATE whose WHERE clause matches no row changes nothing. *)
Lemma map_unmatched {A} (f : A -> bool) (g : A -> A) (l : list A) :
  find f l = None -> map (fun a => if f a then g a else a) l = l.
Proof.
  induction l as [|a l IH]; simpl; [reflexivity|].
  destruct (f a) eqn:Ha; [discriminate|]. intros H. now rewrite IH.
Qed.

Lemma update_progress_absent (t : string) tok d total n (tbl : list State.row) :
  State.fetchone t tbl = None -> State.update_progress t tok d total n tbl = tbl.
Proof. apply map_unmatched. Qed.

Lemma update_export_absent (t : string) n (tbl : list State.row) :
  State.fetchone t tbl = None -> State.update_export t n tbl = tbl.
Proof. apply map_unmatched. Qed.

(** The row [fetchone] sees after an UPDATE of the progress columns. *)
Lemma fetchone_update_progress (t : string) tok d total n (tbl : list State.row) :
  State.fetchone t (State.update_progress t tok d total n tbl) =
  match State.fetchone t tbl with
  | Some r => Some (State.Row (State.tweet_id r) tok d (Some n) total
                      (State.last_export_time r))
  | None => None
  end.
Proof.
  unfold State.fetchone, State.update_progress.
  induction tbl as [|r tbl IH]; simpl; [reflexivity|].
  destruct (String.eqb (State.tweet_id r) t) eqn:Hr; simpl; rewrite Hr.
  - reflexivity.
  - apply IH.
Qed.

Lemma fetchone_update_export (t : string) n (tbl : list State.row) :
  State.fetchone t (State.update_export t n tbl) =
  match State.fetchone t tbl with
  | Some r => Some (State.Row (State.tweet_id r) (State.next_token r) (State.done r)
                      (State.last_request_time r) (State.total_users_found r) n)
  | None => None
  end.
Proof.
  unfold State.fetchone, State.update_export.
  induction tbl as [|r tbl IH]; simpl; [reflexivity|].
  destruct (String.eqb (State.tweet_id r) t) eqn:Hr; simpl; rewrite Hr.
  - reflexivity.
  - apply IH.
Qed.

Lemma fetchone_tweet_id (t : string) (tbl : list State.row) (r : State.row) :
  State.fetchone t tbl = Some r -> State.tweet_id r = t.
Proof.
  intros H. apply find_some in H as [_ H]. now apply String.eqb_eq.
Qed.

Lemma fetchone_insert_default (t : string) (tbl : list State.row) :
  State.fetchone t tbl = None ->
  State.fetchone t (State.insert_default t tbl) = Some (State.Row t None 0 None 0 0).
Proof.
  intros H. unfold State.insert_default.
  rewrite (find_none_existsb _ _ H). unfold State.fetchone.
  rewrite find_none_app by assumption.
  simpl. now rewrite String.eqb_refl.
Qed.

Lemma bind_param_py_of_text (tok : option string) :
  exists v, bind_param (py_of_text tok) = Ok v /\ text_affinity v = tok.
Proof.
  destruct tok as [s|]; simpl; eauto.
Qed.

(** C10. For a target with no checkpoint row, [save_state] returns
    normally and leaves the whole store as it was: the UPDATE matches no
    row and creates none.  Once [get_state] has created the row, the same
    call stores the cursor, the flag and the count. *)
Theorem save_state_without_row_changes_nothing
    (t : string) (tok : option string) (d : bool) (total : Z) (w : world) :
  State.fetchone t (state w) = None ->
  save_state t (py_of_text tok) d total w = (Ok tt, w) /\
  (let w1 := snd (get_state t w) in
   fst (save_state t (py_of_text tok) d total w1) = Ok tt /\
   State.fetchone t (state (snd (save_state t (py_of_text tok) d total w1))) =
   Some (State.Row t tok (if d then 1 else 0) (Some (now w1)) total 0)).
Proof.
  intros Hnone.
  destruct (bind_param_py_of_text tok) as (v & Hv & Htok).
  split.
  - unfold save_state. rewrite Hv, Htok.
    rewrite update_progress_absent by assumption.
    now rewrite set_state_same.
  - unfold get_state. rewrite Hnone. simpl.
    unfold save_state. rewrite Hv, Htok. simpl. split; [reflexivity|].
    rewrite fetchone_update_progress, fetchone_insert_default by assumption.
    reflexivity.
Qed.

End CheckpointStore.

(** ** Snapshot exporter *)

Section Exporter.

Variable cfg : config.
Variable E : env.

Lemma leb_refl (s : string) : String.leb s s = true.
Proof.
  pose proof (proj2 (String_as_OT.cmp_eq s s) eq_refl) as H.
  unfold String_as_OT.cmp in H. unfold String.leb. now rewrite H.
Qed.

Lemma leb_cases (s1 s2 : string) :
  String.leb s1 s2 = true <-> s1 = s2 \/ String_as_OT.lt s1 s2.
Proof.
  split.
  - unfold String.leb. destruct (String.compare s1 s2) eqn:H; intros Hle.
    + left. now apply String.compare_eq_iff.
    + right. now apply String_as_OT.cmp_lt.
    + discriminate.
  - intros [->|Hlt].
    + apply leb_refl.
    + apply String_as_OT.cmp_lt in Hlt. unfold String_as_OT.cmp in Hlt.
      unfold String.leb. now rewrite Hlt.
Qed.

Lemma leb_trans (s1 s2 s3 : string) :
  String.leb s1 s2 = true -> String.leb s2 s3 = true -> String.leb s1 s3 = true.
Proof.
  rewrite !leb_cases. intros [->|H12] [->|H23]; auto.
  right. eapply String_as_OT.lt_trans; eassumption.
Qed.

Lemma insert_sorted_perm (r : Likers.row) (l : list Likers.row) :
  Permutation (Likers.insert_sorted r l) (r :: l).
Proof.
  induction l as [|r' l IH]; simpl; [reflexivity|].
  destruct (String.leb (Likers.user_id r) (Likers.user_id r')); [reflexivity|].
  rewrite IH. apply perm_swap.
Qed.

Lemma order_by_user_id_perm (l : list Likers.row) :
  Permutation (Likers.order_by_user_id l) l.
Proof.
  induction l as [|r l IH]; simpl; [reflexivity|].
  rewrite insert_sorted_perm. now constructor.
Qed.

Lemma insert_sorted_sorted (r : Likers.row) (l : list Likers.row) :
  StronglySorted id_le l -> StronglySorted id_le (Likers.insert_sorted r l).
Proof.
  induction 1 as [|r' l Hl IH Hall]; simpl.
  - repeat constructor.
  - destruct (String.leb (Likers.user_id r) (Likers.user_id r')) eqn:Hle.
    + constructor; [now constructor|].
      constructor; [assumption|].
      eapply Forall_impl; [|exact Hall].
      intros a Ha. unfold id_le in *. eapply leb_trans; eassumption.
    + constructor; [assumption|].
      eapply Permutation_Forall; [symmetry; apply insert_sorted_perm|].
      constructor; [|assumption].
      unfold id_le.
      destruct (String.leb_total (Likers.user_id r) (Likers.user_id r')); congruence.
Qed.

Lemma order_by_user_id_sorted (l : list Likers.row) :
  StronglySorted id_le (Likers.order_by_user_id l).
Proof.
  induction l as [|r l IH]; simpl; [constructor|].
  now apply insert_sorted_sorted.
Qed.

Lemma read_file_written (path : string) (c : csv_file) (w : world) :
  read_file path (files (write_file path c w)) = Some c.
Proof. simpl. now rewrite String.eqb_refl. Qed.

(** What one export does to the world. *)
Lemma export_csv_spec (t : string) (w : world) :
  let path := snapshot_path cfg t (now w) in
  let w1 := emit E (EvExport path) 0 (write_file path (snapshot t (likers w)) w) in
  export_csv cfg E t w =
  (Ok path, set_state (State.update_export t (now w1) (state w1)) w1).
Proof. reflexivity. Qed.

(** The content of a snapshot, spelled out. *)
Lemma snapshot_lines (t : string) (tbl : list Likers.row) :
  snapshot t tbl =
  expected_header ::
  map (expected_line t) (Likers.order_by_user_id (Likers.of_tweet t tbl)).
Proof. reflexivity. Qed.

(** C7. An export of a target lists the stored records of that target,
    all of them and each once, by ascending record id: after the fixed
    header, one line per record with the target and the eight columns of
    the record.  Two exports over the same records therefore write the
    same rows, whatever else differs between the two moments (clock,
    checkpoint, earlier files).  An export leaves the records as they
    are. *)
Theorem export_rows_are_deterministic (t : string) (w1 w2 : world) :
  likers w1 = likers w2 ->
  exists (rows : list Likers.row) (p1 p2 : string),
    Permutation rows
      (filter (fun r => String.eqb (Likers.tweet_id r) t) (likers w1)) /\
    StronglySorted id_le rows /\
    fst (export_csv cfg E t w1) = Ok p1 /\
    fst (export_csv cfg E t w2) = Ok p2 /\
    read_file p1 (files (snd (export_csv cfg E t w1))) =
      Some (expected_header :: map (expected_line t) rows) /\
    read_file p2 (files (snd (export_csv cfg E t w2))) =
      Some (expected_header :: map (expected_line t) rows) /\
    likers (snd (export_csv cfg E t w1)) = likers w1.
Proof.
  intros Hsame.
  exists (Likers.order_by_user_id (Likers.of_tweet t (likers w1))).
  exists (snapshot_path cfg t (now w1)), (snapshot_path cfg t (now w2)).
  rewrite !export_csv_spec. cbn [fst snd].
  split; [apply order_by_user_id_perm|].
  split; [apply order_by_user_id_sorted|].
  split; [reflexivity|]. split; [reflexivity|].
  split; [|split].
  - cbn [files set_state emit]. now rewrite read_file_written, snapshot_lines.
  - cbn [files set_state emit]. now rewrite read_file_written, snapshot_lines, Hsame.
  - reflexivity.
Qed.

End Exporter.

(** ** How the computations move the world *)

Section Steps.

Variable cfg : config.
Variable E : env.
Variable R : world -> world -> Prop.

Hypothesis R_refl : forall w, R w w.
Hypothesis R_trans : forall w1 w2 w3, R w1 w2 -> R w2 w3 -> R w1 w3.
Hypothesis R_sleep : forall d w, 0 <= d -> R w (emit E (EvSleep d) d w).
Hypothesis R_flag : forall b w, R w (emit E (EvStopFlag b) 0 w).
Hypothesis R_get : forall t req r w, R w (emit E (EvGet t req r) 0 w).
Hypothesis R_state : forall tbl w, R w (set_state tbl w).
Hypothesis R_likers : forall tbl w, R w (set_likers tbl w).
Hypothesis R_export :
  forall path c w, R w (emit E (EvExport path) 0 (write_file path c w)).

Lemma steps_ret {A} (a : A) : steps R (ret a).
Proof. intros w. apply R_refl. Qed.

Lemma steps_raise {A} (e : exn) : steps R (@raise A e).
Proof. intros w. apply R_refl. Qed.

Lemma steps_lift {A} (r : res A) : steps R (lift r).
Proof. intros w. apply R_refl. Qed.

Lemma steps_bind {A B} (m : M A) (k : A -> M B) :
  steps R m -> (forall a, steps R (k a)) -> steps R (bind m k).
Proof.
  intros Hm Hk w. unfold bind. specialize (Hm w).
  destruct (m w) as [[a|e] w1]; simpl in *; [|assumption].
  eapply R_trans; [eassumption|apply Hk].
Qed.

Lemma steps_if {A} (b : bool) (m1 m2 : M A) :
  steps R m1 -> steps R m2 -> steps R (if b then m1 else m2).
Proof. now destruct b. Qed.

Lemma steps_sleep (d : Z) : 0 <= d -> steps R (sleep E d).
Proof. intros Hd w. now apply R_sleep. Qed.

Lemma steps_read_stop_flag : steps R (read_stop_flag E).
Proof. intros w. apply R_flag. Qed.

Lemma steps_session_get (req : request) : steps R (session_get E req).
Proof. intros w. apply R_get. Qed.

Lemma random_uniform_bounds (lo hi : Z) (w : world) :
  lo <= hi -> lo <= random_uniform E lo hi w <= hi.
Proof.
  intros H. unfold random_uniform.
  pose proof (Z.mod_pos_bound (Z.of_N (rand E (List.length (trace w)))) (hi - lo + 1)).
  lia.
Qed.

Lemma steps_pace_countdown (n : nat) : steps R (pace_countdown E n).
Proof.
  induction n as [|n IH]; simpl; [apply steps_ret|].
  apply steps_bind; [apply steps_read_stop_flag|]. intros stop.
  apply steps_if; [apply steps_ret|].
  apply steps_bind; [now apply steps_sleep|]. intros _. exact IH.
Qed.

Lemma steps_pace_requests (hdrs : headers) : steps R (pace_requests cfg E hdrs).
Proof.
  unfold pace_requests.
  destruct (match int_of_header (x_rate_limit_remaining hdrs) 1 with
            | Ok remaining =>
                match int_of_header (x_rate_limit_reset hdrs) 0 with
                | Ok reset => (remaining, reset)
                | Raise _ => (1, 0)
                end
            | Raise _ => (1, 0)
            end) as [remaining reset].
  apply steps_if; [apply steps_ret|].
  apply steps_if; [|apply steps_if; [|apply steps_ret]].
  - intros w. apply steps_pace_countdown.
  - intros w. apply steps_sleep.
    pose proof (random_uniform_bounds 1000 3000 w). lia.
Qed.

Lemma backoff_delay_nonneg (attempt : nat) (w : world) :
  0 <= Z.min 300 (2 ^ Z.of_nat attempt) * 1000 + random_uniform E 0 1200 w.
Proof.
  pose proof (random_uniform_bounds 0 1200 w).
  pose proof (Z.pow_nonneg 2 (Z.of_nat attempt)).
  lia.
Qed.

Lemma steps_backoff_sleep (attempt : nat) : steps R (backoff_sleep E attempt).
Proof.
  intros w. apply steps_sleep. apply backoff_delay_nonneg.
Qed.

Lemma steps_retry_countdown (n : nat) : steps R (retry_countdown E n).
Proof.
  induction n as [|n IH]; simpl; [apply steps_ret|].
  apply steps_bind; [apply steps_read_stop_flag|]. intros stop.
  apply steps_if; [apply steps_ret|].
  apply steps_bind; [now apply steps_sleep|]. intros _. exact IH.
Qed.

Lemma steps_handle_response (attempt : nat) (response : http_result)
    (retry : M (option json)) :
  steps R retry -> steps R (handle_response cfg E attempt response retry).
Proof.
  intros IH. destruct response as [status_code hdrs body|hdrs|]; cbn [handle_response].
  - apply steps_bind; [apply steps_pace_requests|]. intros _.
    apply steps_if;
      [apply steps_bind; [apply steps_lift|intros _; apply steps_ret]|].
    apply steps_if; [|apply steps_if; [|apply steps_ret]].
    + apply steps_bind; [apply steps_lift|]. intros reset.
      apply steps_if.
      * apply steps_bind; [intros w; apply R_refl|]. intros delay.
        apply steps_bind; [apply steps_retry_countdown|]. intros stopped.
        apply steps_if; [apply steps_ret|].
        apply steps_bind; [apply steps_read_stop_flag|]. intros stop.
        apply steps_if; [apply steps_ret|exact IH].
      * apply steps_bind; [apply steps_backoff_sleep|]. intros _. exact IH.
    + apply steps_bind; [apply steps_backoff_sleep|]. intros _. exact IH.
  - apply steps_bind; [apply steps_pace_requests|]. intros _.
    apply steps_bind; [apply steps_backoff_sleep|]. intros _. exact IH.
  - apply steps_bind; [apply steps_backoff_sleep|]. intros _. exact IH.
Qed.

Lemma steps_fetch_attempts (req : request) (attempts : list nat) :
  steps R (fetch_attempts cfg E req attempts).
Proof.
  induction attempts as [|attempt rest IH]; simpl; [apply steps_ret|].
  apply steps_bind; [apply steps_session_get|]. intros response.
  now apply steps_handle_response.
Qed.

Lemma steps_fetch_page (t : string) (tok : json) : steps R (fetch_page cfg E t tok).
Proof. apply steps_fetch_attempts. Qed.

Lemma steps_get_state (t : string) : steps R (get_state t).
Proof.
  intros w. unfold get_state. destruct (State.fetchone t (state w)); simpl.
  - apply R_refl.
  - apply R_state.
Qed.

Lemma steps_save_state (t : string) (tok : json) (d : bool) (total : Z) :
  steps R (save_state t tok d total).
Proof.
  intros w. unfold save_state. destruct (bind_param tok); simpl.
  - apply R_state.
  - apply R_refl.
Qed.

Lemma steps_insert_users (t : string) (us : list json) : steps R (insert_users E t us).
Proof.
  intros w. unfold insert_users. destruct (insert_rows E t us (likers w)); simpl.
  - apply R_likers.
  - apply R_refl.
Qed.

Lemma steps_ingest (users : json) (total : Z) : steps R (ingest cfg E users total).
Proof.
  destruct users; simpl; try apply steps_raise.
  apply steps_bind; [apply steps_insert_users|]. intros _. apply steps_ret.
Qed.

Lemma steps_process_page (p : progress) (data : json) :
  steps R (process_page cfg E p data).
Proof.
  unfold process_page.
  apply steps_bind; [apply steps_lift|]. intros users.
  apply steps_bind; [apply steps_if; [apply steps_ingest|apply steps_ret]|].
  intros total'.
  apply steps_bind; [apply steps_lift|]. intros meta.
  apply steps_bind; [apply steps_lift|]. intros tok'.
  apply steps_bind; [apply steps_save_state|]. intros _.
  apply steps_bind; [|intros _; apply steps_ret].
  apply steps_if; [|apply steps_ret].
  apply steps_bind; [apply steps_read_stop_flag|]. intros stop.
  apply steps_if; [|apply steps_ret].
  apply steps_sleep. destruct (QUICK_TEST cfg); lia.
Qed.

Lemma steps_collect (k : nat) : forall p, steps R (collect cfg E k p).
Proof.
  induction k as [|k IH]; intros p; simpl.
  - apply steps_if; [apply steps_ret|].
    apply steps_bind; [apply steps_read_stop_flag|]. intros stop.
    apply steps_if; apply steps_ret.
  - apply steps_if; [apply steps_ret|].
    apply steps_bind; [apply steps_read_stop_flag|]. intros stop.
    apply steps_if; [apply steps_ret|].
    apply steps_bind; [apply steps_fetch_page|]. intros [data|].
    + apply steps_bind; [apply steps_process_page|]. intros p'. apply IH.
    + apply steps_bind; [apply steps_save_state|]. intros _. apply steps_ret.
Qed.

Lemma steps_export_csv (t : string) : steps R (export_csv cfg E t).
Proof.
  intros w. rewrite export_csv_spec. cbn [snd].
  eapply R_trans; [apply R_export|apply R_state].
Qed.

Lemma steps_final_export : steps R (final_export cfg E).
Proof.
  unfold final_export. apply steps_if; [|apply steps_ret].
  intros w. destruct (0 <? Likers.count (TWEET_ID cfg) (likers w)).
  - apply steps_bind; [apply steps_export_csv|]. intros _. apply steps_ret.
  - apply R_refl.
Qed.

Lemma steps_run : steps R (run cfg E).
Proof.
  unfold run. apply steps_bind; [apply steps_get_state|].
  intros [[[tok d] total] last].
  apply steps_if.
  - apply steps_bind; [apply steps_export_csv|]. intros _. apply steps_ret.
  - apply steps_bind; [apply steps_collect|]. intros _.
    apply steps_bind; [apply steps_read_stop_flag|]. intros _.
    apply steps_final_export.
Qed.

End Steps.

(** ** Frames: what each part of the program leaves alone *)

Section Frames.

Variable cfg : config.
Variable E : env.

Lemma moves_refl (allowed : event -> bool) (w : world) : moves E allowed w w.
Proof.
  unfold moves. repeat split; try lia; auto.
  exists []. rewrite app_nil_r. simpl. auto.
Qed.

Lemma moves_trans (allowed : event -> bool) (w1 w2 w3 : world) :
  moves E allowed w1 w2 -> moves E allowed w2 w3 -> moves E allowed w1 w3.
Proof.
  intros (Hc1 & Hs1 & Hn1 & evs1 & Ht1 & Ha1 & Hr1)
         (Hc2 & Hs2 & Hn2 & evs2 & Ht2 & Ha2 & Hr2).
  unfold moves. repeat split; try lia; auto.
  - intros Hno. rewrite Hn2, Hn1; auto.
  - exists (evs1 ++ evs2). repeat split.
    + now rewrite Ht2, Ht1, app_assoc.
    + now rewrite forallb_app, Ha1, Ha2.
    + rewrite Hr2, Hr1, filter_app, length_app. lia.
Qed.

Lemma moves_weaken (allowed allowed' : event -> bool) (w w' : world) :
  (forall ev, allowed ev = true -> allowed' ev = true) ->
  moves E allowed w w' -> moves E allowed' w w'.
Proof.
  intros Himp (Hc & Hs & Hn & evs & Ht & Ha & Hr).
  unfold moves. repeat split; auto.
  exists evs. repeat split; auto.
  rewrite forallb_forall in *. auto.
Qed.

Lemma moves_emit (allowed : event -> bool) (ev : event) (d : Z) (w : world) :
  allowed ev = true -> 0 <= d -> moves E allowed w (emit E ev d w).
Proof.
  intros Ha Hd. unfold moves, emit. cbn [clock stop_flag trace requests_made].
  repeat split.
  - lia.
  - intros ->. reflexivity.
  - intros Hno. rewrite Hno. apply orb_false_r.
  - exists [ev]. repeat split.
    + simpl. now rewrite Ha.
    + destruct ev; simpl; lia.
Qed.

Lemma moves_set_state (allowed : event -> bool) tbl (w : world) :
  moves E allowed w (set_state tbl w).
Proof. exact (moves_refl allowed w). Qed.

Lemma moves_set_likers (allowed : event -> bool) tbl (w : world) :
  moves E allowed w (set_likers tbl w).
Proof. exact (moves_refl allowed w). Qed.

Lemma moves_write_file (allowed : event -> bool) path c (w : world) :
  moves E allowed w (write_file path c w).
Proof. exact (moves_refl allowed w). Qed.

Lemma same_store_refl (w : world) : same_store w w.
Proof. now unfold same_store. Qed.

Lemma same_store_trans (w1 w2 w3 : world) :
  same_store w1 w2 -> same_store w2 w3 -> same_store w1 w3.
Proof.
  unfold same_store. intros (H1 & H2 & H3) (H4 & H5 & H6).
  repeat split; congruence.
Qed.

Lemma same_store_emit (ev : event) (d : Z) (w : world) : same_store w (emit E ev d w).
Proof. now unfold same_store. Qed.

Lemma waited_refl (w : world) : waited E w w.
Proof. split; [apply moves_refl|apply same_store_refl]. Qed.

Lemma waited_trans (w1 w2 w3 : world) :
  waited E w1 w2 -> waited E w2 w3 -> waited E w1 w3.
Proof.
  intros [H1 H2] [H3 H4].
  split; [eapply moves_trans|eapply same_store_trans]; eassumption.
Qed.

Lemma fetched_refl (w : world) : fetched E w w.
Proof. split; [apply moves_refl|apply same_store_refl]. Qed.

Lemma fetched_trans (w1 w2 w3 : world) :
  fetched E w1 w2 -> fetched E w2 w3 -> fetched E w1 w3.
Proof.
  intros [H1 H2] [H3 H4].
  split; [eapply moves_trans|eapply same_store_trans]; eassumption.
Qed.

Lemma waited_fetched (w w' : world) : waited E w w' -> fetched E w w'.
Proof.
  intros [H1 H2]. split; [|assumption].
  eapply moves_weaken; [|eassumption]. now intros [].
Qed.

Lemma collected_refl (w : world) : collected E w w.
Proof. split; [apply moves_refl|reflexivity]. Qed.

Lemma collected_trans (w1 w2 w3 : world) :
  collected E w1 w2 -> collected E w2 w3 -> collected E w1 w3.
Proof.
  intros [H1 H2] [H3 H4].
  split; [eapply moves_trans; eassumption|congruence].
Qed.

Lemma fetched_collected (w w' : world) : fetched E w w' -> collected E w w'.
Proof. intros [H1 (_ & _ & H2)]. now split. Qed.

(** Waiting on rate-limit headers only waits. *)
Lemma pace_requests_waited (hdrs : headers) : steps (waited E) (pace_requests cfg E hdrs).
Proof.
  apply steps_pace_requests.
  - apply waited_refl.
  - apply waited_trans.
  - intros d w Hd. split; [now apply moves_emit|apply same_store_emit].
  - intros b w. split; [apply moves_emit; [reflexivity|lia]|apply same_store_emit].
Qed.

Lemma retry_countdown_waited (n : nat) : steps (waited E) (retry_countdown E n).
Proof.
  apply steps_retry_countdown.
  - apply waited_refl.
  - apply waited_trans.
  - intros d w Hd. split; [now apply moves_emit|apply same_store_emit].
  - intros b w. split; [apply moves_emit; [reflexivity|lia]|apply same_store_emit].
Qed.

Lemma backoff_sleep_waited (attempt : nat) : steps (waited E) (backoff_sleep E attempt).
Proof.
  apply steps_backoff_sleep.
  intros d w Hd. split; [now apply moves_emit|apply same_store_emit].
Qed.

(** Fetching a page touches neither store nor files. *)
Lemma fetch_attempts_fetched (req : request) (attempts : list nat) :
  steps (fetched E) (fetch_attempts cfg E req attempts).
Proof.
  apply steps_fetch_attempts.
  - apply fetched_refl.
  - apply fetched_trans.
  - intros d w Hd. split; [now apply moves_emit|apply same_store_emit].
  - intros b w. split; [apply moves_emit; [reflexivity|lia]|apply same_store_emit].
  - intros t req' r w. split; [apply moves_emit; [reflexivity|lia]|apply same_store_emit].
Qed.

(** The collection loop writes no file and exports nothing. *)
Lemma collect_collected (k : nat) (p : progress) :
  steps (collected E) (collect cfg E k p).
Proof.
  apply steps_collect.
  - apply collected_refl.
  - apply collected_trans.
  - intros d w Hd. split; [now apply moves_emit|reflexivity].
  - intros b w. split; [apply moves_emit; [reflexivity|lia]|reflexivity].
  - intros t req' r w. split; [apply moves_emit; [reflexivity|lia]|reflexivity].
  - intros tbl w. split; [apply moves_set_state|reflexivity].
  - intros tbl w. split; [apply moves_set_likers|reflexivity].
Qed.

(** The whole run only appends to the trace. *)
Lemma run_moves : steps (moves E any_event) (run cfg E).
Proof.
  apply steps_run.
  - apply moves_refl.
  - apply moves_trans.
  - intros d w Hd. now apply moves_emit.
  - intros b w. apply moves_emit; [reflexivity|lia].
  - intros t req' r w. apply moves_emit; [reflexivity|lia].
  - intros tbl w. apply moves_set_state.
  - intros tbl w. apply moves_set_likers.
  - intros path c w. eapply moves_trans; [apply moves_write_file|].
    apply moves_emit; [reflexivity|lia].
Qed.

(** *** Computations that never raise *)

Lemma pace_countdown_ok (n : nat) (w : world) : fst (pace_countdown E n w) = Ok tt.
Proof.
  revert w. induction n as [|n IH]; intros w; simpl; [reflexivity|].
  unfold bind. simpl.
  destruct (stop_flag w || signal E (List.length (trace w))); simpl; [reflexivity|].
  apply IH.
Qed.

Lemma pace_requests_ok (hdrs : headers) (w : world) :
  fst (pace_requests cfg E hdrs w) = Ok tt.
Proof.
  unfold pace_requests.
  destruct (match int_of_header (x_rate_limit_remaining hdrs) 1 with
            | Ok remaining =>
                match int_of_header (x_rate_limit_reset hdrs) 0 with
                | Ok reset => (remaining, reset)
                | Raise _ => (1, 0)
                end
            | Raise _ => (1, 0)
            end) as [remaining reset].
  destruct (QUICK_TEST cfg); [reflexivity|].
  destruct ((remaining <=? 1) && negb (reset =? 0)); [apply pace_countdown_ok|].
  destruct (remaining <=? 5); reflexivity.
Qed.

Lemma pace_requests_eq (hdrs : headers) (w : world) :
  pace_requests cfg E hdrs w = (Ok tt, snd (pace_requests cfg E hdrs w)).
Proof.
  rewrite <- pace_requests_ok with (hdrs := hdrs) (w := w).
  now destruct (pace_requests cfg E hdrs w).
Qed.

Lemma final_export_ok (w : world) : fst (final_export cfg E w) = Ok tt.
Proof.
  unfold final_export.
  destruct (String.eqb (EXPORT_MODE cfg) "final" || String.eqb (EXPORT_MODE cfg) "periodic");
    [|reflexivity].
  destruct (0 <? Likers.count (TWEET_ID cfg) (likers w)); reflexivity.
Qed.

End Frames.

(** ** Page fetcher and collection loop: failures *)

Section Failures.

Variable cfg : config.
Variable E : env.

(** A status that is neither 200, nor 429, nor 5xx ends [fetch_page] at
    once: the rate-limit headers are honoured, then [None] is returned. *)
Lemma fetch_attempts_other_status (req : request) (attempt : nat) (rest : list nat)
    (w : world) (s : Z) (h : headers) (b : json) :
  remote E (requests_made w) req = Response s h b ->
  s <> 200 -> s <> 429 -> ~ (500 <= s < 600) ->
  fetch_attempts cfg E req (attempt :: rest) w =
  (Ok None, snd (pace_requests cfg E h (emit E (EvGet (clock w) req (Response s h b)) 0 w))).
Proof.
  intros Hr H200 H429 H5xx. simpl. unfold bind, session_get. rewrite Hr.
  unfold handle_response, bind. rewrite pace_requests_eq.
  destruct (Z.eqb_spec s 200); [contradiction|].
  destruct (Z.eqb_spec s 429); [contradiction|].
  destruct (Z.leb_spec 500 s), (Z.ltb_spec s 600); simpl; try reflexivity.
  exfalso. apply H5xx. lia.
Qed.

Lemma waited_after_get (req : request) (r : http_result) (h : headers) (w : world) :
  let w' := snd (pace_requests cfg E h (emit E (EvGet (clock w) req r) 0 w)) in
  requests_made w' = S (requests_made w) /\ same_store w w' /\
  (stop_flag w = true -> stop_flag w' = true).
Proof.
  intros w'.
  destruct (pace_requests_waited cfg E h (emit E (EvGet (clock w) req r) 0 w))
    as [(_ & Hflag & _ & evs & _ & Hq & Hreq) Hstore].
  fold w' in Hflag, Hreq, Hstore.
  assert (Hnone : filter is_get evs = []).
  { clear - Hq. induction evs as [|ev evs IH]; [reflexivity|].
    simpl in Hq. apply andb_true_iff in Hq as [Hev Hq].
    destruct ev; simpl in *; try discriminate; auto. }
  rewrite Hnone in Hreq. simpl in Hreq.
  repeat split.
  - rewrite Hreq. simpl. lia.
  - apply Hstore.
  - apply Hstore.
  - apply Hstore.
  - intros Hs. apply Hflag. simpl. now rewrite Hs.
Qed.

Lemma pace_countdown_step (n : nat) (w : world) :
  pace_countdown E (S n) w =
  if stop_flag w || signal E (List.length (trace w))
  then (Ok tt, emit E (EvStopFlag true) 0 w)
  else pace_countdown E n (emit E (EvSleep 1000) 1000 (emit E (EvStopFlag false) 0 w)).
Proof.
  cbn [pace_countdown]. unfold bind, read_stop_flag, sleep.
  now destruct (stop_flag w || signal E (List.length (trace w))).
Qed.

Lemma pace_countdown_events (n : nat) (w : world) :
  exists evs, trace (snd (pace_countdown E n w)) = trace w ++ evs /\ countdown evs.
Proof.
  revert w. induction n as [|n IH]; intros w.
  - exists []. split; [now rewrite app_nil_r|constructor].
  - rewrite pace_countdown_step.
    destruct (stop_flag w || signal E (List.length (trace w))) eqn:Hb.
    + exists [EvStopFlag true]. split; [reflexivity|constructor].
    + destruct (IH (emit E (EvSleep 1000) 1000 (emit E (EvStopFlag false) 0 w)))
        as (evs & Ht & Hc).
      exists (EvStopFlag false :: EvSleep 1000 :: evs). split; [|now constructor].
      rewrite Ht. cbn [trace emit]. rewrite <- !app_assoc. reflexivity.
Qed.




(** When [fetch_page] returns [None], the loop saves the checkpoint with
    the cursor it had, [done] false and the count it had, and ends. *)
Lemma collect_on_none (k : nat) (p : progress) (w w1 w2 : world) (v : sqlval) :
  done p = false ->
  read_stop_flag E w = (Ok false, w1) ->
  fetch_page cfg E (TWEET_ID cfg) (next_token p) w1 = (Ok None, w2) ->
  bind_param (next_token p) = Ok v ->
  collect cfg E (S k) p w =
  (Ok p, set_state (State.update_progress (TWEET_ID cfg) (text_affinity v) 0 (total_users p)
                      (now w2) (state w2)) w2).
Proof.
  intros Hdone Hstop Hfetch Hv. simpl. rewrite Hdone.
  unfold bind at 1. rewrite Hstop.
  unfold bind at 1. rewrite Hfetch.
  unfold bind, save_state. rewrite Hv. reflexivity.
Qed.

Lemma max_pages_succ : exists k, max_pages cfg = S k.
Proof.
  unfold max_pages. destruct (QUICK_TEST cfg); [now exists 2%nat|].
  exists (Z.to_nat 999998). lia.
Qed.

(** After the loop, [run] goes on to its end without raising. *)
Lemma run_epilogue_ok (w : world) :
  fst ((doM_ read_stop_flag E; final_export cfg E) w) = Ok tt.
Proof. unfold bind. simpl. apply final_export_ok. Qed.

(** What the end of [run] leaves of the checkpoint: only the export
    time can change. *)
Lemma run_epilogue_checkpoint (w : world) (row : State.row) :
  State.fetchone (TWEET_ID cfg) (state w) = Some row ->
  exists w' row',
    (doM_ read_stop_flag E; final_export cfg E) w = (Ok tt, w') /\
    requests_made w' = requests_made w /\ likers w' = likers w /\
    State.fetchone (TWEET_ID cfg) (state w') = Some row' /\
    State.next_token row' = State.next_token row /\
    State.done row' = State.done row /\
    State.total_users_found row' = State.total_users_found row.
Proof.
  intros Hrow. unfold bind. simpl.
  set (w1 := emit E (EvStopFlag _) 0 w).
  unfold final_export.
  destruct (String.eqb (EXPORT_MODE cfg) "final" || String.eqb (EXPORT_MODE cfg) "periodic").
  - destruct (0 <? Likers.count (TWEET_ID cfg) (likers w1)).
    + unfold bind. rewrite export_csv_spec. cbn [ret].
      eexists _, _. split; [reflexivity|].
      cbn [requests_made likers state set_state emit write_file].
      split; [reflexivity|]. split; [reflexivity|].
      rewrite fetchone_update_export. unfold w1.
      cbn [requests_made likers state set_state emit write_file]. rewrite Hrow.
      repeat split; reflexivity.
    + exists w1, row. repeat split; assumption.
  - exists w1, row. repeat split; assumption.
Qed.


Lemma quiet_requests_made (w w' : world) :
  moves E is_quiet w w' -> requests_made w' = requests_made w.
Proof.
  intros (_ & _ & _ & evs & _ & Hq & Hreq).
  assert (Hnone : filter is_get evs = []).
  { clear - Hq. induction evs as [|ev evs IH]; [reflexivity|].
    simpl in Hq. apply andb_true_iff in Hq as [Hev Hq].
    destruct ev; simpl in *; try discriminate; auto. }
  rewrite Hreq, Hnone. simpl. lia.
Qed.

(** The countdown after a 429 returns [true] only with the stop flag set. *)
Lemma retry_countdown_result (n : nat) (w : world) :
  exists b, retry_countdown E n w = (Ok b, snd (retry_countdown E n w)) /\
            (b = true -> stop_flag (snd (retry_countdown E n w)) = true).
Proof.
  revert w. induction n as [|n IH]; intros w; simpl.
  - exists false. split; [reflexivity|discriminate].
  - unfold bind, read_stop_flag.
    destruct (stop_flag w || signal E (List.length (trace w))) eqn:Hb.
    + exists true. split; [reflexivity|]. intros _. exact Hb.
    + cbn [sleep]. apply IH.
Qed.

(** A 429 with a reset time: after the wait either the stop flag is set
    and the attempt returns [None], or it is not and the loop goes on. *)
Lemma handle_response_rate_limited (attempt : nat) (retry : M (option json))
    (w : world) (h : headers) (b : json) (T : Z) :
  int_of_header_or_zero (x_rate_limit_reset h) = Ok T -> T <> 0 ->
  exists w1,
    waited E w w1 /\
    ((stop_flag w1 = true /\
      handle_response cfg E attempt (Response 429 h b) retry w = (Ok None, w1)) \/
     (stop_flag w1 = false /\
      handle_response cfg E attempt (Response 429 h b) retry w = retry w1)).
Proof.
  intros HT HT0.
  remember (handle_response cfg E attempt (Response 429 h b) retry w) as lhs eqn:Hl.
  unfold handle_response in Hl. unfold bind at 1 in Hl. rewrite pace_requests_eq in Hl.
  pose proof (pace_requests_waited cfg E h w) as Hw0.
  set (w0 := snd (pace_requests cfg E h w)) in *.
  cbn [Z.eqb Pos.eqb] in Hl. unfold bind at 1, lift in Hl. rewrite HT in Hl.
  destruct (Z.eqb_spec T 0) as [|_]; [contradiction|]. cbn [negb] in Hl.
  unfold bind at 1 in Hl.
  set (delay := if QUICK_TEST cfg then 5 else Z.max 5 (T - now w0 + 2)) in Hl.
  unfold bind at 1 in Hl.
  destruct (retry_countdown_result (Z.to_nat delay) w0) as (stopped & Hc & Hflag).
  pose proof (retry_countdown_waited E (Z.to_nat delay) w0) as Hw.
  rewrite Hc in Hl. set (w1 := snd (retry_countdown E (Z.to_nat delay) w0)) in *.
  assert (Hw1 : waited E w w1) by (eapply waited_trans; eassumption).
  assert (Hflag1 : forall f, waited E w (emit E (EvStopFlag f) 0 w1)).
  { intros f. eapply waited_trans; [exact Hw1|].
    split; [apply moves_emit; [reflexivity|lia]|apply same_store_emit]. }
  destruct stopped.
  - exists w1. split; [assumption|]. left. auto.
  - unfold bind, read_stop_flag in Hl.
    destruct (stop_flag w1 || signal E (List.length (trace w1))) eqn:Hb.
    + exists (emit E (EvStopFlag true) 0 w1). split; [apply Hflag1|].
      left. split; [|exact Hl]. cbn [stop_flag emit]. exact Hb.
    + exists (emit E (EvStopFlag false) 0 w1). split; [apply Hflag1|].
      right. split; [|exact Hl]. cbn [stop_flag emit]. exact Hb.
Qed.

Lemma fetch_attempts_rate_limited (req : request) (attempt : nat) (rest : list nat)
    (w : world) (h : headers) (b : json) (T : Z) :
  remote E (requests_made w) req = Response 429 h b ->
  int_of_header_or_zero (x_rate_limit_reset h) = Ok T -> T <> 0 ->
  exists w1,
    requests_made w1 = S (requests_made w) /\ same_store w w1 /\
    ((stop_flag w1 = true /\
      fetch_attempts cfg E req (attempt :: rest) w = (Ok None, w1)) \/
     (stop_flag w1 = false /\
      fetch_attempts cfg E req (attempt :: rest) w = fetch_attempts cfg E req rest w1)).
Proof.
  intros Hr HT HT0.
  set (w0 := emit E (EvGet (clock w) req (Response 429 h b)) 0 w).
  assert (Heq : fetch_attempts cfg E req (attempt :: rest) w =
                handle_response cfg E attempt (Response 429 h b)
                  (fetch_attempts cfg E req rest) w0).
  { cbn [fetch_attempts]. unfold bind, session_get. now rewrite Hr. }
  destruct (handle_response_rate_limited attempt (fetch_attempts cfg E req rest)
              w0 h b T HT HT0) as (w1 & Hw & H).
  exists w1. split; [|split].
  - rewrite (quiet_requests_made w0 w1 (proj1 Hw)). reflexivity.
  - apply Hw.
  - rewrite Heq. exact H.
Qed.

(** [fetch_page] ends with a page that passed the diagnostics, with
    [None], or with an exception: the ValueError of an unreadable reset
    header on a 429, the AttributeError or TypeError of the diagnostics. *)
Lemma page_diagnostics_raises (body : json) (e : exn) :
  page_diagnostics body = Raise e -> e = AttributeError \/ e = TypeError.
Proof.
  destruct body as [| | | | |fields]; cbn; try (intros H; inversion H; now left).
  destruct (assoc "data" fields) as [[| | | | |]|]; intros H; inversion H; now right.
Qed.

Lemma fetch_attempts_outcomes (req : request) (attempts : list nat) :
  forall w, page_or_none (fst (fetch_attempts cfg E req attempts w)).
Proof.
  induction attempts as [|attempt rest IH]; intros w; simpl.
  { right. left. reflexivity. }
  unfold bind at 1, session_get.
  destruct (remote E (requests_made w) req) as [s h b|h|]; unfold handle_response.
  - unfold bind at 1. rewrite pace_requests_eq.
    set (w0 := snd (pace_requests cfg E h _)).
    destruct (s =? 200).
    { unfold bind, lift. destruct (page_diagnostics b) as [[]|e] eqn:Hd; cbn [fst ret].
      - left. now exists b.
      - destruct (page_diagnostics_raises b e Hd) as [->| ->]; unfold page_or_none; tauto. }
    destruct (s =? 429).
    + unfold bind at 1, lift.
      destruct (int_of_header_or_zero (x_rate_limit_reset h)) as [T|e] eqn:HT.
      * destruct (negb (T =? 0)).
        -- unfold bind at 1. unfold bind at 1.
           destruct (retry_countdown_result
                       (Z.to_nat (if QUICK_TEST cfg then 5 else Z.max 5 (T - now w0 + 2)))
                       w0) as (stopped & Hc & _).
           rewrite Hc. destruct stopped; [right; left; reflexivity|].
           unfold bind, read_stop_flag.
           match goal with |- context [if ?c then _ else _] => destruct c end;
             [right; left; reflexivity|apply IH].
        -- unfold bind, backoff_sleep, sleep. apply IH.
      * right. right. left. simpl.
        destruct (x_rate_limit_reset h) as [[| |]|]; simpl in HT; congruence.
    + destruct ((500 <=? s) && (s <? 600)); [|right; left; reflexivity].
      unfold bind, backoff_sleep, sleep. apply IH.
  - unfold bind at 1. rewrite pace_requests_eq.
    unfold bind, backoff_sleep, sleep. apply IH.
  - unfold bind, backoff_sleep, sleep. apply IH.
Qed.

(** C5, as the code has it. The result of [fetch_page] tells two outcomes
    apart, not three: a page (the body of a 200 response, which passed the
    diagnostics) or [None]; failing that an exception leaves [fetch_page]:
    the ValueError of an unreadable reset header on a 429, or the
    AttributeError or TypeError of the diagnostics on a 200.  [None]
    stands both for a stop flag seen set during the wait after a 429 and
    for a terminal failure.  On [None] the loop saves the checkpoint with
    the cursor it had, [done] false and the count it had, and ends, in the
    same way for both. *)
Theorem fetch_page_none_is_stop_or_failure :
  (forall t tok w, page_or_none (fst (fetch_page cfg E t tok w))) /\
  (forall req attempt rest w h b T,
      remote E (requests_made w) req = Response 429 h b ->
      int_of_header_or_zero (x_rate_limit_reset h) = Ok T -> T <> 0 ->
      exists w1,
        requests_made w1 = S (requests_made w) /\ same_store w w1 /\
        ((stop_flag w1 = true /\
          fetch_attempts cfg E req (attempt :: rest) w = (Ok None, w1)) \/
         (stop_flag w1 = false /\
          fetch_attempts cfg E req (attempt :: rest) w =
          fetch_attempts cfg E req rest w1))) /\
  (forall req attempt rest w s h b,
      remote E (requests_made w) req = Response s h b ->
      s <> 200 -> s <> 429 -> ~ (500 <= s < 600) ->
      exists w', fetch_attempts cfg E req (attempt :: rest) w = (Ok None, w') /\
                 same_store w w') /\
  (forall req w, fetch_attempts cfg E req [] w = (Ok None, w)) /\
  (forall k p w w1 w2 v,
      done p = false ->
      read_stop_flag E w = (Ok false, w1) ->
      fetch_page cfg E (TWEET_ID cfg) (next_token p) w1 = (Ok None, w2) ->
      bind_param (next_token p) = Ok v ->
      collect cfg E (S k) p w =
      (Ok p, set_state (State.update_progress (TWEET_ID cfg) (text_affinity v) 0
                          (total_users p) (now w2) (state w2)) w2)).
Proof.
  split; [|split; [|split; [|split]]].
  - intros. apply fetch_attempts_outcomes.
  - intros. eapply fetch_attempts_rate_limited; eassumption.
  - intros req attempt rest w s h b Hr H200 H429 H5xx.
    eexists. split; [exact (fetch_attempts_other_status req attempt rest w s h b Hr H200 H429 H5xx)|].
    apply (waited_after_get req (Response s h b) h w).
  - reflexivity.
  - intros. now apply collect_on_none with (w1 := w1).
Qed.

End Failures.


(** C5, as stated, fails: a stop during the wait after a 429 and a 404 give
    the same result, [None], so nothing computed from the result of
    [fetch_page] tells "stopped" from "failed". *)
Lemma fetch_page_conflates_stopped_and_failed :
  fst (fetch_page cfg_final E_interrupted "42" JNull w_fresh) = Ok None /\
  stop_flag (snd (fetch_page cfg_final E_interrupted "42" JNull w_fresh)) = true /\
  fst (fetch_page cfg_final E_not_found "42" JNull w_fresh) = Ok None /\
  stop_flag (snd (fetch_page cfg_final E_not_found "42" JNull w_fresh)) = false /\
  ~ (exists is_stopped : res (option json) -> bool,
        is_stopped (fst (fetch_page cfg_final E_interrupted "42" JNull w_fresh)) = true /\
        is_stopped (fst (fetch_page cfg_final E_not_found "42" JNull w_fresh)) = false).
Proof.
  assert (H1 : fst (fetch_page cfg_final E_interrupted "42" JNull w_fresh) = Ok None)
    by (vm_compute; reflexivity).
  assert (H2 : fst (fetch_page cfg_final E_not_found "42" JNull w_fresh) = Ok None)
    by (vm_compute; reflexivity).
  split; [exact H1|]. split; [vm_compute; reflexivity|].
  split; [exact H2|]. split; [vm_compute; reflexivity|].
  intros (f & Ha & Hb). rewrite H1 in Ha. rewrite H2 in Hb. congruence.
Qed.

(** ** Collection loop: ingesting a page *)

Section Ingestion.

Variable cfg : config.
Variable E : env.

(** The politeness delay only waits. *)
Lemma politeness_delay (b : bool) (d : Z) (w : world) :
  0 <= d ->
  exists w',
    (if b
     then doM stop <- read_stop_flag E;
          if negb stop then sleep E d else ret tt
     else ret tt) w = (Ok tt, w') /\
    waited E w w'.
Proof.
  intros Hd. destruct b.
  - unfold bind, read_stop_flag.
    assert (Hflag : forall f, waited E w (emit E (EvStopFlag f) 0 w)).
    { intros f. split; [apply moves_emit; [reflexivity|lia]|apply same_store_emit]. }
    destruct (stop_flag w || signal E (List.length (trace w))); cbn [negb].
    + eexists. split; [reflexivity|]. apply Hflag.
    + eexists. split; [reflexivity|].
      eapply waited_trans; [apply Hflag|].
      split; [now apply moves_emit|apply same_store_emit].
  - exists w. split; [reflexivity|apply waited_refl].
Qed.

Lemma of_tweet_app (t : string) (l1 l2 : list Likers.row) :
  Likers.of_tweet t (l1 ++ l2) = Likers.of_tweet t l1 ++ Likers.of_tweet t l2.
Proof. apply filter_app. Qed.

Lemma count_insert_or_ignore (t : string) (r : Likers.row) (tbl : list Likers.row) :
  Likers.count t (Likers.insert_or_ignore r tbl) <= Likers.count t tbl + 1.
Proof.
  unfold Likers.insert_or_ignore, Likers.count.
  destruct (existsb (Likers.same_key r) tbl); [lia|].
  rewrite of_tweet_app, length_app. simpl.
  destruct (String.eqb (Likers.tweet_id r) t); simpl; lia.
Qed.

(** A batch adds at most one row per record. *)
Lemma count_insert_rows (t : string) (us : list json) :
  forall tbl tbl1,
    insert_rows E t us tbl = Ok tbl1 ->
    Likers.count t tbl1 <= Likers.count t tbl + Z.of_nat (List.length us).
Proof.
  induction us as [|u rest IH]; intros tbl tbl1 H.
  - simpl in H. inversion H. simpl. lia.
  - simpl in H. destruct (liker_row E t u) as [ro|]; [|discriminate].
    simpl in H. apply IH in H.
    change (List.length (u :: rest)) with (S (List.length rest)).
    destruct ro as [r|].
    + pose proof (count_insert_or_ignore t r tbl). lia.
    + lia.
Qed.

(** One page, ingested. *)
Lemma process_page_ingests (p : progress) (fields meta : list (string * json))
    (items : list json) (v : sqlval) (tbl : list Likers.row) (w : world) :
  dict_get fields "data" (JArr []) = JArr items ->
  insert_rows E (TWEET_ID cfg) items (likers w) = Ok tbl ->
  dict_get fields "meta" (JObj []) = JObj meta ->
  bind_param (dict_get meta "next_token" JNull) = Ok v ->
  let tok := dict_get meta "next_token" JNull in
  let total := total_users p + Z.of_nat (List.length items) in
  exists w',
    process_page cfg E p (JObj fields) w =
      (Ok (Progress tok (negb (truthy tok)) total), w') /\
    likers w' = tbl /\
    state w' = State.update_progress (TWEET_ID cfg) (text_affinity v)
                 (if negb (truthy tok) then 1 else 0) total (now w) (state w) /\
    files w' = files w /\
    moves E is_quiet w w'.
Proof.
  intros Hdata Hrows Hmeta Hv tok total. subst tok.
  unfold process_page.
  unfold bind at 1, lift, py_get. rewrite Hdata.
  assert (Hingest :
    (if truthy (JArr items) then ingest cfg E (JArr items) (total_users p)
     else ret (total_users p)) w = (Ok total, set_likers tbl w)).
  { destruct items as [|u rest].
    - simpl in Hrows. inversion Hrows. subst tbl. unfold total. simpl.
      rewrite set_likers_same. unfold ret. f_equal. f_equal. lia.
    - cbn [truthy]. unfold ingest, bind, insert_users. rewrite Hrows. reflexivity. }
  unfold bind at 1. rewrite Hingest.
  unfold bind at 1. rewrite Hmeta.
  unfold bind at 1.
  unfold bind at 1, save_state. rewrite Hv.
  match goal with
  | |- context [bind (if ?b then _ else _) _ ?w0] =>
      destruct (politeness_delay b (if QUICK_TEST cfg then 1000 else 2000) w0)
        as (w' & Hpol & Hw); [destruct (QUICK_TEST cfg); lia|]
  end.
  exists w'. unfold bind at 1. rewrite Hpol. split; [reflexivity|].
  destruct Hw as [Hm (Hl & Hs & Hf)]. rewrite Hl, Hs, Hf.
  split; [reflexivity|]. split; [reflexivity|]. split; [reflexivity|].
  eapply moves_trans; [|exact Hm]. exact (moves_refl E is_quiet w).
Qed.

(** C9. Ingesting a page adds the number of records of its payload to the
    running count, and this count is what the checkpoint gets, whether the
    record store kept the records or skipped them as duplicates.  When the
    same page is ingested once more the store stays as it is and the count
    grows again; a checkpoint that was not behind the store is then ahead
    of it. *)
Theorem checkpoint_counts_payload_records (p : progress)
    (fields meta : list (string * json)) (items : list json) (v : sqlval)
    (tbl : list Likers.row) (w : world) (row : State.row) :
  dict_get fields "data" (JArr []) = JArr items ->
  insert_rows E (TWEET_ID cfg) items (likers w) = Ok tbl ->
  dict_get fields "meta" (JObj []) = JObj meta ->
  bind_param (dict_get meta "next_token" JNull) = Ok v ->
  State.fetchone (TWEET_ID cfg) (state w) = Some row ->
  let tok := dict_get meta "next_token" JNull in
  let n := Z.of_nat (List.length items) in
  exists w1 w2 row1 row2,
    process_page cfg E p (JObj fields) w =
      (Ok (Progress tok (negb (truthy tok)) (total_users p + n)), w1) /\
    likers w1 = tbl /\
    State.fetchone (TWEET_ID cfg) (state w1) = Some row1 /\
    State.total_users_found row1 = total_users p + n /\
    process_page cfg E (Progress tok (negb (truthy tok)) (total_users p + n))
      (JObj fields) w1 =
      (Ok (Progress tok (negb (truthy tok)) (total_users p + n + n)), w2) /\
    likers w2 = tbl /\
    State.fetchone (TWEET_ID cfg) (state w2) = Some row2 /\
    State.total_users_found row2 = total_users p + n + n /\
    (Likers.count (TWEET_ID cfg) (likers w) <= total_users p -> items <> [] ->
     Likers.count (TWEET_ID cfg) (likers w2) < State.total_users_found row2).
Proof.
  intros Hdata Hrows Hmeta Hv Hrow tok n.
  destruct (process_page_ingests p fields meta items v tbl w Hdata Hrows Hmeta Hv)
    as (w1 & Hp1 & Hl1 & Hs1 & _ & _).
  assert (Hrows1 : insert_rows E (TWEET_ID cfg) items (likers w1) = Ok tbl).
  { rewrite Hl1. eapply insert_rows_twice. eassumption. }
  destruct (process_page_ingests
              (Progress tok (negb (truthy tok)) (total_users p + n))
              fields meta items v tbl w1 Hdata Hrows1 Hmeta Hv)
    as (w2 & Hp2 & Hl2 & Hs2 & _ & _).
  cbn [total_users] in Hp2, Hs2.
  assert (Hrow1 : State.fetchone (TWEET_ID cfg) (state w1) =
                  Some (State.Row (State.tweet_id row) (text_affinity v)
                          (if negb (truthy tok) then 1 else 0) (Some (now w))
                          (total_users p + n) (State.last_export_time row))).
  { rewrite Hs1, fetchone_update_progress, Hrow. reflexivity. }
  assert (Hrow2 : State.fetchone (TWEET_ID cfg) (state w2) =
                  Some (State.Row (State.tweet_id row) (text_affinity v)
                          (if negb (truthy tok) then 1 else 0) (Some (now w1))
                          (total_users p + n + n) (State.last_export_time row))).
  { rewrite Hs2, fetchone_update_progress, Hrow1. reflexivity. }
  eexists w1, w2, _, _.
  split; [exact Hp1|]. split; [exact Hl1|]. split; [exact Hrow1|].
  split; [reflexivity|]. split; [exact Hp2|]. split; [exact Hl2|].
  split; [exact Hrow2|]. split; [reflexivity|].
  intros Hsync Hne. cbn [State.total_users_found]. rewrite Hl2.
  pose proof (count_insert_rows _ _ _ _ Hrows) as Hcount.
  assert (0 < n).
  { unfold n. destruct items; [contradiction|]. simpl. lia. }
  fold n in Hcount. lia.
Qed.

End Ingestion.

(** ** Collection loop: resuming *)

Section Resuming.

Variable cfg : config.
Variable E : env.

Lemma first_request_app (evs evs' : list event) (req : request) :
  first_request evs = Some req -> first_request (evs ++ evs') = Some req.
Proof.
  induction evs as [|ev evs IH]; simpl; [discriminate|].
  destruct ev; auto.
Qed.

Lemma first_request_none (evs : list event) :
  forallb not_get evs = true -> first_request evs = None.
Proof.
  induction evs as [|ev evs IH]; simpl; [reflexivity|].
  intros H. apply andb_true_iff in H as [Hev H].
  destruct ev; try discriminate; auto.
Qed.

Lemma steps_any {A} (m : M A) (allowed : event -> bool) :
  steps (moves E allowed) m ->
  forall w, exists evs, trace (snd (m w)) = trace w ++ evs /\ forallb allowed evs = true.
Proof.
  intros Hm w. destruct (Hm w) as (_ & _ & _ & evs & Ht & Ha & _). eauto.
Qed.

(** Events emitted before a continuation runs stay at the front. *)
Lemma bind_extends {A B} (m : M A) (k : A -> M B) (w : world) (evs : list event) :
  trace (snd (m w)) = trace w ++ evs ->
  (forall a, steps (moves E any_event) (k a)) ->
  exists evs', trace (snd (bind m k w)) = trace w ++ evs ++ evs'.
Proof.
  intros Hm Hk. unfold bind. destruct (m w) as [[a|e] w1]; simpl in *.
  - destruct (steps_any (k a) any_event (Hk a) w1) as (evs' & Ht & _).
    exists evs'. now rewrite Ht, Hm, app_assoc.
  - exists []. now rewrite app_nil_r.
Qed.

Lemma any_event_emit (ev : event) (d : Z) (w : world) :
  0 <= d -> moves E any_event w (emit E ev d w).
Proof. intros Hd. now apply moves_emit. Qed.

Lemma handle_response_moves (attempt : nat) (r : http_result) (req : request)
    (rest : list nat) :
  steps (moves E any_event) (handle_response cfg E attempt r (fetch_attempts cfg E req rest)).
Proof.
  apply steps_handle_response.
  - apply moves_refl.
  - apply moves_trans.
  - intros d w Hd. now apply any_event_emit.
  - intros b w. apply any_event_emit; lia.
  - apply steps_fetch_attempts.
    + apply moves_refl.
    + apply moves_trans.
    + intros d w Hd. now apply any_event_emit.
    + intros b w. apply any_event_emit; lia.
    + intros t req' r' w. apply any_event_emit; lia.
Qed.

Lemma collect_moves (k : nat) (p : progress) :
  steps (moves E any_event) (collect cfg E k p).
Proof.
  intros w. eapply moves_weaken; [|apply (collect_collected cfg E k p w)].
  reflexivity.
Qed.

Lemma process_page_moves (p : progress) (data : json) :
  steps (moves E any_event) (process_page cfg E p data).
Proof.
  apply steps_process_page.
  - apply moves_refl.
  - apply moves_trans.
  - intros d w Hd. now apply any_event_emit.
  - intros b w. apply any_event_emit; lia.
  - intros tbl w. apply moves_set_state.
  - intros tbl w. apply moves_set_likers.
Qed.

Lemma save_state_moves (allowed : event -> bool) t tok d total :
  steps (moves E allowed) (save_state t tok d total).
Proof.
  apply steps_save_state.
  - apply moves_refl.
  - intros tbl w. apply moves_set_state.
Qed.

(** The end of [run] makes no request. *)
Lemma run_epilogue_no_request :
  steps (moves E not_get) (doM_ read_stop_flag E; final_export cfg E).
Proof.
  apply steps_bind; [apply moves_trans| |].
  - intros w. apply moves_emit; [reflexivity|lia].
  - intros _. apply steps_final_export.
    + apply moves_refl.
    + apply moves_trans.
    + intros tbl w. apply moves_set_state.
    + intros path c w. eapply moves_trans; [apply moves_write_file|].
      apply moves_emit; [reflexivity|lia].
Qed.

(** The first event of a page fetch is its request. *)
Lemma fetch_page_first_event (t : string) (tok : json) (w : world) :
  exists evs,
    trace (snd (fetch_page cfg E t tok w)) =
    trace w ++ [EvGet (clock w) (page_request cfg t tok)
                  (remote E (requests_made w) (page_request cfg t tok))] ++ evs.
Proof.
  unfold fetch_page.
  change (fetch_attempts cfg E (page_request cfg t tok) (seq 0 7))
    with (bind (session_get E (page_request cfg t tok))
            (fun r => handle_response cfg E 0 r
                        (fetch_attempts cfg E (page_request cfg t tok) (seq 1 6)))).
  apply bind_extends; [reflexivity|].
  intros r. apply handle_response_moves.
Qed.

(** The cursor that the loop saves with [done] false after a page is truthy,
    so what the checkpoint holds is never the empty text: the only cursor
    for which [fetch_page] sends no token. *)
Lemma saved_cursor_not_empty (tok : json) (v : sqlval) :
  truthy tok = true -> bind_param tok = Ok v -> text_affinity v <> Some EmptyString.
Proof.
  intros Ht Hv H.
  destruct tok as [|b|z|s| |]; simpl in Hv; inversion Hv; subst v; simpl in H;
    try discriminate; inversion H as [H'].
  - now apply (str_of_Z_not_empty _ H').
  - now apply (str_of_Z_not_empty z H').
  - subst s. discriminate.
Qed.

(** C3. A run that finds a checkpoint with cursor [C] and [done] false
    makes its first request with the pagination token [C], and makes one
    unless the stop flag is already set when the loop starts. *)
Theorem resumes_from_saved_cursor (w : world) (row : State.row) (C : string) :
  State.fetchone (TWEET_ID cfg) (state w) = Some row ->
  State.next_token row = Some C -> C <> EmptyString ->
  State.done row = 0 ->
  exists evs,
    trace (snd (run cfg E w)) = trace w ++ evs /\
    first_request evs =
      (if stop_flag w || signal E (List.length (trace w)) then None
       else Some (page_request cfg (TWEET_ID cfg) (JStr C))) /\
    assoc "pagination_token" (params (page_request cfg (TWEET_ID cfg) (JStr C))) =
      Some (JStr C).
Proof.
  intros Hrow Htok HC Hdone.
  assert (Hparam : assoc "pagination_token"
                     (params (page_request cfg (TWEET_ID cfg) (JStr C))) = Some (JStr C)).
  { unfold page_request. cbn [params truthy].
    destruct (String.eqb_spec C EmptyString) as [|_]; [contradiction|]. reflexivity. }
  destruct (max_pages_succ cfg) as [k Hk].
  set (p := Progress (JStr C) false (State.total_users_found row)).
  assert (Hrun : run cfg E w =
                 (doM_ collect cfg E (S k) p;
                  doM_ read_stop_flag E; final_export cfg E) w).
  { unfold run, bind at 1, get_state. rewrite Hrow, Htok, Hdone, Hk. reflexivity. }
  rewrite Hrun. clear Hrun.
  destruct (stop_flag w || signal E (List.length (trace w))) eqn:Hstop.
  - (* the loop does not start *)
    assert (Hc : collect cfg E (S k) p w = (Ok p, emit E (EvStopFlag true) 0 w)).
    { cbn [collect done p]. unfold bind, read_stop_flag. now rewrite Hstop. }
    unfold bind at 1. rewrite Hc.
    destruct (steps_any _ not_get run_epilogue_no_request (emit E (EvStopFlag true) 0 w))
      as (evs & Ht & Ha).
    exists (EvStopFlag true :: evs). split; [|split; [|exact Hparam]].
    + rewrite Ht. cbn [trace emit]. now rewrite <- app_assoc.
    + cbn [first_request]. now apply first_request_none.
  - (* the first page is fetched *)
    set (w1 := emit E (EvStopFlag false) 0 w).
    set (req := page_request cfg (TWEET_ID cfg) (JStr C)).
    destruct (fetch_page_first_event (TWEET_ID cfg) (JStr C) w1) as (evs1 & Hf).
    fold req in Hf.
    set (body := fun data : option json =>
                   match data with
                   | Some data => doM p' <- process_page cfg E p data; collect cfg E k p'
                   | None =>
                       doM_ save_state (TWEET_ID cfg) (next_token p) false (total_users p);
                       ret p
                   end).
    assert (Hbody : forall data, steps (moves E any_event) (body data)).
    { intros [data|]; unfold body.
      - apply steps_bind; [apply moves_trans|apply process_page_moves|].
        intros p'. apply collect_moves.
      - apply steps_bind; [apply moves_trans|apply save_state_moves|].
        intros _ w0. apply moves_refl. }
    destruct (bind_extends (fetch_page cfg E (TWEET_ID cfg) (JStr C)) body w1 _ Hf Hbody)
      as (evs2 & Hc).
    assert (Hcollect : collect cfg E (S k) p w =
                       bind (fetch_page cfg E (TWEET_ID cfg) (JStr C)) body w1).
    { cbn [collect done p]. unfold bind at 1, read_stop_flag. now rewrite Hstop. }
    assert (Hc' : trace (snd (collect cfg E (S k) p w)) =
                  trace w ++ EvStopFlag false
                    :: EvGet (clock w1) req (remote E (requests_made w1) req)
                    :: evs1 ++ evs2).
    { rewrite Hcollect, Hc. unfold w1 at 1. cbn [trace emit].
      rewrite <- !app_assoc. reflexivity. }
    destruct (bind_extends (collect cfg E (S k) p)
                (fun _ => doM_ read_stop_flag E; final_export cfg E) w _ Hc')
      as (evs3 & Hr).
    { intros _ w0. eapply moves_weaken; [|apply run_epilogue_no_request]. reflexivity. }
    eexists. split; [exact Hr|]. split; [reflexivity|exact Hparam].
Qed.

End Resuming.

(** ** The final export *)

Section FinalExport.

Variable cfg : config.
Variable E : env.

(** A checkpoint that is not done sends [run] into the loop. *)
Lemma run_not_done (w : world) :
  (forall row, State.fetchone (TWEET_ID cfg) (state w) = Some row -> State.done row = 0) ->
  exists p w0,
    likers w0 = likers w /\ files w0 = files w /\ trace w0 = trace w /\
    clock w0 = clock w /\
    run cfg E w =
    (doM_ collect cfg E (max_pages cfg) p; doM_ read_stop_flag E; final_export cfg E) w0.
Proof.
  intros Hdone. unfold run, bind at 1, get_state.
  destruct (State.fetchone (TWEET_ID cfg) (state w)) as [row|] eqn:Hrow.
  - rewrite (Hdone row eq_refl). cbn [Z.eqb negb].
    exists (Progress (py_of_text (State.next_token row)) false
              (State.total_users_found row)), w.
    repeat split; reflexivity.
  - exists (Progress JNull false 0),
           (set_state (State.insert_default (TWEET_ID cfg) (state w)) w).
    repeat split; reflexivity.
Qed.

Lemma final_export_in_final_mode (w : world) :
  EXPORT_MODE cfg = "final" ->
  final_export cfg E w =
  if 0 <? Likers.count (TWEET_ID cfg) (likers w)
  then (Ok tt, snd (export_csv cfg E (TWEET_ID cfg) w))
  else (Ok tt, w).
Proof.
  intros Hmode. unfold final_export. rewrite Hmode.
  cbn [String.eqb Ascii.eqb Bool.eqb orb].
  destruct (0 <? Likers.count (TWEET_ID cfg) (likers w)); reflexivity.
Qed.






End FinalExport.


(** ** The collection loop, page by page *)

Section Pages.

Variable cfg : config.
Variable E : env.

Hypothesis no_signal : forall n, signal E n = false.

Lemma read_stop_flag_clear (w : world) :
  stop_flag w = false ->
  read_stop_flag E w = (Ok false, emit E (EvStopFlag false) 0 w) /\
  stop_flag (emit E (EvStopFlag false) 0 w) = false.
Proof.
  intros Hs. unfold read_stop_flag. cbn [stop_flag emit].
  rewrite Hs, no_signal. split; reflexivity.
Qed.

(** A 200 on the first attempt: the loop goes on with the body. *)
Lemma collect_fetches_page (k : nat) (p : progress) (w : world) (h : headers)
    (body : json) :
  done p = false -> stop_flag w = false ->
  remote E (requests_made w) (page_request cfg (TWEET_ID cfg) (next_token p)) =
    Response 200 h body ->
  page_diagnostics body = Ok tt ->
  exists w1,
    collect cfg E (S k) p w =
      (doM p' <- process_page cfg E p body; collect cfg E k p') w1 /\
    same_store w w1 /\ stop_flag w1 = false /\
    requests_made w1 = S (requests_made w).
Proof.
  intros Hdone Hs Hr Hd.
  destruct (read_stop_flag_clear w Hs) as [Hread Hs0].
  set (w0 := emit E (EvStopFlag false) 0 w) in *.
  set (req := page_request cfg (TWEET_ID cfg) (next_token p)) in *.
  destruct (waited_after_get cfg E req (Response 200 h body) h w0) as (Hreq & Hst & _).
  pose proof (pace_requests_waited cfg E h (emit E (EvGet (clock w0) req (Response 200 h body)) 0 w0))
    as [(_ & _ & Hflag & _) _].
  set (w1 := snd (pace_requests cfg E h _)) in *.
  exists w1. split; [|split; [|split]].
  - cbn [collect]. rewrite Hdone. unfold bind at 1. rewrite Hread.
    unfold bind at 1, fetch_page. fold req.
    change (fetch_attempts cfg E req (seq 0 7))
      with (bind (session_get E req)
              (fun r => handle_response cfg E 0 r (fetch_attempts cfg E req (seq 1 6)))).
    unfold bind at 1, session_get.
    change (requests_made w0) with (requests_made w). rewrite Hr.
    unfold handle_response. unfold bind at 1. rewrite pace_requests_eq.
    cbn [Z.eqb Pos.eqb]. unfold bind at 1, lift. rewrite Hd.
    reflexivity.
  - exact Hst.
  - rewrite (Hflag no_signal). cbn [stop_flag emit]. now rewrite Hs0, no_signal.
  - exact Hreq.
Qed.

Lemma of_tweet_nil_no_key (t : string) (r : Likers.row) (tbl : list Likers.row) :
  Likers.of_tweet t tbl = [] -> Likers.tweet_id r = t ->
  existsb (Likers.same_key r) tbl = false.
Proof.
  intros Hnil Ht. induction tbl as [|r' tbl IH]; [reflexivity|].
  simpl in *. destruct (String.eqb_spec (Likers.tweet_id r') t) as [Heq|Hne].
  - discriminate.
  - rewrite (IH Hnil). unfold Likers.same_key. rewrite Ht.
    destruct (String.eqb_spec t (Likers.tweet_id r')) as [Heq|_]; [|reflexivity].
    now symmetry in Heq.
Qed.

Lemma liker_row_bare (t id : string) :
  liker_row E t (JObj [ ("id", JStr id) ]) = Ok (Some (bare_row E t id)).
Proof. reflexivity. Qed.

Lemma insert_rows_page_1 (tbl : list Likers.row) :
  Likers.of_tweet "42" tbl = [] ->
  insert_rows E "42" [ JObj [ ("id", JStr "a") ]; JObj [ ("id", JStr "b") ] ] tbl =
  Ok (tbl ++ [ bare_row E "42" "a"; bare_row E "42" "b" ]).
Proof.
  intros Hnil. cbn [insert_rows]. rewrite !liker_row_bare. cbn [res_bind].
  unfold Likers.insert_or_ignore at 2.
  rewrite (of_tweet_nil_no_key "42" (bare_row E "42" "a") tbl Hnil eq_refl).
  unfold Likers.insert_or_ignore.
  rewrite existsb_app.
  rewrite (of_tweet_nil_no_key "42" (bare_row E "42" "b") tbl Hnil eq_refl).
  cbn. now rewrite <- app_assoc.
Qed.

Lemma insert_rows_page_2 (tbl : list Likers.row) :
  Likers.of_tweet "42" tbl = [] ->
  insert_rows E "42" [ JObj [ ("id", JStr "c") ] ]
    (tbl ++ [ bare_row E "42" "a"; bare_row E "42" "b" ]) =
  Ok (tbl ++ [ bare_row E "42" "a"; bare_row E "42" "b"; bare_row E "42" "c" ]).
Proof.
  intros Hnil. cbn [insert_rows]. rewrite !liker_row_bare. cbn [res_bind].
  unfold Likers.insert_or_ignore.
  rewrite existsb_app.
  rewrite (of_tweet_nil_no_key "42" (bare_row E "42" "c") tbl Hnil eq_refl).
  cbn. now rewrite <- app_assoc.
Qed.

Lemma snapshot_three (tbl : list Likers.row) :
  Likers.of_tweet "42" tbl = [] ->
  snapshot "42" (tbl ++ [ bare_row E "42" "a"; bare_row E "42" "b"; bare_row E "42" "c" ]) =
  [ csv_header; bare_line E "42" "a"; bare_line E "42" "b"; bare_line E "42" "c" ].
Proof.
  intros Hnil. unfold snapshot. rewrite of_tweet_app, Hnil. reflexivity.
Qed.

Lemma count_three (tbl : list Likers.row) :
  Likers.of_tweet "42" tbl = [] ->
  Likers.count "42"
    (tbl ++ [ bare_row E "42" "a"; bare_row E "42" "b"; bare_row E "42" "c" ]) = 3.
Proof.
  intros Hnil. unfold Likers.count. rewrite of_tweet_app, Hnil. reflexivity.
Qed.

Lemma max_pages_two : exists k, max_pages cfg = S (S k).
Proof.
  unfold max_pages. destruct (QUICK_TEST cfg); [now exists 1%nat|].
  exists (Z.to_nat 999997). lia.
Qed.

Lemma collect_done (k : nat) (p : progress) (w : world) :
  done p = true -> collect cfg E k p w = (Ok p, w).
Proof. intros H. destruct k; cbn [collect]; now rewrite H. Qed.

(** C1. The end-to-end scenario: on a database without checkpoint or
    records for target 42, with no stop signal, the remote answers the
    request without token by page 1 (records a and b, next token X) and
    the request with token X by page 2 (record c, no token).  Then [run]
    returns normally after these two requests, the checkpoint holds count
    3 and done, and the one file written is the snapshot with the header
    and the lines of a, b and c in this order. *)
Theorem two_page_scenario (w : world) (h1 h2 : headers) :
  TWEET_ID cfg = "42" -> EXPORT_MODE cfg = "final" ->
  stop_flag w = false ->
  State.fetchone "42" (state w) = None ->
  Likers.of_tweet "42" (likers w) = [] ->
  remote E (requests_made w) (page_request cfg "42" JNull) = Response 200 h1 page_1 ->
  remote E (S (requests_made w)) (page_request cfg "42" (JStr "X")) =
    Response 200 h2 page_2 ->
  exists w' row s,
    run cfg E w = (Ok tt, w') /\
    requests_made w' = S (S (requests_made w)) /\
    State.fetchone "42" (state w') = Some row /\
    State.total_users_found row = 3 /\
    State.done row = 1 /\
    Likers.of_tweet "42" (likers w') =
      [ bare_row E "42" "a"; bare_row E "42" "b"; bare_row E "42" "c" ] /\
    files w' =
      (snapshot_path cfg "42" s,
       [ csv_header; bare_line E "42" "a"; bare_line E "42" "b"; bare_line E "42" "c" ])
      :: filter (fun f => negb (String.eqb (fst f) (snapshot_path cfg "42" s))) (files w).
Proof.
  intros Ht Hmode Hs Hnone Hempty Hr1 Hr2.
  destruct max_pages_two as [k Hk].
  (* the checkpoint is created *)
  set (w0 := set_state (State.insert_default "42" (state w)) w).
  set (p0 := Progress JNull false 0).
  assert (Hrun : run cfg E w =
                 (doM_ collect cfg E (S (S k)) p0;
                  doM_ read_stop_flag E; final_export cfg E) w0).
  { unfold run, bind at 1, get_state. rewrite Ht, Hnone, Hk. reflexivity. }
  assert (Hrow0 : State.fetchone "42" (state w0) = Some (State.Row "42" None 0 None 0 0)).
  { apply fetchone_insert_default. exact Hnone. }
  (* first page *)
  destruct (collect_fetches_page (S k) p0 w0 h1 page_1 eq_refl Hs)
    as (w1 & Hc1 & (Hl1 & Hst1 & Hf1) & Hs1 & Hq1).
  { rewrite Ht. exact Hr1. }
  { reflexivity. }
  destruct (process_page_ingests cfg E p0
              [ ("data", JArr [ JObj [ ("id", JStr "a") ]; JObj [ ("id", JStr "b") ] ]);
                ("meta", JObj [ ("next_token", JStr "X") ]) ]
              [ ("next_token", JStr "X") ]
              [ JObj [ ("id", JStr "a") ]; JObj [ ("id", JStr "b") ] ]
              (SText "X")
              (likers w ++ [ bare_row E "42" "a"; bare_row E "42" "b" ])
              w1 eq_refl)
    as (w2 & Hp2 & Hl2 & Hst2 & Hf2 & Hm2); [| reflexivity | reflexivity |].
  { rewrite Ht, Hl1. now apply insert_rows_page_1. }
  cbn [dict_get assoc String.eqb Ascii.eqb Bool.eqb truthy negb total_users p0
       List.length Z.of_nat Pos.of_succ_nat Pos.succ Z.add text_affinity] in Hp2, Hst2.
  fold page_1 in Hp2.
  set (p1 := Progress (JStr "X") false 2) in *.
  assert (Hs2 : stop_flag w2 = false).
  { destruct Hm2 as (_ & _ & Hflag & _). now rewrite (Hflag no_signal). }
  assert (Hq2 : requests_made w2 = S (requests_made w)).
  { rewrite (quiet_requests_made E w1 w2 Hm2). exact Hq1. }
  (* second page *)
  destruct (collect_fetches_page k p1 w2 h2 page_2 eq_refl Hs2)
    as (w3 & Hc3 & (Hl3 & Hst3 & Hf3) & Hs3 & Hq3).
  { rewrite Ht, Hq2. exact Hr2. }
  { reflexivity. }
  destruct (process_page_ingests cfg E p1
              [ ("data", JArr [ JObj [ ("id", JStr "c") ] ]); ("meta", JObj []) ]
              []
              [ JObj [ ("id", JStr "c") ] ]
              SNull
              (likers w ++ [ bare_row E "42" "a"; bare_row E "42" "b";
                             bare_row E "42" "c" ])
              w3 eq_refl)
    as (w4 & Hp4 & Hl4 & Hst4 & Hf4 & Hm4); [| reflexivity | reflexivity |].
  { rewrite Ht, Hl3, Hl2. now apply insert_rows_page_2. }
  cbn [dict_get assoc String.eqb Ascii.eqb Bool.eqb truthy negb total_users p1
       List.length Z.of_nat Pos.of_succ_nat Pos.succ Z.add text_affinity] in Hp4, Hst4.
  fold page_2 in Hp4.
  set (p2 := Progress JNull true 3) in *.
  assert (Hq4 : requests_made w4 = S (S (requests_made w))).
  { rewrite (quiet_requests_made E w3 w4 Hm4), Hq3, Hq2. reflexivity. }
  (* the loop ends *)
  assert (Hcollect : collect cfg E (S (S k)) p0 w0 = (Ok p2, w4)).
  { rewrite Hc1. unfold bind at 1. rewrite Hp2.
    rewrite Hc3. unfold bind at 1. rewrite Hp4. now apply collect_done. }
  (* the checkpoint after the loop *)
  assert (Hrow4 : State.fetchone "42" (state w4) =
                  Some (State.Row "42" None 1 (Some (now w3)) 3 0)).
  { rewrite Hst4, Ht, fetchone_update_progress, Hst3, Hst2, Ht,
      fetchone_update_progress, Hst1, Hrow0. reflexivity. }
  (* the export *)
  set (w5 := emit E (EvStopFlag (stop_flag w4 || signal E (List.length (trace w4)))) 0 w4).
  assert (Hcount : Likers.count "42" (likers w5) = 3).
  { unfold w5. cbn [likers emit]. rewrite Hl4. now apply count_three. }
  exists (snd (export_csv cfg E "42" w5)).
  exists (State.Row "42" None 1 (Some (now w3)) 3
            (now (emit E (EvExport (snapshot_path cfg "42" (now w5))) 0
                    (write_file (snapshot_path cfg "42" (now w5))
                       (snapshot "42" (likers w5)) w5)))),
         (now w5).
  split; [|split; [|split; [|split; [|split; [|split]]]]].
  - rewrite Hrun. unfold bind at 1. rewrite Hcollect.
    unfold bind, read_stop_flag. fold w5.
    rewrite final_export_in_final_mode by assumption.
    rewrite Ht, Hcount. reflexivity.
  - rewrite export_csv_spec. cbn [snd requests_made set_state emit write_file]. exact Hq4.
  - rewrite export_csv_spec. cbn [snd state set_state].
    rewrite fetchone_update_export. cbn [state emit write_file]. fold w5.
    change (state w5) with (state w4). rewrite Hrow4. reflexivity.
  - reflexivity.
  - reflexivity.
  - rewrite export_csv_spec. cbn [snd likers set_state emit write_file]. fold w5.
    change (likers w5) with (likers w4).
    rewrite Hl4, of_tweet_app, Hempty. reflexivity.
  - rewrite export_csv_spec. cbn [snd files set_state emit write_file]. fold w5.
    change (likers w5) with (likers w4). change (files w5) with (files w4).
    rewrite Hl4, snapshot_three by assumption.
    rewrite Hf4, Hf3, Hf2, Hf1. reflexivity.
Qed.

End Pages.

(** ** Rate-limit pacing *)

Section Pacing.

Variable cfg : config.
Variable E : env.

Hypothesis production : QUICK_TEST cfg = false.

Lemma hoare_bind {A B} (P : world -> Prop) (m : M A) (k : A -> M B)
    (Qm : res A -> world -> Prop) (Q : res B -> world -> Prop) :
  hoare P m Qm ->
  (forall a, hoare (Qm (Ok a)) (k a) Q) ->
  (forall e w, Qm (Raise e) w -> Q (Raise e) w) ->
  hoare P (bind m k) Q.
Proof.
  intros Hm Hk He w HP. specialize (Hm w HP). unfold bind.
  destruct (m w) as [[a|e] w1]; cbn [fst snd] in *.
  - now apply Hk.
  - now apply He.
Qed.

Lemma hoare_weaken {A} (P P' : world -> Prop) (m : M A) (Q Q' : res A -> world -> Prop) :
  hoare P m Q -> (forall w, P' w -> P w) -> (forall r w, Q r w -> Q' r w) ->
  hoare P' m Q'.
Proof. intros H HP HQ w Hw. apply HQ, H, HP, Hw. Qed.

(** *** Traces *)

Lemma due_mono (tr : list event) (c c' : Z) : due tr c -> c <= c' -> due tr c'.
Proof.
  intros H Hle t req h body T Hin Hlim. specialize (H t req h body T Hin Hlim). lia.
Qed.

Lemma due_app (tr evs : list event) (c : Z) :
  due tr c -> due evs c -> due (tr ++ evs) c.
Proof.
  intros H1 H2 t req h body T Hin Hlim. apply in_app_or in Hin as [Hin|Hin]; eauto.
Qed.

Lemma due_no_success (evs : list event) (c : Z) :
  (forall t req h body, ~ In (EvGet t req (Response 200 h body)) evs) -> due evs c.
Proof. intros H t req h body T Hin _. exfalso. eapply H; eassumption. Qed.

Lemma due_quiet (evs : list event) (c : Z) : forallb is_quiet evs = true -> due evs c.
Proof.
  intros Hq. apply due_no_success. intros t req h body Hin.
  rewrite forallb_forall in Hq. specialize (Hq _ Hin). discriminate.
Qed.

Lemma snoc_split {A} (pre post l : list A) (a x : A) :
  l ++ [x] = pre ++ a :: post ->
  (post = [] /\ pre = l /\ a = x) \/
  (exists post', post = post' ++ [x] /\ l = pre ++ a :: post').
Proof.
  intros H. destruct post as [|b post].
  - left. apply app_inj_tail in H as [-> ->]. auto.
  - right. destruct (@exists_last _ (b :: post)) as (post' & y & Hlast);
      [discriminate|].
    rewrite Hlast in H |- *.
    change (pre ++ a :: post' ++ [y]) with (pre ++ (a :: post') ++ [y]) in H.
    rewrite app_assoc in H. apply app_inj_tail in H as [-> ->].
    exists post'. auto.
Qed.

Lemma paced_snoc (tr : list event) (ev : event) :
  paced tr -> (forall t req r, ev = EvGet t req r -> due tr t) -> paced (tr ++ [ev]).
Proof.
  intros Hp Hev pre t req r post Heq.
  apply snoc_split in Heq as [(_ & -> & Hx)|(post' & _ & ->)].
  - eapply Hev. symmetry. exact Hx.
  - eapply Hp. reflexivity.
Qed.

Lemma paced_app_quiet (tr evs : list event) :
  paced tr -> forallb not_get evs = true -> paced (tr ++ evs).
Proof.
  intros Hp. revert tr Hp. induction evs as [|ev evs IH]; intros tr Hp Hq.
  - now rewrite app_nil_r.
  - simpl in Hq. apply andb_true_iff in Hq as [Hev Hq].
    change (tr ++ ev :: evs) with (tr ++ [ev] ++ evs). rewrite app_assoc.
    apply IH; [|assumption].
    apply paced_snoc; [assumption|]. intros t req r ->. discriminate.
Qed.

Lemma quiet_not_get (evs : list event) :
  forallb is_quiet evs = true -> forallb not_get evs = true.
Proof.
  rewrite !forallb_forall. intros H ev Hin. specialize (H ev Hin). now destruct ev.
Qed.

(** Waiting keeps the pacing and what is due. *)
Lemma waited_ready (w w' : world) : moves E is_quiet w w' -> ready w -> ready w'.
Proof.
  intros (Hc & _ & _ & evs & Ht & Hq & _) (Hp & H0 & Hd).
  unfold ready. rewrite Ht. repeat split.
  - apply paced_app_quiet; [assumption|now apply quiet_not_get].
  - lia.
  - apply due_app; [eapply due_mono; eassumption|now apply due_quiet].
Qed.

(** *** Waiting on the rate-limit headers *)

Lemma now_le_clock (w : world) : 0 <= clock w -> 1000 * now w <= clock w.
Proof.
  intros H. unfold now. rewrite Z.quot_div_nonneg by lia.
  apply Z.mul_div_le. lia.
Qed.

(** The countdown runs its seconds unless the stop flag is raised. *)
Lemma pace_countdown_clock (n : nat) (w : world) :
  stop_flag (snd (pace_countdown E n w)) = true \/
  clock w + 1000 * Z.of_nat n <= clock (snd (pace_countdown E n w)).
Proof.
  revert w. induction n as [|n IH]; intros w.
  - right. simpl. lia.
  - rewrite pace_countdown_step.
    destruct (stop_flag w || signal E (List.length (trace w))) eqn:Hb.
    + left. cbn [snd stop_flag emit]. exact Hb.
    + set (w2 := emit E (EvSleep 1000) 1000 (emit E (EvStopFlag false) 0 w)).
      destruct (IH w2) as [Hs|Hc]; [now left|right].
      assert (clock w + 1000 <= clock w2).
      { unfold w2. cbn [clock emit].
        pose proof (N2Z.is_nonneg (lag E (List.length (trace w)))).
        pose proof (N2Z.is_nonneg
                      (lag E (List.length (trace (emit E (EvStopFlag false) 0 w))))).
        cbn [trace emit] in *. lia. }
      lia.
Qed.

Lemma pace_requests_limited (h : headers) (T : Z) (w : world) :
  limited h T -> T <> 0 ->
  pace_requests cfg E h w =
  pace_countdown E (Z.to_nat (Z.max 0 (T - now w) + 2)) w.
Proof.
  intros (r & Hr & Hle & Ht) HT. unfold pace_requests. rewrite Hr, Ht, production.
  cbn [int_of_header].
  destruct (Z.leb_spec r 1); [|lia].
  destruct (Z.eqb_spec T 0); [contradiction|]. reflexivity.
Qed.

(** After the wait on the headers of a limited response, the reset time
    and its two seconds are at most a second away, unless the stop flag
    is raised. *)
Lemma pace_requests_waits (h : headers) (T : Z) (w : world) :
  limited h T -> 0 <= clock w ->
  stop_flag (snd (pace_requests cfg E h w)) = true \/
  1000 * (T + 2) <= clock (snd (pace_requests cfg E h w)) + 1000.
Proof.
  intros Hlim H0. destruct (Z.eq_dec T 0) as [->|HT].
  - right. destruct (pace_requests_waited cfg E h w) as [(Hc & _) _].
    destruct Hlim as (r & Hr & Hle & Ht).
    unfold pace_requests in *. rewrite Hr, Ht, production in *.
    cbn [int_of_header] in *.
    destruct (Z.leb_spec r 1); [|lia]. cbn [Z.eqb negb andb] in *.
    destruct (Z.leb_spec r 5); [|lia].
    cbn [sleep snd clock emit].
    pose proof (random_uniform_bounds E 1000 3000 w).
    pose proof (N2Z.is_nonneg (lag E (List.length (trace w)))). lia.
  - rewrite (pace_requests_limited h T w Hlim HT).
    destruct (pace_countdown_clock (Z.to_nat (Z.max 0 (T - now w) + 2)) w) as [Hs|Hc];
      [now left|right].
    pose proof (now_le_clock w H0). lia.
Qed.

(** The countdown on the headers of a limited response lasts until the
    reset time and its two seconds, unless the stop flag is raised. *)
Lemma pace_requests_reaches_reset (h : headers) (T : Z) (w : world) :
  limited h T -> T <> 0 -> 0 <= clock w ->
  stop_flag (snd (pace_requests cfg E h w)) = true \/
  1000 * (T + 2) <= clock (snd (pace_requests cfg E h w)).
Proof.
  intros Hlim HT H0. rewrite (pace_requests_limited h T w Hlim HT).
  destruct (pace_countdown_clock (Z.to_nat (Z.max 0 (T - now w) + 2)) w) as [Hs|Hc];
    [now left|right].
  pose proof (now_le_clock w H0). lia.
Qed.

(** *** One attempt *)

Lemma handle_response_success (attempt : nat) (h : headers) (body : json)
    (retry : M (option json)) (w : world) :
  handle_response cfg E attempt (Response 200 h body) retry w =
  (match page_diagnostics body with
   | Ok _ => Ok (Some body)
   | Raise e => Raise e
   end, snd (pace_requests cfg E h w)).
Proof.
  unfold handle_response, bind, lift. rewrite pace_requests_eq. cbn [Z.eqb Pos.eqb].
  now destruct (page_diagnostics body).
Qed.

(** Any other outcome of a request leads, through waiting only, to the
    next attempt or to an end without a page. *)
Lemma handle_response_no_page (attempt : nat) (response : http_result)
    (retry : M (option json)) (w : world) :
  (forall h b, response <> Response 200 h b) ->
  exists w1,
    waited E w w1 /\
    (handle_response cfg E attempt response retry w = retry w1 \/
     exists r, handle_response cfg E attempt response retry w = (r, w1) /\
               forall body, r <> Ok (Some body)).
Proof.
  intros Hnot.
  assert (Hback : forall w0, waited E w w0 ->
            exists w1, waited E w w1 /\
              (doM_ backoff_sleep E attempt; retry) w0 = retry w1).
  { intros w0 Hw0. exists (snd (backoff_sleep E attempt w0)). split.
    - eapply waited_trans; [exact Hw0|apply backoff_sleep_waited].
    - reflexivity. }
  destruct response as [s h b|h|].
  - assert (Hs : s <> 200) by (intros ->; now apply (Hnot h b)).
    pose proof (pace_requests_waited cfg E h w) as Hw0.
    destruct (Z.eq_dec s 429) as [->|H429].
    + destruct (int_of_header_or_zero (x_rate_limit_reset h)) as [T|e] eqn:HT.
      * destruct (Z.eq_dec T 0) as [->|HT0].
        -- destruct (Hback _ Hw0) as (w1 & Hw1 & Heq).
           exists w1. split; [exact Hw1|]. left. rewrite <- Heq.
           unfold handle_response. unfold bind at 1. rewrite pace_requests_eq.
           cbn [Z.eqb Pos.eqb]. unfold bind at 1, lift. rewrite HT. reflexivity.
        -- destruct (handle_response_rate_limited cfg E attempt retry w h b T HT HT0)
             as (w1 & Hw1 & [[_ Heq]|[_ Heq]]);
             exists w1; (split; [exact Hw1|]).
           ++ right. exists (Ok None). split; [exact Heq|discriminate].
           ++ now left.
      * eexists. split; [exact Hw0|]. right. exists (Raise e). split; [|discriminate].
        unfold handle_response. unfold bind at 1. rewrite pace_requests_eq.
        cbn [Z.eqb Pos.eqb]. unfold bind, lift. now rewrite HT.
    + destruct ((500 <=? s) && (s <? 600)) eqn:H5.
      * destruct (Hback _ Hw0) as (w1 & Hw1 & Heq).
        exists w1. split; [exact Hw1|]. left. rewrite <- Heq.
        unfold handle_response. unfold bind at 1. rewrite pace_requests_eq.
        destruct (Z.eqb_spec s 200); [contradiction|].
        destruct (Z.eqb_spec s 429); [contradiction|]. now rewrite H5.
      * eexists. split; [exact Hw0|]. right. exists (Ok None). split; [|discriminate].
        unfold handle_response. unfold bind at 1. rewrite pace_requests_eq.
        destruct (Z.eqb_spec s 200); [contradiction|].
        destruct (Z.eqb_spec s 429); [contradiction|]. now rewrite H5.
  - destruct (Hback _ (pace_requests_waited cfg E h w)) as (w1 & Hw1 & Heq).
    exists w1. split; [exact Hw1|]. left. rewrite <- Heq.
    unfold handle_response. unfold bind at 1. now rewrite pace_requests_eq.
  - destruct (Hback w (waited_refl E w)) as (w1 & Hw1 & Heq).
    exists w1. split; [exact Hw1|]. left. exact Heq.
Qed.

(** *** The page fetcher *)

Lemma ready_after_get (w : world) (req : request) (r : http_result) :
  ready w ->
  let w1 := emit E (EvGet (clock w) req r) 0 w in
  paced (trace w1) /\ 0 <= clock w1 /\ due (trace w) (clock w1).
Proof.
  intros (Hp & H0 & Hd) w1.
  assert (clock w <= clock w1).
  { unfold w1. cbn [clock emit].
    pose proof (N2Z.is_nonneg (lag E (List.length (trace w)))). lia. }
  repeat split.
  - unfold w1. cbn [trace emit]. apply paced_snoc; [assumption|].
    intros t req' r' Heq. inversion Heq; subst. assumption.
  - lia.
  - eapply due_mono; eassumption.
Qed.

(** From a moment when a request can be made, [fetch_page] keeps the
    pacing, and a page it returns has had its headers honoured. *)
Lemma fetch_attempts_paced (req : request) (attempts : list nat) :
  hoare ready (fetch_attempts cfg E req attempts)
    (fun r w' =>
       match r with
       | Ok (Some _) => settled w'
       | _ => paced (trace w')
       end).
Proof.
  induction attempts as [|attempt rest IH]; intros w Hready.
  - simpl. apply Hready.
  - set (r := remote E (requests_made w) req).
    set (w1 := emit E (EvGet (clock w) req r) 0 w).
    assert (Heq : fetch_attempts cfg E req (attempt :: rest) w =
                  handle_response cfg E attempt r (fetch_attempts cfg E req rest) w1)
      by reflexivity.
    rewrite Heq. clear Heq.
    destruct (ready_after_get w req r Hready) as (Hp1 & H01 & Hd1). fold w1 in Hp1, H01, Hd1.
    assert (Hcases : (exists h body, r = Response 200 h body) \/
                     (forall h b, r <> Response 200 h b)).
    { destruct r as [s h b|h|]; [|right; discriminate..].
      destruct (Z.eq_dec s 200) as [->|Hs]; [left; eauto|].
      right. intros h' b' Heq. inversion Heq. contradiction. }
    destruct Hcases as [(h & body & Hr)|Hnot].
    + (* a page, or the end in its diagnostics *)
      rewrite Hr, handle_response_success. cbn [fst snd].
      destruct (pace_requests_waited cfg E h w1) as [(Hc & _ & _ & evs & Ht & Hq & _) _].
      set (w2 := snd (pace_requests cfg E h w1)) in *.
      assert (Hp2 : paced (trace w2)).
      { rewrite Ht. apply paced_app_quiet; [assumption|now apply quiet_not_get]. }
      destruct (page_diagnostics body); [|exact Hp2].
      unfold settled. split; [|split].
      * rewrite Ht. apply paced_app_quiet; [assumption|now apply quiet_not_get].
      * lia.
      * destruct (stop_flag w2) eqn:Hs; [now left|right].
        rewrite Ht. unfold w1 at 1. cbn [trace emit]. rewrite Hr.
        apply due_app; [apply due_app|].
        -- eapply due_mono; [exact Hd1|]. lia.
        -- intros t req' h' body' T [Hin|[]] Hlim. inversion Hin; subst h' body'.
           destruct (pace_requests_waits h T w1 Hlim H01) as [Hs'|Hle].
           ++ fold w2 in Hs'. congruence.
           ++ exact Hle.
        -- now apply due_quiet.
    + (* no page *)
      assert (Hready1 : ready w1).
      { split; [assumption|]. split; [assumption|].
        unfold w1. cbn [trace emit]. apply due_app; [assumption|].
        intros t req' h' body' T [Hin|[]] _. inversion Hin as [[Ht Hreq Hres]].
        fold r in Hres. exfalso. now apply (Hnot h' body'). }
      destruct (handle_response_no_page attempt r (fetch_attempts cfg E req rest) w1 Hnot)
        as (w2 & Hw & [Heq|(r' & Heq & Hr')]).
      * rewrite Heq. apply IH. eapply waited_ready; [apply Hw|assumption].
      * rewrite Heq. cbn [fst snd].
        assert (Hp2 : paced (trace w2)).
        { eapply waited_ready; [apply Hw|assumption]. }
        destruct r' as [[body|]|e]; try assumption.
        exfalso. now apply (Hr' body).
Qed.

(** *** The collection loop *)

Lemma io_same_refl (w : world) : io_same w w.
Proof. now unfold io_same. Qed.

Lemma io_same_trans (w1 w2 w3 : world) : io_same w1 w2 -> io_same w2 w3 -> io_same w1 w3.
Proof.
  unfold io_same. intros (H1 & H2 & H3) (H4 & H5 & H6). repeat split; congruence.
Qed.

Lemma settled_io_same (w w' : world) : io_same w w' -> settled w -> settled w'.
Proof.
  intros (Ht & Hc & Hs). unfold settled. now rewrite Ht, Hc, Hs.
Qed.

(** A computation on the database alone keeps a settled world settled. *)
Lemma hoare_database {A} (m : M A) :
  steps io_same m ->
  hoare settled m
    (fun r w' => match r with Ok _ => settled w' | Raise _ => paced (trace w') end).
Proof.
  intros Hm w Hw. pose proof (settled_io_same _ _ (Hm w) Hw) as Hw'.
  destruct (fst (m w)); [assumption|apply Hw'].
Qed.

Lemma ingest_io_same (users : json) (total : Z) : steps io_same (ingest cfg E users total).
Proof.
  apply steps_ingest.
  - apply io_same_refl.
  - apply io_same_trans.
  - intros tbl w. exact (io_same_refl w).
Qed.

Lemma save_state_io_same t tok d total : steps io_same (save_state t tok d total).
Proof.
  apply steps_save_state.
  - apply io_same_refl.
  - intros tbl w. exact (io_same_refl w).
Qed.

(** The politeness delay makes the limits due. *)
Lemma politeness_paced (is_done : bool) :
  hoare settled
    (if negb is_done
     then doM stop <- read_stop_flag E;
          if negb stop then sleep E (if QUICK_TEST cfg then 1000 else 2000) else ret tt
     else ret tt)
    (fun r w' => r = Ok tt /\ resumable is_done w').
Proof.
  intros w (Hp & H0 & Hcase). destruct is_done; cbn [negb].
  - split; [reflexivity|]. unfold resumable. auto.
  - unfold bind, read_stop_flag. rewrite production.
    set (w1 := emit E (EvStopFlag _) 0 w).
    assert (Hp1 : paced (trace w1)).
    { unfold w1. cbn [trace emit]. apply paced_snoc; [assumption|discriminate]. }
    assert (Hc1 : clock w <= clock w1).
    { unfold w1. cbn [clock emit].
      pose proof (N2Z.is_nonneg (lag E (List.length (trace w)))). lia. }
    destruct (stop_flag w || signal E (List.length (trace w))) eqn:Hb; cbn [negb].
    + cbn [ret fst snd]. split; [reflexivity|].
      unfold resumable. split; [assumption|]. split; [lia|].
      right. left. unfold w1. cbn [stop_flag emit]. exact Hb.
    + split; [reflexivity|]. cbn [sleep fst snd].
      apply orb_false_iff in Hb as [Hs _].
      destruct Hcase as [Hs'|Hd]; [congruence|].
      set (w2 := emit E (EvSleep 2000) 2000 w1).
      assert (Hc2 : clock w1 + 2000 <= clock w2).
      { unfold w2. cbn [clock emit].
        pose proof (N2Z.is_nonneg (lag E (List.length (trace w1)))). lia. }
      unfold resumable. split; [|split; [lia|]].
      * unfold w2. cbn [trace emit]. apply paced_snoc; [assumption|discriminate].
      * right. right. unfold w2, w1. cbn [trace emit]. rewrite <- app_assoc.
        apply due_app; [|now apply due_quiet].
        eapply due_mono; [exact Hd|]. cbn [clock emit] in *. lia.
Qed.

(** From a page whose headers were honoured, the loop body leaves the
    world ready for the next turn. *)
Lemma process_page_paced (p : progress) (data : json) :
  hoare settled (process_page cfg E p data)
    (fun r w' =>
       match r with
       | Ok p' => resumable (done p') w'
       | Raise _ => paced (trace w')
       end).
Proof.
  unfold process_page.
  eapply hoare_bind; [apply hoare_database; intros w; apply io_same_refl| |auto].
  intros users. cbn beta iota.
  eapply hoare_bind; [apply hoare_database| |auto].
  { destruct (truthy users); [apply ingest_io_same|intros w; apply io_same_refl]. }
  intros total'. cbn beta iota.
  eapply hoare_bind; [apply hoare_database; intros w; apply io_same_refl| |auto].
  intros meta. cbn beta iota.
  eapply hoare_bind; [apply hoare_database; intros w; apply io_same_refl| |auto].
  intros tok'. cbn beta iota.
  eapply hoare_bind; [apply hoare_database; apply save_state_io_same| |auto].
  intros u. cbn beta iota.
  eapply hoare_bind; [apply (politeness_paced (negb (truthy tok')))| |].
  - intros a w [_ Hw]. exact Hw.
  - intros e w [Habs _]. discriminate.
Qed.

Lemma collect_paced (k : nat) :
  forall p, hoare (resumable (done p)) (collect cfg E k p) (fun _ w' => paced (trace w')).
Proof.
  induction k as [|k IH]; intros p w (Hp & H0 & Hcase).
  - cbn [collect]. destruct (done p); [exact Hp|].
    unfold bind, read_stop_flag.
    assert (Hp1 : paced (trace (emit E (EvStopFlag
              (stop_flag w || signal E (List.length (trace w)))) 0 w))).
    { cbn [trace emit]. apply paced_snoc; [assumption|discriminate]. }
    destruct (stop_flag w || signal E (List.length (trace w))); exact Hp1.
  - cbn [collect]. destruct (done p) eqn:Hdone; [exact Hp|].
    unfold bind at 1, read_stop_flag.
    set (b := stop_flag w || signal E (List.length (trace w))).
    set (w1 := emit E (EvStopFlag b) 0 w).
    assert (Hw1 : moves E is_quiet w w1) by (apply moves_emit; [reflexivity|lia]).
    assert (Hp1 : paced (trace w1)).
    { unfold w1. cbn [trace emit]. apply paced_snoc; [assumption|discriminate]. }
    destruct b eqn:Hb; [exact Hp1|].
    apply orb_false_iff in Hb as [Hs _].
    destruct Hcase as [Habs|[Habs|Hd]]; try congruence.
    assert (Hready : ready w1).
    { eapply waited_ready; [exact Hw1|]. now split. }
    pose proof (fetch_attempts_paced
                  (page_request cfg (TWEET_ID cfg) (next_token p)) (seq 0 7) w1 Hready)
      as Hfetch.
    unfold bind at 1. fold (fetch_page cfg E (TWEET_ID cfg) (next_token p)) in Hfetch.
    destruct (fetch_page cfg E (TWEET_ID cfg) (next_token p) w1) as [[[data|]|e] w2];
      cbn [fst snd] in Hfetch.
    + pose proof (process_page_paced p data w2 Hfetch) as Hpage.
      unfold bind at 1.
      destruct (process_page cfg E p data w2) as [[p'|e] w3]; cbn [fst snd] in Hpage.
      * apply IH. exact Hpage.
      * exact Hpage.
    + unfold bind.
      pose proof (save_state_io_same (TWEET_ID cfg) (next_token p) false (total_users p) w2)
        as (Ht & _).
      destruct (save_state (TWEET_ID cfg) (next_token p) false (total_users p) w2)
        as [[[]|e] w3]; cbn [fst snd ret] in *; now rewrite Ht.
    + exact Hfetch.
Qed.

(** A run that starts when a request can be made keeps the pacing to its
    end. *)
Lemma run_paced : hoare ready (run cfg E) (fun _ w' => paced (trace w')).
Proof.
  intros w (Hp & H0 & Hd). unfold run, bind at 1.
  assert (Hget : io_same w (snd (get_state (TWEET_ID cfg) w))).
  { apply steps_get_state; [apply io_same_refl|intros tbl w0; exact (io_same_refl w0)]. }
  destruct (get_state (TWEET_ID cfg) w) as [[st|e] w0] eqn:Hst; cbn [snd] in Hget.
  - destruct Hget as (Ht & Hc & Hs).
    destruct st as [[[tok is_done] total] last].
    destruct is_done.
    + unfold bind. rewrite export_csv_spec. cbn [ret fst snd trace set_state emit write_file].
      rewrite Ht. apply paced_snoc; [assumption|discriminate].
    + assert (Hres : resumable (done (Progress tok false total)) w0).
      { unfold resumable. rewrite Ht, Hc. auto. }
      pose proof (collect_paced (max_pages cfg) (Progress tok false total) w0 Hres) as Hcol.
      unfold bind at 1.
      destruct (collect cfg E (max_pages cfg) (Progress tok false total) w0)
        as [[p'|e] w1]; cbn [fst snd] in Hcol; [|exact Hcol].
      destruct (steps_any E _ not_get (run_epilogue_no_request cfg E) w1)
        as (evs & Hte & Hq).
      cbn [fst snd]. rewrite Hte. now apply paced_app_quiet.
  - unfold get_state in Hst. destruct (State.fetchone (TWEET_ID cfg) (state w)); discriminate.
Qed.

(** C6, as the code has it. Outside QUICK_TEST mode, in a run started at
    or after the epoch, a request that follows a response with status 200
    and a JSON body whose headers give at most 1 remaining call (0 in
    particular) and the reset time [T] is made no earlier than [T] plus 2
    seconds.  When [T] is not 0, the wait on such headers, whatever the
    response, is a countdown that reads the stop flag before every second
    of sleep, and it ends only when [T] plus 2 seconds is reached or the
    stop flag is found set. *)
Theorem rate_limit_wait_in_production (w : world) :
  trace w = [] -> 0 <= clock w ->
  (forall pre t1 req1 h body mid t2 req2 r2 post remaining T,
      trace (snd (run cfg E w)) =
        pre ++ EvGet t1 req1 (Response 200 h body) :: mid ++ EvGet t2 req2 r2 :: post ->
      x_rate_limit_remaining h = Some (HNum remaining) -> remaining <= 1 ->
      x_rate_limit_reset h = Some (HNum T) ->
      1000 * (T + 2) <= t2) /\
  (forall h remaining T w0,
      x_rate_limit_remaining h = Some (HNum remaining) -> remaining <= 1 ->
      x_rate_limit_reset h = Some (HNum T) -> T <> 0 ->
      exists evs,
        trace (snd (pace_requests cfg E h w0)) = trace w0 ++ evs /\ countdown evs) /\
  (forall h remaining T w0,
      x_rate_limit_remaining h = Some (HNum remaining) -> remaining <= 1 ->
      x_rate_limit_reset h = Some (HNum T) -> T <> 0 -> 0 <= clock w0 ->
      stop_flag (snd (pace_requests cfg E h w0)) = true \/
      1000 * (T + 2) <= clock (snd (pace_requests cfg E h w0))).
Proof.
  intros Hstart H0. split; [|split].
  - intros pre t1 req1 h body mid t2 req2 r2 post remaining T Ht Hrem Hle Hreset.
    assert (Hready : ready w).
    { unfold ready. rewrite Hstart. repeat split.
      - intros pre' t req r post' Heq. destruct pre'; discriminate.
      - assumption.
      - intros t req h' body' T' []. }
    pose proof (run_paced w Hready) as Hp. cbn beta in Hp.
    change (pre ++ EvGet t1 req1 (Response 200 h body) :: mid ++ EvGet t2 req2 r2 :: post)
      with (pre ++ (EvGet t1 req1 (Response 200 h body) :: mid) ++ EvGet t2 req2 r2 :: post)
      in Ht.
    rewrite app_assoc in Ht.
    apply (Hp _ _ _ _ _ Ht t1 req1 h body T).
    + apply in_or_app. right. left. reflexivity.
    + exists remaining. auto.
  - intros h remaining T w0 Hrem Hle Hreset HT.
    rewrite (pace_requests_limited h T w0); [apply pace_countdown_events| |exact HT].
    exists remaining. auto.
  - intros h remaining T w0 Hrem Hle Hreset HT Hc.
    apply pace_requests_reaches_reset; [|exact HT|exact Hc].
    exists remaining. auto.
Qed.

End Pacing.

(** C6, as stated, fails. With QUICK_TEST=true the wait on the rate-limit
    headers is skipped: the request after a response that announced 0
    remaining calls until second 1700000100 is made one second later, 101
    seconds too early.  In production, headers with 0 remaining calls and a
    reset time of 0 make the program sleep three seconds in one piece,
    without reading the stop flag.  And in production a response that
    [fetch_page] answers by a backoff and another attempt (a 200 whose body
    is not JSON, a 503) is retried without a look at the stop flag: when a
    signal cuts the countdown short, the next request goes out a second
    later, 101 seconds too early. *)
Lemma rate_limit_wait_exceptions :
  (exists pre mid post req1 req2 r2,
      trace (snd (run cfg_quick E_limited w_fresh)) =
        pre ++ EvGet 1700000000000 req1 (Response 200 h_exhausted page_with_more)
            :: mid ++ EvGet 1700000001000 req2 r2 :: post /\
      x_rate_limit_remaining h_exhausted = Some (HNum 0) /\
      x_rate_limit_reset h_exhausted = Some (HNum 1700000100) /\
      1700000001000 < 1000 * (1700000100 + 2)) /\
  trace (snd (pace_requests cfg_final E_limited h_exhausted_no_reset w_fresh)) =
    [ EvSleep 3000 ] /\
  (exists post req1 req2 r2,
      trace (snd (run cfg_final E_garbled w_fresh)) =
        [ EvStopFlag false ]
        ++ EvGet 1700000000000 req1 (NotJson h_exhausted)
        :: [ EvStopFlag true; EvSleep 1000 ]
        ++ EvGet 1700000001000 req2 r2 :: post) /\
  (exists post req1 req2 r2,
      trace (snd (run cfg_final E_overloaded w_fresh)) =
        [ EvStopFlag false ]
        ++ EvGet 1700000000000 req1 (Response 503 h_exhausted JNull)
        :: [ EvStopFlag true; EvSleep 1000 ]
        ++ EvGet 1700000001000 req2 r2 :: post).
Proof.
  split; [|split; [vm_compute; reflexivity|split]].
  - exists [ EvStopFlag false ], [ EvStopFlag false; EvSleep 1000; EvStopFlag false ].
    eexists _, _, _, _.
    split; [vm_compute; reflexivity|].
    split; [reflexivity|]. split; [reflexivity|]. reflexivity.
  - eexists _, _, _, _. vm_compute. reflexivity.
  - eexists _, _, _, _. vm_compute. reflexivity.
Qed.

(** * The theorems at work on concrete inputs *)

(** C2 on Ann and Bob, who share the id a: Bob after Ann changes nothing. *)
Lemma insert_users_duplicate_is_noop_witness :
  py_get u_ann "id" JNull = py_get u_bob "id" JNull /\
  insert_users E_not_found "42" [ u_ann ] w_fresh =
    (Ok tt, snd (insert_users E_not_found "42" [ u_ann ] w_fresh)) /\
  insert_users E_not_found "42" [ u_bob ] w_fresh =
    (Ok tt, snd (insert_users E_not_found "42" [ u_bob ] w_fresh)) /\
  insert_users E_not_found "42" [ u_bob ]
    (snd (insert_users E_not_found "42" [ u_ann ] w_fresh)) =
    (Ok tt, snd (insert_users E_not_found "42" [ u_ann ] w_fresh)).
Proof.
  split; [reflexivity|]. split; [reflexivity|]. split; [reflexivity|].
  apply (insert_users_duplicate_is_noop E_not_found "42" u_ann u_bob w_fresh
           (snd (insert_users E_not_found "42" [ u_ann ] w_fresh))
           (snd (insert_users E_not_found "42" [ u_bob ] w_fresh)));
    reflexivity.
Defined.

(** C10 on the empty database. *)
Lemma save_state_without_row_changes_nothing_witness :
  State.fetchone "42" (state w_fresh) = None /\
  save_state "42" (py_of_text (Some "X")) false 5 w_fresh = (Ok tt, w_fresh).
Proof.
  split; [reflexivity|].
  apply (save_state_without_row_changes_nothing "42" (Some "X") false 5 w_fresh).
  reflexivity.
Defined.

(** C7 on the same record at two moments: both files hold the header and
    the line of the record. *)
Lemma export_rows_are_deterministic_witness :
  likers w_prior = likers w_later /\
  read_file "out/42_likers_1700000000.csv"
    (files (snd (export_csv cfg_final E_not_found "42" w_prior))) =
    Some [ expected_header; expected_line "42" (row_of_id "a") ] /\
  exists (rows : list Likers.row) (p1 p2 : string),
    Permutation rows
      (filter (fun r => String.eqb (Likers.tweet_id r) "42") (likers w_prior)) /\
    StronglySorted id_le rows /\
    fst (export_csv cfg_final E_not_found "42" w_prior) = Ok p1 /\
    fst (export_csv cfg_final E_not_found "42" w_later) = Ok p2 /\
    read_file p1 (files (snd (export_csv cfg_final E_not_found "42" w_prior))) =
      Some (expected_header :: map (expected_line "42") rows) /\
    read_file p2 (files (snd (export_csv cfg_final E_not_found "42" w_later))) =
      Some (expected_header :: map (expected_line "42") rows) /\
    likers (snd (export_csv cfg_final E_not_found "42" w_prior)) = likers w_prior.
Proof.
  split; [reflexivity|]. split; [reflexivity|].
  apply (export_rows_are_deterministic cfg_final E_not_found "42" w_prior w_later).
  reflexivity.
Defined.


(** C5 on a first response that is a 404. *)
Lemma fetch_page_none_is_stop_or_failure_witness :
  remote E_not_found (requests_made w_fresh) (page_request cfg_final "42" JNull) =
    Response 404 no_headers JNull /\
  exists w',
    fetch_attempts cfg_final E_not_found (page_request cfg_final "42" JNull) (seq 0 7) w_fresh =
      (Ok None, w') /\
    same_store w_fresh w'.
Proof.
  split; [reflexivity|].
  apply (proj1 (proj2 (proj2 (fetch_page_none_is_stop_or_failure cfg_final E_not_found)))
           (page_request cfg_final "42" JNull) 0%nat (seq 1 6) w_fresh 404 no_headers JNull);
    try reflexivity; lia.
Defined.

(** C9 on a page whose one record is already stored: the count goes from 1
    to 2, then 3, and the store keeps its one row. *)
Lemma checkpoint_counts_payload_records_witness :
  insert_rows E_not_found (TWEET_ID cfg_final) [ JObj [ ("id", JStr "a") ] ] (likers w_prior) =
    Ok [ row_of_id "a" ] /\
  State.fetchone (TWEET_ID cfg_final) (state w_prior) = Some (State.Row "42" None 0 None 1 0) /\
  Likers.count (TWEET_ID cfg_final) (likers w_prior) <= 1 /\
  exists w1 w2 row1 row2,
    process_page cfg_final E_not_found (Progress JNull false 1) page_with_more w_prior =
      (Ok (Progress (JStr "X") false 2), w1) /\
    likers w1 = [ row_of_id "a" ] /\
    State.fetchone (TWEET_ID cfg_final) (state w1) = Some row1 /\
    State.total_users_found row1 = 2 /\
    process_page cfg_final E_not_found (Progress (JStr "X") false 2) page_with_more w1 =
      (Ok (Progress (JStr "X") false 3), w2) /\
    likers w2 = [ row_of_id "a" ] /\
    State.fetchone (TWEET_ID cfg_final) (state w2) = Some row2 /\
    State.total_users_found row2 = 3 /\
    Likers.count (TWEET_ID cfg_final) (likers w2) < State.total_users_found row2.
Proof.
  split; [reflexivity|]. split; [reflexivity|]. split; [vm_compute; discriminate|].
  destruct (checkpoint_counts_payload_records cfg_final E_not_found
              (Progress JNull false 1)
              [ ("data", JArr [ JObj [ ("id", JStr "a") ] ]);
                ("meta", JObj [ ("next_token", JStr "X") ]) ]
              [ ("next_token", JStr "X") ]
              [ JObj [ ("id", JStr "a") ] ]
              (SText "X") [ row_of_id "a" ] w_prior
              (State.Row "42" None 0 None 1 0)
              eq_refl eq_refl eq_refl eq_refl eq_refl)
    as (w1 & w2 & row1 & row2 & H1 & H2 & H3 & H4 & H5 & H6 & H7 & H8 & H9).
  exists w1, w2, row1, row2.
  repeat (split; [assumption|]).
  apply H9; [vm_compute; discriminate|discriminate].
Defined.

(** C3 on a checkpoint saved with cursor X. *)
Lemma resumes_from_saved_cursor_witness :
  State.fetchone (TWEET_ID cfg_final) (state w_saved) =
    Some (State.Row "42" (Some "X") 0 (Some 1699999000) 2 0) /\
  exists evs,
    trace (snd (run cfg_final E_not_found w_saved)) = trace w_saved ++ evs /\
    first_request evs =
      (if stop_flag w_saved || signal E_not_found (List.length (trace w_saved)) then None
       else Some (page_request cfg_final (TWEET_ID cfg_final) (JStr "X"))) /\
    assoc "pagination_token"
      (params (page_request cfg_final (TWEET_ID cfg_final) (JStr "X"))) = Some (JStr "X").
Proof.
  split; [reflexivity|].
  apply (resumes_from_saved_cursor cfg_final E_not_found w_saved
           (State.Row "42" (Some "X") 0 (Some 1699999000) 2 0) "X");
    try reflexivity.
  discriminate.
Defined.


(** C1 in production mode, the remote sending no rate-limit headers. *)
Lemma two_page_scenario_witness :
  TWEET_ID cfg_final = "42" /\ EXPORT_MODE cfg_final = "final" /\
  stop_flag w_fresh = false /\
  State.fetchone "42" (state w_fresh) = None /\
  Likers.of_tweet "42" (likers w_fresh) = [] /\
  remote E_two_pages (requests_made w_fresh) (page_request cfg_final "42" JNull) =
    Response 200 no_headers page_1 /\
  remote E_two_pages (S (requests_made w_fresh)) (page_request cfg_final "42" (JStr "X")) =
    Response 200 no_headers page_2 /\
  exists w' row s,
    run cfg_final E_two_pages w_fresh = (Ok tt, w') /\
    requests_made w' = S (S (requests_made w_fresh)) /\
    State.fetchone "42" (state w') = Some row /\
    State.total_users_found row = 3 /\
    State.done row = 1 /\
    Likers.of_tweet "42" (likers w') =
      [ bare_row E_two_pages "42" "a"; bare_row E_two_pages "42" "b";
        bare_row E_two_pages "42" "c" ] /\
    files w' =
      (snapshot_path cfg_final "42" s,
       [ csv_header; bare_line E_two_pages "42" "a"; bare_line E_two_pages "42" "b";
         bare_line E_two_pages "42" "c" ])
      :: filter (fun f => negb (String.eqb (fst f) (snapshot_path cfg_final "42" s)))
           (files w_fresh).
Proof.
  repeat (split; [reflexivity|]).
  apply (two_page_scenario cfg_final E_two_pages (fun _ => eq_refl) w_fresh
           no_headers no_headers);
    reflexivity.
Defined.

(** C6 on a run whose first page announces a reset 3 s ahead: the next
    request is made 7 s later. *)
Lemma rate_limit_wait_in_production_witness :
  QUICK_TEST cfg_final = false /\ trace w_fresh = [] /\ 0 <= clock w_fresh /\
  (exists post req1 req2 r2,
      trace (snd (run cfg_final E_short_limit w_fresh)) =
        [ EvStopFlag false ]
        ++ EvGet 1700000000000 req1 (Response 200 h_soon page_1)
        :: [ EvStopFlag false; EvSleep 1000; EvStopFlag false; EvSleep 1000;
             EvStopFlag false; EvSleep 1000; EvStopFlag false; EvSleep 1000;
             EvStopFlag false; EvSleep 1000; EvStopFlag false; EvSleep 2000;
             EvStopFlag false ]
        ++ EvGet 1700000007000 req2 r2 :: post) /\
  1000 * (1700000003 + 2) <= 1700000007000.
Proof.
  split; [reflexivity|]. split; [reflexivity|]. split; [vm_compute; discriminate|].
  assert (Htrace : exists post req1 req2 r2,
      trace (snd (run cfg_final E_short_limit w_fresh)) =
        [ EvStopFlag false ]
        ++ EvGet 1700000000000 req1 (Response 200 h_soon page_1)
        :: [ EvStopFlag false; EvSleep 1000; EvStopFlag false; EvSleep 1000;
             EvStopFlag false; EvSleep 1000; EvStopFlag false; EvSleep 1000;
             EvStopFlag false; EvSleep 1000; EvStopFlag false; EvSleep 2000;
             EvStopFlag false ]
        ++ EvGet 1700000007000 req2 r2 :: post).
  { eexists _, _, _, _. vm_compute. reflexivity. }
  split; [exact Htrace|].
  destruct Htrace as (post & req1 & req2 & r2 & Htrace).
  apply (proj1 (rate_limit_wait_in_production cfg_final E_short_limit eq_refl w_fresh
                  eq_refl ltac:(vm_compute; discriminate))
           _ _ _ _ _ _ _ _ _ _ 0 1700000003 Htrace);
    [reflexivity|lia|reflexivity].
Defined.

(** * Further properties *)

(** ** The page fetcher *)

Section FetcherBounds.

Variable cfg : config.
Variable E : env.

Lemma quiet_no_get (evs : list event) :
  forallb is_quiet evs = true -> filter is_get evs = [].
Proof.
  induction evs as [|ev evs IH]; [reflexivity|].
  simpl. intros H. apply andb_true_iff in H as [Hev H].
  destruct ev; simpl in *; try discriminate; auto.
Qed.

Lemma quiet_fetch_events (req : request) (evs : list event) :
  forallb is_quiet evs = true -> fetch_events req evs.
Proof.
  intros H. apply Forall_forall. intros ev Hin. left.
  rewrite forallb_forall in H. auto.
Qed.

Lemma emit_get_clock (t : Z) (req : request) (r : http_result) (w : world) :
  clock w <= clock (emit E (EvGet t req r) 0 w).
Proof.
  cbn [clock emit]. pose proof (N2Z.is_nonneg (lag E (List.length (trace w)))). lia.
Qed.

(** What one [fetch_page] does, whatever the remote answers. *)
Lemma fetch_attempts_shape (req : request) (attempts : list nat) :
  forall w,
    let w' := snd (fetch_attempts cfg E req attempts w) in
    exists evs,
      trace w' = trace w ++ evs /\
      fetch_events req evs /\
      requests_made w' = (requests_made w + List.length (filter is_get evs))%nat /\
      (List.length (filter is_get evs) <= List.length attempts)%nat /\
      (attempts <> [] -> (1 <= List.length (filter is_get evs))%nat) /\
      same_store w w' /\ clock w <= clock w'.
Proof.
  induction attempts as [|attempt rest IH]; intros w w'.
  - exists []. subst w'. cbn. rewrite app_nil_r.
    repeat split; try lia; try constructor; congruence.
  - set (r := remote E (requests_made w) req).
    set (w1 := emit E (EvGet (clock w) req r) 0 w).
    assert (Heq : fetch_attempts cfg E req (attempt :: rest) w =
                  handle_response cfg E attempt r (fetch_attempts cfg E req rest) w1)
      by reflexivity.
    assert (Hget : fetch_events req [EvGet (clock w) req r]).
    { constructor; [right; eauto|constructor]. }
    assert (Hc1 : clock w <= clock w1) by apply emit_get_clock.
    assert (Hcases : (exists h body, r = Response 200 h body) \/
                     (forall h b, r <> Response 200 h b)).
    { destruct r as [s h b|h|]; [|right; discriminate..].
      destruct (Z.eq_dec s 200) as [->|Hs]; [left; eauto|].
      right. intros h' b' Hr. inversion Hr. contradiction. }
    destruct Hcases as [(h & body & Hr)|Hnot].
    + rewrite Hr, handle_response_success in Heq.
      destruct (pace_requests_waited cfg E h w1)
        as [(Hc & _ & _ & evs & Ht & Hq & Hreq) Hst].
      subst w'. rewrite Heq. cbn [snd].
      exists (EvGet (clock w) req r :: evs).
      cbn [filter is_get]. rewrite (quiet_no_get evs Hq) in *.
      repeat split.
      * rewrite Ht. unfold w1. cbn [trace emit]. now rewrite <- app_assoc.
      * constructor; [right; eauto|now apply quiet_fetch_events].
      * rewrite Hreq. unfold w1. cbn [requests_made emit List.length]. lia.
      * cbn [List.length]. lia.
      * intros _. cbn [List.length]. lia.
      * apply Hst.
      * apply Hst.
      * apply Hst.
      * lia.
    + destruct (handle_response_no_page cfg E attempt r (fetch_attempts cfg E req rest) w1 Hnot)
        as (w2 & [(Hc & _ & _ & evs & Ht & Hq & Hreq) Hst] & Hend).
      rewrite (quiet_no_get evs Hq) in Hreq.
      assert (Hst2 : same_store w w2) by exact Hst.
      destruct Hend as [Hretry|(r' & Hr' & _)].
      * destruct (IH w2) as (evs' & Ht' & Hf' & Hreq' & Hlen' & _ & Hst' & Hc').
        subst w'. rewrite Heq, Hretry.
        exists (EvGet (clock w) req r :: evs ++ evs').
        cbn [filter is_get]. rewrite filter_app, (quiet_no_get evs Hq). cbn [app].
        repeat split.
        -- rewrite Ht', Ht. unfold w1. cbn [trace emit]. now rewrite <- !app_assoc.
        -- constructor; [right; eauto|].
           apply Forall_app. split; [now apply quiet_fetch_events|assumption].
        -- rewrite Hreq', Hreq. unfold w1. cbn [requests_made emit List.length]. lia.
        -- cbn [List.length]. lia.
        -- intros _. cbn [List.length]. lia.
        -- destruct Hst2 as (A & B & C), Hst' as (A' & B' & C'). congruence.
        -- destruct Hst2 as (A & B & C), Hst' as (A' & B' & C'). congruence.
        -- destruct Hst2 as (A & B & C), Hst' as (A' & B' & C'). congruence.
        -- lia.
      * subst w'. rewrite Heq, Hr'. cbn [snd].
        exists (EvGet (clock w) req r :: evs).
        cbn [filter is_get]. rewrite (quiet_no_get evs Hq).
        repeat split.
        -- rewrite Ht. unfold w1. cbn [trace emit]. now rewrite <- app_assoc.
        -- constructor; [right; eauto|now apply quiet_fetch_events].
        -- rewrite Hreq. unfold w1. cbn [requests_made emit List.length]. lia.
        -- cbn [List.length]. lia.
        -- intros _. cbn [List.length]. lia.
        -- apply Hst2.
        -- apply Hst2.
        -- apply Hst2.
        -- lia.
Qed.

(** X1. Whatever the remote answers, one [fetch_page] makes at least one
    request and at most seven, all of them the request for the target with
    the cursor it was given, and touches neither table nor file. *)
Theorem fetch_page_makes_one_to_seven_requests (t : string) (tok : json) (w : world) :
  exists evs n,
    trace (snd (fetch_page cfg E t tok w)) = trace w ++ evs /\
    fetch_events (page_request cfg t tok) evs /\
    requests_made (snd (fetch_page cfg E t tok w)) = (requests_made w + n)%nat /\
    (1 <= n <= 7)%nat /\
    same_store w (snd (fetch_page cfg E t tok w)).
Proof.
  destruct (fetch_attempts_shape (page_request cfg t tok) (seq 0 7) w)
    as (evs & Ht & Hf & Hreq & Hlen & Hone & Hst & _).
  exists evs, (List.length (filter is_get evs)).
  split; [exact Ht|]. split; [exact Hf|]. split; [exact Hreq|].
  split; [|exact Hst].
  split; [apply Hone; discriminate|exact Hlen].
Qed.

(** A transient outcome: backoff, then the rest of the loop. *)
Lemma handle_response_transient (attempt : nat) (r : http_result)
    (retry : M (option json)) (w : world) :
  transient r = true ->
  exists w1,
    handle_response cfg E attempt r retry w = retry w1 /\
    waited E w w1 /\
    clock w + 1000 * Z.min 300 (2 ^ Z.of_nat attempt) <= clock w1.
Proof.
  intros Htr.
  assert (Hback : forall w0, waited E w w0 ->
            exists w1, (doM_ backoff_sleep E attempt; retry) w0 = retry w1 /\
                       waited E w w1 /\
                       clock w + 1000 * Z.min 300 (2 ^ Z.of_nat attempt) <= clock w1).
  { intros w0 Hw0. exists (snd (backoff_sleep E attempt w0)).
    split; [reflexivity|]. split.
    - eapply waited_trans; [exact Hw0|apply backoff_sleep_waited].
    - destruct Hw0 as [(Hc & _) _]. unfold backoff_sleep, sleep. cbn [snd clock emit].
      pose proof (random_uniform_bounds E 0 1200 w0).
      pose proof (N2Z.is_nonneg (lag E (List.length (trace w0)))). lia. }
  destruct r as [s h b|h|].
  - pose proof (pace_requests_waited cfg E h w) as Hw0.
    destruct (Hback _ Hw0) as (w1 & Heq & Hw1 & Hc1).
    exists w1. split; [|now split]. rewrite <- Heq.
    unfold handle_response. unfold bind at 1. rewrite pace_requests_eq.
    simpl in Htr.
    destruct (Z.eqb_spec s 200) as [->|_]; [simpl in Htr; discriminate|].
    destruct (Z.eqb_spec s 429) as [->|_].
    + simpl in Htr. unfold bind at 1, lift.
      destruct (x_rate_limit_reset h) as [[z| |]|]; simpl in *; try discriminate;
        try reflexivity.
      now rewrite Htr.
    + rewrite andb_false_l, orb_false_r in Htr. now rewrite Htr.
  - pose proof (pace_requests_waited cfg E h w) as Hw0.
    destruct (Hback _ Hw0) as (w1 & Heq & Hw1 & Hc1).
    exists w1. split; [|now split]. rewrite <- Heq.
    unfold handle_response. unfold bind at 1. now rewrite pace_requests_eq.
  - destruct (Hback w (waited_refl E w)) as (w1 & Heq & Hw1 & Hc1).
    exists w1. now split.
Qed.

(** X2. When every answer is transient (a network error, a 200 whose body
    is not JSON, a 5xx, or a 429 without a reset time), [fetch_page] gives
    up after exactly seven requests with [None], having backed off for at
    least 1+2+4+...+64 = 127 seconds, and touches neither table nor file. *)
Theorem fetch_page_gives_up_after_seven (t : string) (tok : json) (w : world) :
  (forall n req, transient (remote E n req) = true) ->
  fst (fetch_page cfg E t tok w) = Ok None /\
  requests_made (snd (fetch_page cfg E t tok w)) = (requests_made w + 7)%nat /\
  clock w + 127000 <= clock (snd (fetch_page cfg E t tok w)) /\
  same_store w (snd (fetch_page cfg E t tok w)).
Proof.
  intros Hall. unfold fetch_page.
  set (req := page_request cfg t tok).
  assert (H : forall attempts w0,
             fst (fetch_attempts cfg E req attempts w0) = Ok None /\
             requests_made (snd (fetch_attempts cfg E req attempts w0)) =
               (requests_made w0 + List.length attempts)%nat /\
             clock w0 + 1000 * backoff_seconds attempts <=
               clock (snd (fetch_attempts cfg E req attempts w0)) /\
             same_store w0 (snd (fetch_attempts cfg E req attempts w0))).
  { induction attempts as [|attempt rest IH]; intros w0.
    - cbn. repeat split; lia.
    - set (r := remote E (requests_made w0) req).
      set (w1 := emit E (EvGet (clock w0) req r) 0 w0).
      assert (Heq : fetch_attempts cfg E req (attempt :: rest) w0 =
                    handle_response cfg E attempt r (fetch_attempts cfg E req rest) w1)
        by reflexivity.
      destruct (handle_response_transient attempt r (fetch_attempts cfg E req rest) w1
                  (Hall _ _)) as (w2 & Hh & Hw & Hc).
      rewrite Heq, Hh.
      destruct (IH w2) as (Hres & Hreq & Hclk & Hst).
      pose proof (quiet_requests_made E w1 w2 (proj1 Hw)) as Hq.
      pose proof (emit_get_clock (clock w0) req r w0) as Hc0. fold w1 in Hc0.
      destruct Hw as [_ (A & B & C)], Hst as (A' & B' & C').
      split; [exact Hres|]. split; [|split].
      + rewrite Hreq, Hq. unfold w1. cbn [requests_made emit List.length]. lia.
      + cbn [backoff_seconds]. lia.
      + unfold same_store. rewrite A', B', C', A, B, C. repeat split. }
  destruct (H (seq 0 7) w) as (Hres & Hreq & Hclk & Hst).
  split; [exact Hres|]. split; [exact Hreq|]. split; [|exact Hst].
  change (backoff_seconds (seq 0 7)) with 127 in Hclk. lia.
Qed.

(** A page comes from the last request of the fetch, answered by a 200
    with a JSON body that passed the diagnostics; no earlier request of the
    fetch got a 200 with a JSON body. *)
Lemma fetch_attempts_page_source (req : request) (attempts : list nat) :
  forall w body,
    fst (fetch_attempts cfg E req attempts w) = Ok (Some body) ->
    exists pre t h post,
      trace (snd (fetch_attempts cfg E req attempts w)) =
        trace w ++ pre ++ EvGet t req (Response 200 h body) :: post /\
      page_diagnostics body = Ok tt /\
      forallb (fun ev => negb (is_success ev)) pre = true /\
      forallb is_quiet post = true.
Proof.
  induction attempts as [|attempt rest IH]; intros w body Hres.
  - discriminate.
  - set (r := remote E (requests_made w) req) in *.
    set (w1 := emit E (EvGet (clock w) req r) 0 w) in *.
    assert (Heq : fetch_attempts cfg E req (attempt :: rest) w =
                  handle_response cfg E attempt r (fetch_attempts cfg E req rest) w1)
      by reflexivity.
    rewrite Heq in Hres |- *. clear Heq.
    assert (Hcases : (exists h body', r = Response 200 h body') \/
                     (forall h b, r <> Response 200 h b)).
    { destruct r as [s h b|h|]; [|right; discriminate..].
      destruct (Z.eq_dec s 200) as [->|Hs]; [left; eauto|].
      right. intros h' b' Hr. inversion Hr. contradiction. }
    destruct Hcases as [(h & body' & Hr)|Hnot].
    + rewrite Hr, handle_response_success in Hres |- *. cbn [fst snd] in *.
      destruct (page_diagnostics body') as [[]|e] eqn:Hd; [|discriminate].
      inversion Hres; subst body'.
      destruct (pace_requests_waited cfg E h w1) as [(_ & _ & _ & evs & Ht & Hq & _) _].
      exists [], (clock w), h, evs.
      split; [|split; [exact Hd|split; [reflexivity|exact Hq]]].
      rewrite Ht. unfold w1. cbn [trace emit]. rewrite Hr, <- app_assoc. reflexivity.
    + assert (Hns : is_success (EvGet (clock w) req r) = false).
      { destruct r as [s h b|h|]; [|reflexivity..]. cbn.
        destruct (Z.eqb_spec s 200) as [->|]; [|reflexivity].
        exfalso. now apply (Hnot h b). }
      destruct (handle_response_no_page cfg E attempt r (fetch_attempts cfg E req rest) w1 Hnot)
        as (w2 & [(_ & _ & _ & evs & Ht & Hq & _) _] & [Hretry|(r' & Hr' & Hnp)]).
      * rewrite Hretry in Hres |- *.
        destruct (IH w2 body Hres) as (pre & t & h & post & Ht' & Hd & Hpre & Hpost).
        exists (EvGet (clock w) req r :: evs ++ pre), t, h, post.
        split; [|split; [exact Hd|split; [|exact Hpost]]].
        -- rewrite Ht', Ht. unfold w1. cbn [trace emit]. rewrite <- !app_assoc.
           cbn [app]. rewrite <- !app_assoc. reflexivity.
        -- cbn [forallb]. rewrite Hns. cbn [negb andb]. rewrite forallb_app, Hpre, andb_true_r.
           rewrite forallb_forall in Hq |- *. intros ev Hin. specialize (Hq ev Hin).
           now destruct ev.
      * rewrite Hr' in Hres. cbn [fst] in Hres. exfalso. now apply (Hnp body).
Qed.

(** X3. When [fetch_page] returns a page, it is the body of the last
    request it made, which was answered by a 200 with a JSON body that
    passed the diagnostics; every earlier request of the call got another
    answer (a 200 whose body is not JSON among them, which is retried),
    and after the last request it only waited. *)
Theorem fetch_page_returns_first_success (t : string) (tok : json) (w : world)
    (body : json) :
  fst (fetch_page cfg E t tok w) = Ok (Some body) ->
  exists pre at_ms h post,
    trace (snd (fetch_page cfg E t tok w)) =
      trace w ++ pre ++ EvGet at_ms (page_request cfg t tok) (Response 200 h body) :: post /\
    page_diagnostics body = Ok tt /\
    forallb (fun ev => negb (is_success ev)) pre = true /\
    forallb is_quiet post = true.
Proof. apply fetch_attempts_page_source. Qed.

(** A countdown that was not interrupted slept through all its seconds. *)
Lemma retry_countdown_clock (n : nat) :
  forall w w', retry_countdown E n w = (Ok false, w') ->
               clock w + 1000 * Z.of_nat n <= clock w'.
Proof.
  induction n as [|n IH]; intros w w' H.
  - cbn in H. inversion H. subst. cbn. lia.
  - cbn [retry_countdown] in H. unfold bind at 1, read_stop_flag in H.
    destruct (stop_flag w || signal E (List.length (trace w))).
    + discriminate.
    + unfold bind at 1, sleep in H. apply IH in H. cbn [clock emit] in H.
      pose proof (N2Z.is_nonneg (lag E (List.length (trace w)))).
      pose proof (N2Z.is_nonneg
                    (lag E (List.length (trace (emit E (EvStopFlag false) 0 w))))).
      lia.
Qed.

(** X4. A 429 whose reset header reads a time [T] other than 0 is never
    retried at once: either the stop flag is found set and the attempt
    returns [None], or the next attempt starts at least 5 seconds later
    and, outside QUICK_TEST mode, not before [T] plus 2 seconds. *)
Theorem rate_limited_retry_waits (attempt : nat) (retry : M (option json))
    (w : world) (h : headers) (b : json) (T : Z) :
  int_of_header_or_zero (x_rate_limit_reset h) = Ok T -> T <> 0 ->
  exists w1,
    waited E w w1 /\
    ((stop_flag w1 = true /\
      handle_response cfg E attempt (Response 429 h b) retry w = (Ok None, w1)) \/
     (stop_flag w1 = false /\
      handle_response cfg E attempt (Response 429 h b) retry w = retry w1 /\
      clock w + 5000 <= clock w1 /\
      (QUICK_TEST cfg = false -> 0 <= clock w -> 1000 * (T + 2) <= clock w1))).
Proof.
  intros HT HT0.
  remember (handle_response cfg E attempt (Response 429 h b) retry w) as lhs eqn:Hl.
  unfold handle_response in Hl. unfold bind at 1 in Hl. rewrite pace_requests_eq in Hl.
  pose proof (pace_requests_waited cfg E h w) as Hw0.
  set (w0 := snd (pace_requests cfg E h w)) in *.
  cbn [Z.eqb Pos.eqb] in Hl. unfold bind at 1, lift in Hl. rewrite HT in Hl.
  destruct (Z.eqb_spec T 0) as [|_]; [contradiction|]. cbn [negb] in Hl.
  unfold bind at 1 in Hl.
  set (delay := if QUICK_TEST cfg then 5 else Z.max 5 (T - now w0 + 2)) in Hl.
  unfold bind at 1 in Hl.
  destruct (retry_countdown_result E (Z.to_nat delay) w0) as (stopped & Hc & Hflag).
  pose proof (retry_countdown_waited E (Z.to_nat delay) w0) as Hw.
  rewrite Hc in Hl.
  pose proof (retry_countdown_clock (Z.to_nat delay) w0) as Hclk.
  set (w1 := snd (retry_countdown E (Z.to_nat delay) w0)) in *.
  assert (Hw1 : waited E w w1) by (eapply waited_trans; eassumption).
  assert (Hflag1 : forall f, waited E w (emit E (EvStopFlag f) 0 w1)).
  { intros f. eapply waited_trans; [exact Hw1|].
    split; [apply moves_emit; [reflexivity|lia]|apply same_store_emit]. }
  destruct stopped.
  - exists w1. split; [assumption|]. left. auto.
  - unfold bind, read_stop_flag in Hl.
    specialize (Hclk w1 Hc).
    assert (H5 : 5 <= delay) by (unfold delay; destruct (QUICK_TEST cfg); lia).
    destruct Hw0 as [(Hc0 & _) _].
    destruct (stop_flag w1 || signal E (List.length (trace w1))) eqn:Hb.
    + exists (emit E (EvStopFlag true) 0 w1). split; [apply Hflag1|].
      left. split; [|exact Hl]. cbn [stop_flag emit]. exact Hb.
    + exists (emit E (EvStopFlag false) 0 w1). split; [apply Hflag1|].
      right. split; [cbn [stop_flag emit]; exact Hb|]. split; [exact Hl|].
      pose proof (N2Z.is_nonneg (lag E (List.length (trace w1)))).
      cbn [clock emit]. split; [lia|].
      intros Hq Hpos. unfold delay in *. rewrite Hq in *.
      pose proof (now_le_clock w0). lia.
Qed.

(** X5. Rate-limit headers that are absent or unreadable never make
    [pace_requests] fail: it returns normally and, outside QUICK_TEST mode,
    sleeps exactly once, for 1 to 3 seconds, without looking at the stop
    flag; in QUICK_TEST mode it does nothing. *)
Theorem pace_requests_tolerates_bad_headers (h : headers) (w : world) :
  headers_unusable h = true ->
  if QUICK_TEST cfg
  then pace_requests cfg E h w = (Ok tt, w)
  else exists d, 1000 <= d <= 3000 /\
                 pace_requests cfg E h w = (Ok tt, emit E (EvSleep d) d w).
Proof.
  intros Hh. unfold pace_requests.
  assert (Hdef : match int_of_header (x_rate_limit_remaining h) 1 with
                 | Ok remaining =>
                     match int_of_header (x_rate_limit_reset h) 0 with
                     | Ok reset => (remaining, reset)
                     | Raise _ => (1, 0)
                     end
                 | Raise _ => (1, 0)
                 end = (1, 0)).
  { destruct h as [[[r| |]|] [[z| |]|]]; try reflexivity; discriminate. }
  rewrite Hdef. destruct (QUICK_TEST cfg); [reflexivity|].
  cbn [Z.leb Z.compare Pos.compare Pos.compare_cont Z.eqb negb andb].
  exists (random_uniform E 1000 3000 w). split; [|reflexivity].
  apply random_uniform_bounds. lia.
Qed.

End FetcherBounds.
(** ** The record store *)

Section RecordStoreBounds.

Variable E : env.

Lemma is_scalar_binds (v : json) :
  is_scalar v = true -> exists p, bind_param v = Ok p.
Proof. destruct v; try discriminate; cbn; eauto. Qed.

(** [insert_users] can bind a record that [record_binds]. *)
Lemma liker_row_binds (t : string) (u : json) :
  record_binds u = true -> exists ro, liker_row E t u = Ok ro.
Proof.
  destruct u as [| | | | |fields]; try discriminate.
  unfold record_binds, liker_row. cbn [py_get res_bind]. intros H.
  repeat (apply andb_true_iff in H as [H ?]).
  repeat match goal with
         | Hs : is_scalar ?v = true |- _ =>
             destruct (is_scalar_binds v Hs) as (? & ->); clear Hs
         end.
  cbn [res_bind]. destruct (text_affinity _); eauto.
Qed.

Lemma liker_row_tweet_id (t : string) (u : json) (r : Likers.row) :
  liker_row E t u = Ok (Some r) -> Likers.tweet_id r = t.
Proof.
  unfold liker_row. intros H.
  repeat match type of H with
         | res_bind ?x _ = _ => destruct x; cbn [res_bind] in H; [|discriminate]
         end.
  destruct (text_affinity _); inversion H. reflexivity.
Qed.

(** A record without id makes no row. *)
Lemma liker_row_no_id (t : string) (u : json) (ro : option Likers.row) :
  has_no_id u = true -> liker_row E t u = Ok ro -> ro = None.
Proof.
  destruct u as [| | | | |fields]; try discriminate.
  unfold has_no_id, liker_row. cbn [py_get res_bind]. intros Hid H.
  destruct (dict_get fields "id" JNull); try discriminate.
  cbn [bind_param res_bind] in H.
  repeat match type of H with
         | res_bind ?x _ = _ => destruct x; cbn [res_bind] in H; [|discriminate]
         end.
  cbn in H. now inversion H.
Qed.

Lemma same_key_liker_key (r r' : Likers.row) :
  Likers.same_key r r' = true <-> liker_key r = liker_key r'.
Proof.
  unfold Likers.same_key, liker_key. rewrite andb_true_iff, !String.eqb_eq.
  split; [intros [-> ->]; reflexivity|intros H; now inversion H].
Qed.

Lemma absent_key (r : Likers.row) (tbl : list Likers.row) :
  existsb (Likers.same_key r) tbl = false -> ~ In (liker_key r) (map liker_key tbl).
Proof.
  intros H Hin. apply in_map_iff in Hin. destruct Hin as (r' & Hk & Hin).
  assert (existsb (Likers.same_key r) tbl = true); [|congruence].
  apply existsb_exists. exists r'. split; [assumption|].
  now apply same_key_liker_key.
Qed.

Lemma insert_or_ignore_unique (r : Likers.row) (tbl : list Likers.row) :
  keys_unique tbl -> keys_unique (Likers.insert_or_ignore r tbl).
Proof.
  unfold keys_unique, Likers.insert_or_ignore. intros H.
  destruct (existsb (Likers.same_key r) tbl) eqn:Hex; [assumption|].
  rewrite map_app. cbn [map].
  apply NoDup_app; [assumption|repeat constructor; intros []|].
  intros k Hk [<-|[]]. now apply (absent_key r tbl).
Qed.

(** The loop only appends, rows of the target, at most one per record, and
    keeps the keys apart. *)
Lemma insert_rows_extends (t : string) (us : list json) :
  forall tbl tbl1,
    insert_rows E t us tbl = Ok tbl1 ->
    exists added,
      tbl1 = tbl ++ added /\
      Forall (fun r => Likers.tweet_id r = t) added /\
      (List.length added <= List.length us)%nat /\
      (keys_unique tbl -> keys_unique tbl1).
Proof.
  induction us as [|u rest IH]; intros tbl tbl1 H.
  - cbn in H. inversion H. subst. exists []. rewrite app_nil_r.
    repeat split; auto.
  - cbn [insert_rows] in H.
    destruct (liker_row E t u) as [ro|e] eqn:Hu; cbn [res_bind] in H; [|discriminate].
    destruct (IH _ _ H) as (added & -> & Hall & Hlen & Huniq). clear IH H.
    destruct ro as [r|].
    + unfold Likers.insert_or_ignore in *.
      pose proof (insert_or_ignore_unique r tbl) as Hr.
      unfold Likers.insert_or_ignore in Hr.
      destruct (existsb (Likers.same_key r) tbl).
      * exists added. repeat split; auto. cbn [List.length]. lia.
      * exists (r :: added). split; [now rewrite <- app_assoc|]. split; [|split].
        -- constructor; [|assumption]. eapply liker_row_tweet_id; eassumption.
        -- cbn [List.length]. lia.
        -- auto.
    + exists added. repeat split; auto. cbn [List.length]. lia.
Qed.

Lemma insert_rows_binds (t : string) (us : list json) :
  forallb record_binds us = true ->
  forall tbl, exists tbl1, insert_rows E t us tbl = Ok tbl1.
Proof.
  induction us as [|u rest IH]; intros H tbl; [now exists tbl|].
  cbn [forallb] in H. apply andb_true_iff in H as [Hu Hrest].
  cbn [insert_rows]. destruct (liker_row_binds t u Hu) as (ro & ->).
  cbn [res_bind]. now apply IH.
Qed.

Lemma insert_rows_no_id (t : string) (us : list json) :
  forallb has_no_id us = true ->
  forall tbl tbl1, insert_rows E t us tbl = Ok tbl1 -> tbl1 = tbl.
Proof.
  induction us as [|u rest IH]; intros Hno tbl tbl1 H.
  - cbn in H. now inversion H.
  - cbn [forallb] in Hno. apply andb_true_iff in Hno. destruct Hno as [Hu Hrest].
    cbn [insert_rows] in H.
    destruct (liker_row E t u) as [ro|e] eqn:Hr; cbn [res_bind] in H; [|discriminate].
    rewrite (liker_row_no_id t u ro Hu Hr) in H. now apply IH.
Qed.

(** X6. [insert_users] is all or nothing: it returns normally when every
    record can be bound (a dict whose id, username, name, created_at and
    description are no lists or dicts), and when it raises, the transaction
    leaves the world as it was, also for the records that came before the
    bad one. *)
Theorem insert_users_all_or_nothing (t : string) (us : list json) (w : world) :
  (forallb record_binds us = true -> fst (insert_users E t us w) = Ok tt) /\
  (forall e, fst (insert_users E t us w) = Raise e ->
             snd (insert_users E t us w) = w).
Proof.
  unfold insert_users. split.
  - intros H. destruct (insert_rows_binds t us H (likers w)) as (tbl & ->).
    reflexivity.
  - intros e. now destruct (insert_rows E t us (likers w)).
Qed.

(** X7. [insert_users] only appends to [likers]: the rows that were there
    stay, in place and unchanged; what is added are rows of the target, at
    most one per record; nothing else of the world changes. *)
Theorem insert_users_only_appends (t : string) (us : list json) (w : world) :
  exists added,
    snd (insert_users E t us w) = set_likers (likers w ++ added) w /\
    Forall (fun r => Likers.tweet_id r = t) added /\
    (List.length added <= List.length us)%nat.
Proof.
  unfold insert_users.
  destruct (insert_rows E t us (likers w)) as [tbl|e] eqn:H.
  - destruct (insert_rows_extends t us _ _ H) as (added & -> & Hall & Hlen & _).
    exists added. now repeat split.
  - exists []. rewrite app_nil_r, set_likers_same. cbn [snd List.length].
    repeat split; [constructor|lia].
Qed.

(** X8. The primary key is an invariant of [insert_users]: when no two
    rows of [likers] share (tweet_id, user_id) before, none do after,
    whatever the records. *)
Theorem insert_users_keeps_keys_unique (t : string) (us : list json) (w : world) :
  keys_unique (likers w) ->
  keys_unique (likers (snd (insert_users E t us w))).
Proof.
  intros Hu. unfold insert_users.
  destruct (insert_rows E t us (likers w)) as [tbl|e] eqn:H; cbn [snd].
  - destruct (insert_rows_extends t us _ _ H) as (added & _ & _ & _ & Huniq).
    cbn [likers set_likers]. auto.
  - assumption.
Qed.

(** X9. Records without an id (key missing or null) are never stored:
    the NOT NULL constraint makes OR IGNORE skip them, so [insert_users]
    on such records leaves the world unchanged. *)
Theorem insert_users_skips_records_without_id (t : string) (us : list json)
    (w : world) :
  forallb has_no_id us = true ->
  snd (insert_users E t us w) = w.
Proof.
  intros Hno. unfold insert_users.
  destruct (insert_rows E t us (likers w)) as [tbl|e] eqn:H; cbn [snd]; [|reflexivity].
  rewrite (insert_rows_no_id t us Hno _ _ H). apply set_likers_same.
Qed.

End RecordStoreBounds.
(** ** The checkpoint store *)

Section CheckpointStoreBounds.

Variable E : env.

Lemma fetchone_insert_default_other (t t' : string) (tbl : list State.row) :
  t' <> t ->
  State.fetchone t' (State.insert_default t tbl) = State.fetchone t' tbl.
Proof.
  intros Hne. unfold State.insert_default.
  destruct (existsb _ tbl); [reflexivity|].
  unfold State.fetchone. induction tbl as [|r tbl IH]; cbn.
  - destruct (String.eqb_spec t t'); [congruence|reflexivity].
  - destruct (String.eqb (State.tweet_id r) t'); [reflexivity|exact IH].
Qed.

Lemma fetchone_map_other (t t' : string) (g : State.row -> State.row)
    (tbl : list State.row) :
  (forall r, State.tweet_id (g r) = State.tweet_id r) ->
  t' <> t ->
  State.fetchone t'
    (map (fun r => if String.eqb (State.tweet_id r) t then g r else r) tbl) =
  State.fetchone t' tbl.
Proof.
  intros Hg Hne. unfold State.fetchone. induction tbl as [|r tbl IH]; cbn; [reflexivity|].
  destruct (String.eqb_spec (State.tweet_id r) t) as [Ht|Ht].
  - rewrite Hg. destruct (String.eqb_spec (State.tweet_id r) t') as [Ht'|_]; [congruence|].
    exact IH.
  - destruct (String.eqb (State.tweet_id r) t'); [reflexivity|exact IH].
Qed.

Lemma of_tweet_app_other (t t' : string) (tbl added : list Likers.row) :
  t' <> t ->
  Forall (fun r => Likers.tweet_id r = t) added ->
  Likers.of_tweet t' (tbl ++ added) = Likers.of_tweet t' tbl.
Proof.
  intros Hne Hall. unfold Likers.of_tweet. rewrite filter_app.
  replace (filter _ added) with (@nil Likers.row); [apply app_nil_r|].
  induction Hall as [|r added Hr _ IH]; cbn; [reflexivity|].
  rewrite Hr. destruct (String.eqb_spec t t'); [congruence|exact IH].
Qed.

(** X10. What [save_state] stores [get_state] reads back: on the row of
    the target the cursor comes back as SQLite stores it in a TEXT column
    (a string or None as it is, a number as its decimal text), with the
    flag and the count as saved and the export time untouched; reading
    changes nothing. *)
Theorem saved_state_reads_back (t : string) (tok : json) (d : bool)
    (total : Z) (w : world) :
  is_scalar tok = true ->
  exists v st w1 w2,
    bind_param tok = Ok v /\
    get_state t w = (Ok st, w1) /\
    save_state t tok d total w1 = (Ok tt, w2) /\
    get_state t w2 = (Ok (py_of_text (text_affinity v), d, total, snd st), w2).
Proof.
  intros Hs. destruct (is_scalar_binds tok Hs) as (v & Hv). exists v.
  assert (Hrow : forall w1 row,
            State.fetchone t (state w1) = Some row ->
            exists w2,
              save_state t tok d total w1 = (Ok tt, w2) /\
              get_state t w2 =
                (Ok (py_of_text (text_affinity v), d, total, State.last_export_time row), w2)).
  { intros w1 row Hf. unfold save_state. rewrite Hv. eexists. split; [reflexivity|].
    unfold get_state. cbn [state set_state].
    rewrite fetchone_update_progress, Hf. cbn.
    now destruct d. }
  unfold get_state at 1.
  destruct (State.fetchone t (state w)) as [row|] eqn:Hf.
  - destruct (Hrow w row Hf) as (w2 & Hsv & Hg).
    eexists _, w, w2. split; [exact Hv|]. split; [reflexivity|]. now split.
  - set (w1 := set_state (State.insert_default t (state w)) w).
    destruct (Hrow w1 (State.Row t None 0 None 0 0)) as (w2 & Hsv & Hg).
    { now apply fetchone_insert_default. }
    eexists _, w1, w2. split; [exact Hv|]. split; [reflexivity|]. now split.
Qed.

(** X11. The stores are keyed by target: whatever [get_state],
    [save_state], [update_export_time] and [insert_users] do for one
    target, the checkpoint and the records of every other target read as
    before. *)
Theorem other_targets_are_untouched (t t' : string) (tok : json) (d : bool)
    (total : Z) (us : list json) (w : world) :
  t' <> t ->
  State.fetchone t' (state (snd (get_state t w))) = State.fetchone t' (state w) /\
  State.fetchone t' (state (snd (save_state t tok d total w))) =
    State.fetchone t' (state w) /\
  State.fetchone t' (state (snd (update_export_time t w))) =
    State.fetchone t' (state w) /\
  Likers.of_tweet t' (likers (snd (insert_users E t us w))) =
    Likers.of_tweet t' (likers w).
Proof.
  intros Hne. split; [|split; [|split]].
  - unfold get_state. destruct (State.fetchone t (state w)); [reflexivity|].
    cbn [snd state set_state]. now apply fetchone_insert_default_other.
  - unfold save_state. destruct (bind_param tok) as [v|]; [|reflexivity].
    cbn [snd state set_state].
    exact (fetchone_map_other t t'
             (fun r => State.Row (State.tweet_id r) (text_affinity v)
                         (if d then 1 else 0) (Some (now w)) total
                         (State.last_export_time r))
             (state w) (fun _ => eq_refl) Hne).
  - unfold update_export_time. cbn [snd state set_state].
    exact (fetchone_map_other t t'
             (fun r => State.Row (State.tweet_id r) (State.next_token r) (State.done r)
                         (State.last_request_time r) (State.total_users_found r)
                         (now w))
             (state w) (fun _ => eq_refl) Hne).
  - unfold insert_users.
    destruct (insert_rows E t us (likers w)) as [tbl|e] eqn:H; [|reflexivity].
    destruct (insert_rows_extends E t us _ _ H) as (added & -> & Hall & _).
    cbn [snd likers set_likers]. now apply (of_tweet_app_other t).
Qed.

End CheckpointStoreBounds.
(** ** The snapshot exporter *)

Section ExporterBounds.

Variable cfg : config.
Variable E : env.

Lemma of_tweet_perm (t : string) (l1 l2 : list Likers.row) :
  Permutation l1 l2 -> Permutation (Likers.of_tweet t l1) (Likers.of_tweet t l2).
Proof.
  unfold Likers.of_tweet.
  induction 1 as [|r l1 l2 _ IH|r r' l|l1 l2 l3 _ IH1 _ IH2]; cbn.
  - constructor.
  - destruct (String.eqb (Likers.tweet_id r) t); [now constructor|assumption].
  - destruct (String.eqb (Likers.tweet_id r) t), (String.eqb (Likers.tweet_id r') t);
      try reflexivity. apply perm_swap.
  - etransitivity; eassumption.
Qed.

Lemma unique_key_row (l : list Likers.row) (x y : Likers.row) :
  keys_unique l -> In x l -> In y l -> liker_key x = liker_key y -> x = y.
Proof.
  unfold keys_unique. induction l as [|r l IH]; cbn; [intros _ []|].
  intros Hnd Hx Hy Hk. inversion Hnd as [|k ks Hnotin Hnd']; subst.
  destruct Hx as [->|Hx], Hy as [->|Hy].
  - reflexivity.
  - exfalso. apply Hnotin. rewrite Hk. now apply in_map.
  - exfalso. apply Hnotin. rewrite <- Hk. now apply in_map.
  - now apply IH.
Qed.

(** Two sorted lists with the same rows, no two of them with one id, are
    the same list. *)
Lemma sorted_perm_eq (l1 : list Likers.row) :
  forall l2,
    StronglySorted id_le l1 -> StronglySorted id_le l2 -> Permutation l1 l2 ->
    (forall x y, In x l1 -> In y l1 -> Likers.user_id x = Likers.user_id y -> x = y) ->
    l1 = l2.
Proof.
  induction l1 as [|a l1 IH]; intros l2 Hs1 Hs2 Hp Huniq.
  - apply Permutation_nil in Hp. now subst.
  - destruct l2 as [|b l2].
    { symmetry in Hp. apply Permutation_nil in Hp. discriminate. }
    apply StronglySorted_inv in Hs1 as [Hs1 Ha].
    apply StronglySorted_inv in Hs2 as [Hs2 Hb].
    rewrite Forall_forall in Ha, Hb.
    assert (Hab : a = b).
    { assert (Hina : In a (b :: l2)) by (eapply Permutation_in; [exact Hp|now left]).
      assert (Hinb : In b (a :: l1))
        by (eapply Permutation_in; [symmetry; exact Hp|now left]).
      destruct Hina as [->|Hina]; [reflexivity|].
      destruct Hinb as [->|Hinb]; [reflexivity|].
      symmetry. apply Huniq; [now right|now left|].
      apply String.leb_antisym; [apply (Hb a Hina)|apply (Ha b Hinb)]. }
    subst b. f_equal. apply IH; try assumption.
    + eapply Permutation_cons_inv; exact Hp.
    + intros x y Hx Hy. apply Huniq; now right.
Qed.

Lemma snapshot_perm (t : string) (tbl1 tbl2 : list Likers.row) :
  Permutation tbl1 tbl2 -> keys_unique tbl1 ->
  snapshot t tbl1 = snapshot t tbl2.
Proof.
  intros Hp Hu. unfold snapshot. do 2 f_equal.
  apply sorted_perm_eq; try apply order_by_user_id_sorted.
  - rewrite !order_by_user_id_perm. now apply of_tweet_perm.
  - intros x y Hx Hy Hid.
    apply (Permutation_in _ (order_by_user_id_perm _)) in Hx, Hy.
    unfold Likers.of_tweet in Hx, Hy. apply filter_In in Hx, Hy.
    destruct Hx as [Hx Htx], Hy as [Hy Hty].
    apply String.eqb_eq in Htx, Hty.
    apply (unique_key_row tbl1); try assumption.
    unfold liker_key. congruence.
Qed.

Lemma read_file_other (p p' : string) (c : csv_file) (w : world) :
  p' <> p -> read_file p' (files (write_file p c w)) = read_file p' (files w).
Proof.
  intros Hne. cbn [files write_file read_file].
  destruct (String.eqb_spec p p') as [Heq|_]; [congruence|].
  induction (files w) as [|[q c'] fs IH]; cbn; [reflexivity|].
  destruct (String.eqb_spec q p) as [->|Hq]; cbn.
  - destruct (String.eqb_spec p p'); [congruence|exact IH].
  - destruct (String.eqb q p'); [reflexivity|exact IH].
Qed.

Lemma export_csv_with_connection_spec (t : string) (primary : bool) (w : world) :
  let path := snapshot_path cfg t (now w) in
  let w1 := emit E (EvExport path) 0 (write_file path (snapshot t (likers w)) w) in
  export_csv_with_connection cfg E t primary w =
  (Ok path,
   if primary then set_state (State.update_export t (now w1) (state w1)) w1 else w1).
Proof. now destruct primary. Qed.

(** X12. The snapshot does not depend on the order in which the records
    were collected: two exports over tables holding the same rows in any
    order, no two rows sharing a key, write the same content, on either
    connection. *)
Theorem export_ignores_insertion_order (t : string) (primary1 primary2 : bool)
    (w1 w2 : world) :
  Permutation (likers w1) (likers w2) ->
  keys_unique (likers w1) ->
  exists (p1 p2 : string) (content : csv_file),
    fst (export_csv_with_connection cfg E t primary1 w1) = Ok p1 /\
    fst (export_csv_with_connection cfg E t primary2 w2) = Ok p2 /\
    read_file p1 (files (snd (export_csv_with_connection cfg E t primary1 w1))) =
      Some content /\
    read_file p2 (files (snd (export_csv_with_connection cfg E t primary2 w2))) =
      Some content.
Proof.
  intros Hp Hu.
  exists (snapshot_path cfg t (now w1)), (snapshot_path cfg t (now w2)),
         (snapshot t (likers w1)).
  rewrite !export_csv_with_connection_spec. cbn [fst snd].
  split; [reflexivity|]. split; [reflexivity|]. split.
  - destruct primary1; cbn; now rewrite String.eqb_refl.
  - rewrite (snapshot_perm t _ _ Hp Hu).
    destruct primary2; cbn; now rewrite String.eqb_refl.
Qed.

(** X13. An export writes one file and nothing else: every other file
    reads as before, the records are untouched, one export event is
    logged and no request is made; on the primary connection the
    checkpoint table changes by one UPDATE of [last_export_time] for the
    target, on another connection (the periodic thread's) not at all. *)
Theorem export_writes_one_file (t : string) (primary : bool) (w : world)
    (other : string) :
  other <> snapshot_path cfg t (now w) ->
  let w' := snd (export_csv_with_connection cfg E t primary w) in
  read_file other (files w') = read_file other (files w) /\
  likers w' = likers w /\
  trace w' = trace w ++ [EvExport (snapshot_path cfg t (now w))] /\
  requests_made w' = requests_made w /\
  exists n, state w' = if primary then State.update_export t n (state w) else state w.
Proof.
  intros Hne. rewrite export_csv_with_connection_spec. cbn [snd].
  set (path := snapshot_path cfg t (now w)) in *.
  set (w1 := emit E (EvExport path) 0 (write_file path (snapshot t (likers w)) w)).
  split; [|split; [|split; [|split]]].
  - destruct primary; cbn [files set_state emit]; now apply read_file_other.
  - now destruct primary.
  - now destruct primary.
  - now destruct primary.
  - exists (now w1). now destruct primary.
Qed.

End ExporterBounds.
(** ** The run as a whole *)

(** *** Relations kept by every transaction *)

Section Transactions.

Variable cfg : config.
Variable E : env.
Variable R : world -> world -> Prop.

Hypothesis R_refl : forall w, R w w.
Hypothesis R_trans : forall w1 w2 w3, R w1 w2 -> R w2 w3 -> R w1 w3.
Hypothesis R_sleep : forall d w, 0 <= d -> R w (emit E (EvSleep d) d w).
Hypothesis R_flag : forall b w, R w (emit E (EvStopFlag b) 0 w).
Hypothesis R_fetch : forall tok, steps R (fetch_page cfg E (TWEET_ID cfg) tok).
Hypothesis R_get_state : steps R (get_state (TWEET_ID cfg)).
Hypothesis R_save_state :
  forall tok d total, steps R (save_state (TWEET_ID cfg) tok d total).
Hypothesis R_insert_users : forall us, steps R (insert_users E (TWEET_ID cfg) us).
Hypothesis R_export_csv : steps R (export_csv cfg E (TWEET_ID cfg)).

Lemma transactions_ingest (users : json) (total : Z) :
  steps R (ingest cfg E users total).
Proof.
  destruct users; simpl; try (apply steps_raise; assumption).
  apply steps_bind; [assumption|apply R_insert_users|].
  intros _. now apply steps_ret.
Qed.

Lemma transactions_process_page (p : progress) (data : json) :
  steps R (process_page cfg E p data).
Proof.
  unfold process_page.
  apply steps_bind; [assumption|now apply steps_lift|]. intros users.
  apply steps_bind;
    [assumption|apply steps_if; [apply transactions_ingest|now apply steps_ret]|].
  intros total'.
  apply steps_bind; [assumption|now apply steps_lift|]. intros meta.
  apply steps_bind; [assumption|now apply steps_lift|]. intros tok'.
  apply steps_bind; [assumption|apply R_save_state|]. intros u.
  apply steps_bind; [assumption| |intros u'; now apply steps_ret].
  apply steps_if; [|now apply steps_ret].
  apply steps_bind; [assumption|now apply steps_read_stop_flag|]. intros stop.
  apply steps_if; [|now apply steps_ret].
  apply steps_sleep; [assumption|]. destruct (QUICK_TEST cfg); lia.
Qed.

Lemma transactions_collect (k : nat) : forall p, steps R (collect cfg E k p).
Proof.
  induction k as [|k IH]; intros p; simpl.
  - apply steps_if; [now apply steps_ret|].
    apply steps_bind; [assumption|now apply steps_read_stop_flag|]. intros stop.
    apply steps_if; now apply steps_ret.
  - apply steps_if; [now apply steps_ret|].
    apply steps_bind; [assumption|now apply steps_read_stop_flag|]. intros stop.
    apply steps_if; [now apply steps_ret|].
    apply steps_bind; [assumption|apply R_fetch|]. intros [data|].
    + apply steps_bind; [assumption|apply transactions_process_page|].
      intros p'. apply IH.
    + apply steps_bind; [assumption|apply R_save_state|]. intros u.
      now apply steps_ret.
Qed.

Lemma transactions_final_export : steps R (final_export cfg E).
Proof.
  unfold final_export. apply steps_if; [|now apply steps_ret].
  intros w. destruct (0 <? Likers.count (TWEET_ID cfg) (likers w)).
  - apply steps_bind; [assumption|apply R_export_csv|]. intros u.
    now apply steps_ret.
  - apply R_refl.
Qed.

Lemma transactions_run : steps R (run cfg E).
Proof.
  unfold run. apply steps_bind; [assumption|apply R_get_state|].
  intros [[[tok d] total] last].
  apply steps_if.
  - apply steps_bind; [assumption|apply R_export_csv|]. intros u.
    now apply steps_ret.
  - apply steps_bind; [assumption|apply transactions_collect|]. intros u.
    apply steps_bind; [assumption|now apply steps_read_stop_flag|]. intros u'.
    apply transactions_final_export.
Qed.

End Transactions.

(** *** What a run may change *)

Section RunBounds.

Variable cfg : config.
Variable E : env.

Lemma grown_refl (t : string) (w : world) : grown t w w.
Proof.
  exists []. rewrite app_nil_r. repeat split; auto.
Qed.

Lemma grown_same (t : string) (w w' : world) : likers w' = likers w -> grown t w w'.
Proof.
  intros H. exists []. rewrite app_nil_r, H. repeat split; auto.
Qed.

Lemma grown_trans (t : string) (w1 w2 w3 : world) :
  grown t w1 w2 -> grown t w2 w3 -> grown t w1 w3.
Proof.
  intros (a1 & H1 & F1 & U1) (a2 & H2 & F2 & U2).
  exists (a1 ++ a2). split; [|split].
  - now rewrite H2, H1, app_assoc.
  - apply Forall_app. now split.
  - auto.
Qed.

Lemma insert_users_grown (t : string) (us : list json) :
  steps (grown t) (insert_users E t us).
Proof.
  intros w. unfold insert_users.
  destruct (insert_rows E t us (likers w)) as [tbl|e] eqn:H; cbn [snd].
  - destruct (insert_rows_extends E t us _ _ H) as (added & -> & Hall & _ & Hu).
    exists added. now repeat split.
  - apply grown_refl.
Qed.

Lemma fetch_page_same_store (t : string) (tok : json) (w : world) :
  same_store w (snd (fetch_page cfg E t tok w)).
Proof.
  destruct (fetch_attempts_shape cfg E (page_request cfg t tok) (seq 0 7) w)
    as (evs & _ & _ & _ & _ & _ & Hs & _).
  exact Hs.
Qed.

Lemma get_state_likers (t : string) (w : world) :
  likers (snd (get_state t w)) = likers w.
Proof. unfold get_state. now destruct (State.fetchone t (state w)). Qed.

Lemma save_state_likers (t : string) (tok : json) (d : bool) (total : Z) (w : world) :
  likers (snd (save_state t tok d total w)) = likers w.
Proof. unfold save_state. now destruct (bind_param tok). Qed.

(** X14. A run never deletes or rewrites a stored record: the table
    [likers] after [run] is the table before followed by rows of the run's
    own target, and when no two rows shared a key before, none do after;
    this holds however the run ends. *)
Theorem run_only_adds_records_of_its_target (w : world) :
  exists added,
    likers (snd (run cfg E w)) = likers w ++ added /\
    Forall (fun r => Likers.tweet_id r = TWEET_ID cfg) added /\
    (keys_unique (likers w) -> keys_unique (likers (snd (run cfg E w)))).
Proof.
  apply (transactions_run cfg E (grown (TWEET_ID cfg))).
  - apply grown_refl.
  - apply grown_trans.
  - intros d w0 _. now apply grown_same.
  - intros b w0. now apply grown_same.
  - intros tok w0. apply grown_same. apply fetch_page_same_store.
  - intros w0. apply grown_same, get_state_likers.
  - intros tok d total w0. apply grown_same, save_state_likers.
  - apply insert_users_grown.
  - intros w0. apply grown_same. now rewrite export_csv_spec.
Qed.

Lemma kept_refl (t : string) (w : world) : kept t w w.
Proof. now split. Qed.

Lemma kept_trans (t : string) (w1 w2 w3 : world) :
  kept t w1 w2 -> kept t w2 w3 -> kept t w1 w3.
Proof.
  intros [H1 H1'] [H2 H2']. split; congruence.
Qed.

Lemma kept_same (t : string) (w w' : world) :
  state w' = state w -> likers w' = likers w -> kept t w w'.
Proof. intros Hs Hl. unfold kept. now rewrite Hs, Hl. Qed.

(** X15. A run reads and writes the rows of its own target only: the
    checkpoint and the records of every other target are after [run] what
    they were before, however the run ends. *)
Theorem run_leaves_other_targets_alone (other : string) (w : world) :
  other <> TWEET_ID cfg ->
  State.fetchone other (state (snd (run cfg E w))) = State.fetchone other (state w) /\
  Likers.of_tweet other (likers (snd (run cfg E w))) = Likers.of_tweet other (likers w).
Proof.
  intros Hne.
  apply (transactions_run cfg E (kept other)).
  - apply kept_refl.
  - apply kept_trans.
  - intros d w0 _. now apply kept_same.
  - intros b w0. now apply kept_same.
  - intros tok w0. destruct (fetch_page_same_store (TWEET_ID cfg) tok w0) as (Hl & Hs & _).
    now apply kept_same.
  - intros w0. split; [|now rewrite get_state_likers].
    unfold get_state. destruct (State.fetchone (TWEET_ID cfg) (state w0)); [reflexivity|].
    cbn [snd state set_state]. now apply fetchone_insert_default_other.
  - intros tok d total w0. split; [|now rewrite save_state_likers].
    unfold save_state. destruct (bind_param tok) as [v|]; [|reflexivity].
    cbn [snd state set_state].
    exact (fetchone_map_other (TWEET_ID cfg) other
             (fun r => State.Row (State.tweet_id r) (text_affinity v)
                         (if d then 1 else 0) (Some (now w0)) total
                         (State.last_export_time r))
             (state w0) (fun _ => eq_refl) Hne).
  - intros us w0. split.
    + unfold insert_users. now destruct (insert_rows E (TWEET_ID cfg) us (likers w0)).
    + unfold insert_users.
      destruct (insert_rows E (TWEET_ID cfg) us (likers w0)) as [tbl|e] eqn:H;
        [|reflexivity].
      destruct (insert_rows_extends E _ us _ _ H) as (added & -> & Hall & _).
      cbn [snd likers set_likers]. now apply (of_tweet_app_other (TWEET_ID cfg)).
  - intros w0. rewrite export_csv_spec. cbn [snd]. split; [|reflexivity].
    cbn [state set_state emit write_file].
    exact (fetchone_map_other (TWEET_ID cfg) other
             (fun r => State.Row (State.tweet_id r) (State.next_token r) (State.done r)
                         (State.last_request_time r) (State.total_users_found r) _)
             (state w0) (fun _ => eq_refl) Hne).
Qed.

(** *** How many requests a run makes *)

Lemma no_request_trans (w1 w2 w3 : world) :
  no_request w1 w2 -> no_request w2 w3 -> no_request w1 w3.
Proof. unfold no_request. congruence. Qed.

Lemma save_state_no_request (t : string) (tok : json) (d : bool) (total : Z) :
  steps no_request (save_state t tok d total).
Proof. intros w. unfold save_state. now destruct (bind_param tok). Qed.

Lemma get_state_no_request (t : string) : steps no_request (get_state t).
Proof. intros w. unfold get_state. now destruct (State.fetchone t (state w)). Qed.

Lemma insert_users_no_request (t : string) (us : list json) :
  steps no_request (insert_users E t us).
Proof. intros w. unfold insert_users. now destruct (insert_rows E t us (likers w)). Qed.

Lemma process_page_no_request (p : progress) (data : json) :
  steps no_request (process_page cfg E p data).
Proof.
  apply transactions_process_page.
  - reflexivity.
  - apply no_request_trans.
  - reflexivity.
  - reflexivity.
  - apply save_state_no_request.
  - apply insert_users_no_request.
Qed.

Lemma run_epilogue_requests (w : world) :
  no_request w (snd ((doM_ read_stop_flag E; final_export cfg E) w)).
Proof.
  destruct (run_epilogue_no_request cfg E w) as (_ & _ & _ & evs & _ & Hall & Hreq).
  unfold no_request. rewrite Hreq.
  replace (filter is_get evs) with (@nil event); [cbn; lia|].
  clear Hreq. induction evs as [|ev evs IH]; [reflexivity|].
  cbn [forallb] in Hall. apply andb_true_iff in Hall as [Hev Hall].
  cbn [filter]. unfold not_get in Hev. destruct (is_get ev); [discriminate|now apply IH].
Qed.

Lemma fetch_page_requests (t : string) (tok : json) (w : world) :
  requests_within 7 w (snd (fetch_page cfg E t tok w)).
Proof.
  destruct (fetch_attempts_shape cfg E (page_request cfg t tok) (seq 0 7) w)
    as (evs & _ & _ & Hreq & Hle & _).
  unfold requests_within, fetch_page. rewrite Hreq. cbn [List.length seq] in Hle. lia.
Qed.

(** Each page costs at most seven requests. *)
Lemma collect_requests (k : nat) :
  forall p w, requests_within (7 * k) w (snd (collect cfg E k p w)).
Proof.
  unfold requests_within.
  induction k as [|k IH]; intros p w; cbn [collect].
  - destruct (done p); [cbn; lia|].
    unfold bind, read_stop_flag.
    destruct (stop_flag w || signal E (List.length (trace w))); cbn; lia.
  - destruct (done p); [cbn; lia|].
    unfold bind at 1. unfold read_stop_flag at 1.
    set (w1 := emit E (EvStopFlag (stop_flag w || signal E (List.length (trace w)))) 0 w).
    assert (H1 : requests_made w1 = requests_made w) by reflexivity.
    destruct (stop_flag w || signal E (List.length (trace w))); [cbn [snd ret]; lia|].
    unfold bind at 1.
    pose proof (fetch_page_requests (TWEET_ID cfg) (next_token p) w1) as H2.
    unfold requests_within in H2.
    destruct (fetch_page cfg E (TWEET_ID cfg) (next_token p) w1) as [[[data|]|e] w2];
      cbn [snd] in H2.
    + unfold bind at 1.
      pose proof (process_page_no_request p data w2) as H3. unfold no_request in H3.
      destruct (process_page cfg E p data w2) as [[p'|e] w3]; cbn [snd] in H3 |- *.
      * specialize (IH p' w3). lia.
      * lia.
    + unfold bind at 1.
      pose proof (save_state_no_request (TWEET_ID cfg) (next_token p) false
                    (total_users p) w2) as H3.
      unfold no_request in H3.
      destruct (save_state (TWEET_ID cfg) (next_token p) false (total_users p) w2)
        as [[u|e] w3]; cbn [snd ret] in H3 |- *; lia.
    + cbn [snd]. lia.
Qed.

(** X16. A run makes at most seven requests for each page the ceiling
    allows: at most 21 in QUICK_TEST mode, where the ceiling is three
    pages, and at most 7 x 999999 otherwise. *)
Theorem run_requests_are_bounded (w : world) :
  (requests_made (snd (run cfg E w)) <=
     requests_made w + 7 * (if QUICK_TEST cfg then 3 else Z.to_nat 999999))%nat.
Proof.
  change (if QUICK_TEST cfg then 3%nat else Z.to_nat 999999) with (max_pages cfg).
  unfold run. unfold bind at 1.
  pose proof (get_state_no_request (TWEET_ID cfg) w) as H0. unfold no_request in H0.
  destruct (get_state (TWEET_ID cfg) w) as [[[[[tok d] total] last]|e] w0];
    cbn [snd] in H0 |- *; [|lia].
  destruct d.
  - unfold bind. rewrite export_csv_spec. cbn. lia.
  - unfold bind at 1.
    pose proof (collect_requests (max_pages cfg) (Progress tok false total) w0) as H1.
    unfold requests_within in H1.
    destruct (collect cfg E (max_pages cfg) (Progress tok false total) w0)
      as [[p'|e] w1]; cbn [snd] in H1 |- *; [|lia].
    pose proof (run_epilogue_requests w1) as H2. unfold no_request in H2. lia.
Qed.

(** *** Runs that do not collect *)

(** X17. On a checkpoint that is already done, [run] makes no request and
    reads no stop flag: it exports one snapshot, whatever EXPORT_MODE says
    and whether or not the target has records, stamps the checkpoint with
    the second of the export as its export time and returns; records and
    progress columns stay as they are. *)
Theorem run_on_done_checkpoint_only_exports (w : world) (row : State.row) :
  State.fetchone (TWEET_ID cfg) (state w) = Some row ->
  State.done row <> 0 ->
  exists w' row',
    run cfg E w = (Ok tt, w') /\
    trace w' = trace w ++ [EvExport (snapshot_path cfg (TWEET_ID cfg) (now w))] /\
    read_file (snapshot_path cfg (TWEET_ID cfg) (now w)) (files w') =
      Some (snapshot (TWEET_ID cfg) (likers w)) /\
    requests_made w' = requests_made w /\
    likers w' = likers w /\
    State.fetchone (TWEET_ID cfg) (state w') = Some row' /\
    same_progress row row' /\
    State.last_export_time row' = now w'.
Proof.
  intros Hrow Hdone.
  set (path := snapshot_path cfg (TWEET_ID cfg) (now w)).
  set (w1 := emit E (EvExport path) 0
               (write_file path (snapshot (TWEET_ID cfg) (likers w)) w)).
  exists (set_state (State.update_export (TWEET_ID cfg) (now w1) (state w1)) w1).
  exists (State.Row (State.tweet_id row) (State.next_token row) (State.done row)
            (State.last_request_time row) (State.total_users_found row) (now w1)).
  split; [|split; [|split; [|split; [|split; [|split; [|split]]]]]].
  - unfold run. unfold bind at 1. unfold get_state. rewrite Hrow.
    destruct (Z.eqb_spec (State.done row) 0) as [|_]; [contradiction|].
    cbn [negb]. unfold bind. now rewrite export_csv_spec.
  - reflexivity.
  - cbn. now rewrite String.eqb_refl.
  - reflexivity.
  - reflexivity.
  - cbn [state set_state]. rewrite fetchone_update_export.
    change (state w1) with (state w). now rewrite Hrow.
  - now unfold same_progress.
  - reflexivity.
Qed.

(** X18. When the stop flag is already set, [run] on a checkpoint that is
    not done fetches nothing: it makes no request, stores no record and
    leaves the progress columns of the checkpoint as they are. *)
Theorem run_when_stopped_fetches_nothing (w : world) (row : State.row) :
  stop_flag w = true ->
  State.fetchone (TWEET_ID cfg) (state w) = Some row ->
  State.done row = 0 ->
  exists w' row',
    run cfg E w = (Ok tt, w') /\
    requests_made w' = requests_made w /\
    likers w' = likers w /\
    State.fetchone (TWEET_ID cfg) (state w') = Some row' /\
    same_progress row row'.
Proof.
  intros Hstop Hrow Hdone.
  set (p := Progress (py_of_text (State.next_token row)) false
              (State.total_users_found row)).
  set (w1 := emit E (EvStopFlag true) 0 w).
  assert (Hcollect : collect cfg E (max_pages cfg) p w = (Ok p, w1)).
  { destruct (max_pages cfg); cbn [collect done p]; unfold bind, read_stop_flag;
      now rewrite Hstop. }
  destruct (run_epilogue_checkpoint cfg E w1 row Hrow)
    as (w' & row' & Hrun & Hreq & Hlik & Hrow' & Hprog).
  exists w', row'. split; [|repeat split; try tauto; try congruence].
  unfold run. unfold bind at 1. unfold get_state. rewrite Hrow, Hdone. cbn [Z.eqb negb].
  unfold bind at 1. fold p. now rewrite Hcollect.
Qed.

(** *** Runs that do not crash *)

(** A body the loop can process passes the diagnostics of [fetch_page]. *)
Lemma body_ok_diagnostics (body : json) :
  body_ok body = true -> page_diagnostics body = Ok tt.
Proof.
  destruct body as [| | | | |fields]; try discriminate.
  cbn [body_ok page_diagnostics]. unfold dict_get.
  destruct (assoc "data" fields) as [[| | | | |]|]; try discriminate; reflexivity.
Qed.

Lemma fetch_attempts_page_ok (req : request) (attempts : list nat) :
  (forall n r, answer_ok (remote E n r) = true) ->
  forall w, page_ok (fst (fetch_attempts cfg E req attempts w)).
Proof.
  intros Hall. induction attempts as [|attempt rest IH]; intros w; [exact I|].
  pose proof (Hall (requests_made w) req) as Hok.
  destruct (remote E (requests_made w) req) as [s h b|h|] eqn:Hr.
  - set (w1 := emit E (EvGet (clock w) req (Response s h b)) 0 w).
    assert (Heq : fetch_attempts cfg E req (attempt :: rest) w =
                  handle_response cfg E attempt (Response s h b)
                    (fetch_attempts cfg E req rest) w1).
    { cbn [fetch_attempts]. unfold bind at 1, session_get. now rewrite Hr. }
    destruct (Z.eq_dec s 200) as [->|H200].
    { rewrite Heq, handle_response_success. cbn [fst].
      change (body_ok b = true) in Hok.
      now rewrite (body_ok_diagnostics b Hok). }
    destruct (transient (Response s h b)) eqn:Htr.
    { destruct (handle_response_transient cfg E attempt _ (fetch_attempts cfg E req rest) w1 Htr)
        as (w2 & Hh & _). rewrite Heq, Hh. apply IH. }
    destruct (Z.eq_dec s 429) as [->|H429].
    + cbn in Hok, Htr.
      destruct (x_rate_limit_reset h) as [[T| |]|] eqn:Hreset; try discriminate.
      destruct (handle_response_rate_limited cfg E attempt (fetch_attempts cfg E req rest)
                  w1 h b T) as (w2 & _ & [[_ Hh]|[_ Hh]]).
      * unfold int_of_header_or_zero. now rewrite Hreset.
      * intros ->. discriminate.
      * rewrite Heq, Hh. exact I.
      * rewrite Heq, Hh. apply IH.
    + rewrite (fetch_attempts_other_status cfg E req attempt rest w s h b Hr H200 H429).
      * exact I.
      * intros Hs. cbn in Htr.
        destruct (Z.leb_spec 500 s), (Z.ltb_spec s 600); solve [lia|discriminate].
  - set (w1 := emit E (EvGet (clock w) req (NotJson h)) 0 w).
    assert (Heq : fetch_attempts cfg E req (attempt :: rest) w =
                  handle_response cfg E attempt (NotJson h)
                    (fetch_attempts cfg E req rest) w1).
    { cbn [fetch_attempts]. unfold bind at 1, session_get. now rewrite Hr. }
    destruct (handle_response_transient cfg E attempt (NotJson h)
                (fetch_attempts cfg E req rest) w1 eq_refl) as (w2 & Hh & _).
    rewrite Heq, Hh. apply IH.
  - set (w1 := emit E (EvGet (clock w) req RequestException) 0 w).
    assert (Heq : fetch_attempts cfg E req (attempt :: rest) w =
                  handle_response cfg E attempt RequestException
                    (fetch_attempts cfg E req rest) w1).
    { cbn [fetch_attempts]. unfold bind at 1, session_get. now rewrite Hr. }
    destruct (handle_response_transient cfg E attempt RequestException
                (fetch_attempts cfg E req rest) w1 eq_refl) as (w2 & Hh & _).
    rewrite Heq, Hh. apply IH.
Qed.

Lemma process_page_body_ok (p : progress) (data : json) (w : world) :
  body_ok data = true ->
  exists p' w',
    process_page cfg E p data w = (Ok p', w') /\ is_scalar (next_token p') = true.
Proof.
  destruct data as [| | | | |fields]; try discriminate.
  cbn [body_ok]. intros Hb. apply andb_true_iff in Hb as [Hdata Hmeta].
  destruct (dict_get fields "meta" (JObj [])) as [| | | | |meta] eqn:Hm; try discriminate.
  destruct (is_scalar_binds _ Hmeta) as (v & Hv).
  destruct (dict_get fields "data" (JArr [])) as [| | | | items|] eqn:Hd;
    try discriminate.
  destruct (insert_rows_binds E (TWEET_ID cfg) items Hdata (likers w)) as (tbl & Hins).
  destruct (process_page_ingests cfg E p fields meta items v tbl w Hd Hins Hm Hv)
    as (w' & Hp & _).
  eexists _, w'. split; [exact Hp|exact Hmeta].
Qed.

Lemma collect_survives (k : nat) :
  (forall n r, answer_ok (remote E n r) = true) ->
  forall p w, is_scalar (next_token p) = true ->
              exists p', fst (collect cfg E k p w) = Ok p'.
Proof.
  intros Hall. induction k as [|k IH]; intros p w Hp; cbn [collect].
  - destruct (done p); [now exists p|].
    unfold bind, read_stop_flag.
    destruct (stop_flag w || signal E (List.length (trace w))); now exists p.
  - destruct (done p); [now exists p|].
    unfold bind at 1. unfold read_stop_flag at 1.
    set (w1 := emit E (EvStopFlag (stop_flag w || signal E (List.length (trace w)))) 0 w).
    destruct (stop_flag w || signal E (List.length (trace w))); [now exists p|].
    unfold bind at 1.
    pose proof (fetch_attempts_page_ok
                  (page_request cfg (TWEET_ID cfg) (next_token p)) (seq 0 7) Hall w1) as Hf.
    fold (fetch_page cfg E (TWEET_ID cfg) (next_token p)) in Hf.
    destruct (fetch_page cfg E (TWEET_ID cfg) (next_token p) w1) as [[[data|]|e] w2];
      cbn [fst page_ok] in Hf; [| |contradiction].
    + unfold bind at 1.
      destruct (process_page_body_ok p data w2 Hf) as (p1 & w3 & Hpp & Hs).
      rewrite Hpp. now apply IH.
    + unfold bind at 1. unfold save_state.
      destruct (is_scalar_binds _ Hp) as (v & Hv). rewrite Hv. now exists p.
Qed.

(** X19. A run dies of an exception only through what the remote sends:
    when every answer is a 200 with a body the loop can process (a dict
    whose [data] is absent or a list of records that bind and whose [meta]
    is absent or a dict with a cursor that binds), a 429 whose reset header
    [int()] can read, or anything that is neither, [run] returns normally
    and [main] exits with status 0. *)
Theorem run_survives_well_formed_answers (w : world) :
  (forall n r, answer_ok (remote E n r) = true) ->
  fst (run cfg E w) = Ok tt /\ fst (main cfg E w) = 0.
Proof.
  intros Hall.
  assert (Hrun : fst (run cfg E w) = Ok tt).
  { unfold run. unfold bind at 1. unfold get_state.
    destruct (State.fetchone (TWEET_ID cfg) (state w)) as [row|].
    - destruct (negb (State.done row =? 0)).
      + unfold bind. now rewrite export_csv_spec.
      + unfold bind at 1.
        destruct (collect_survives (max_pages cfg) Hall
                    (Progress (py_of_text (State.next_token row)) false
                       (State.total_users_found row)) w) as (p' & Hc).
        { cbn. now destruct (State.next_token row). }
        destruct (collect cfg E (max_pages cfg) _ w) as [[p1|e] w1];
          cbn [fst] in Hc; [|discriminate].
        apply run_epilogue_ok.
    - unfold bind at 1.
      destruct (collect_survives (max_pages cfg) Hall (Progress JNull false 0)
                  (set_state (State.insert_default (TWEET_ID cfg) (state w)) w) eq_refl)
        as (p' & Hc).
      destruct (collect cfg E (max_pages cfg) _ _) as [[p1|e] w1];
        cbn [fst] in Hc; [|discriminate].
      apply run_epilogue_ok. }
  split; [exact Hrun|].
  unfold main. destruct (run cfg E w) as [[u|e] w']; [reflexivity|discriminate].
Qed.

(** *** The checkpoint follows the loop *)

Lemma ingest_only_likers (users : json) (total : Z) (w : world) :
  exists tbl,
    snd ((if truthy users then ingest cfg E users total else ret total) w) =
    set_likers tbl w.
Proof.
  exists (likers (snd ((if truthy users then ingest cfg E users total
                        else ret total) w))).
  destruct (truthy users); [|symmetry; apply set_likers_same].
  destruct users; try (symmetry; apply set_likers_same).
  unfold ingest, bind, insert_users.
  destruct (insert_rows E (TWEET_ID cfg) items (likers w));
    [reflexivity|symmetry; apply set_likers_same].
Qed.

(** A page that was processed: the records went to the store, the
    progress was saved, and the politeness delay came last. *)
Lemma process_page_inv (p p' : progress) (data : json) (w w' : world) :
  process_page cfg E p data w = (Ok p', w') ->
  exists tbl v,
    bind_param (next_token p') = Ok v /\
    (if negb (done p')
     then doM stop <- read_stop_flag E;
          if negb stop then sleep E (if QUICK_TEST cfg then 1000 else 2000) else ret tt
     else ret tt)
      (set_state (State.update_progress (TWEET_ID cfg) (text_affinity v)
                    (if done p' then 1 else 0) (total_users p') (now w) (state w))
         (set_likers tbl w)) = (Ok tt, w').
Proof.
  unfold process_page. intros H.
  unfold bind at 1 in H.
  destruct (lift (py_get data "data" (JArr [])) w) as [[users|e] wa] eqn:Ha;
    [|discriminate].
  assert (wa = w) by (unfold lift in Ha; destruct (py_get data _ _); now inversion Ha).
  subst wa. clear Ha.
  unfold bind at 1 in H.
  destruct (ingest_only_likers users (total_users p) w) as (tbl & Hst).
  destruct ((if truthy users then ingest cfg E users (total_users p)
             else ret (total_users p)) w) as [[total'|e] wb]; [|discriminate].
  cbn [snd] in Hst. subst wb.
  unfold bind at 1 in H.
  destruct (lift (py_get data "meta" (JObj [])) (set_likers tbl w)) as [[meta|e] wc] eqn:Hc;
    [|discriminate].
  assert (wc = set_likers tbl w)
    by (unfold lift in Hc; destruct (py_get data _ _); now inversion Hc).
  subst wc. clear Hc.
  unfold bind at 1 in H.
  destruct (lift (py_get meta "next_token" JNull) (set_likers tbl w)) as [[tok|e] wd] eqn:Hd;
    [|discriminate].
  assert (wd = set_likers tbl w)
    by (unfold lift in Hd; destruct (py_get meta _ _); now inversion Hd).
  subst wd. clear Hd.
  unfold bind at 1, save_state in H.
  destruct (bind_param tok) as [v|e] eqn:Hv; [|discriminate].
  match type of H with
  | bind (if ?b then _ else _) _ ?w0 = _ =>
      destruct (politeness_delay E b (if QUICK_TEST cfg then 1000 else 2000) w0)
        as (w1 & Hpol & Hw); [destruct (QUICK_TEST cfg); lia|]
  end.
  unfold bind at 1 in H. rewrite Hpol in H. cbn [ret] in H. inversion H. subst p' w'.
  exists tbl, v. cbn [next_token done total_users]. split; [exact Hv|exact Hpol].
Qed.

(** What a page that was processed left in the checkpoint table. *)
Lemma process_page_saved (p p' : progress) (data : json) (w w' : world) :
  process_page cfg E p data w = (Ok p', w') ->
  exists v n,
    bind_param (next_token p') = Ok v /\
    state w' = State.update_progress (TWEET_ID cfg) (text_affinity v)
                 (if done p' then 1 else 0) (total_users p') n (state w).
Proof.
  intros H. destruct (process_page_inv _ _ _ _ _ H) as (tbl & v & Hv & Hpol).
  exists v, (now w). split; [exact Hv|].
  match type of Hpol with
  | (if ?b then _ else _) ?w0 = _ =>
      destruct (politeness_delay E b (if QUICK_TEST cfg then 1000 else 2000) w0)
        as (w1 & Hpol' & Hw); [destruct (QUICK_TEST cfg); lia|]
  end.
  rewrite Hpol in Hpol'. inversion Hpol'. subst w1.
  destruct Hw as [_ (_ & Hs & _)]. exact Hs.
Qed.

Lemma checkpointed_update (p : progress) (v : sqlval) (n : Z) (w w' : world)
    (row : State.row) :
  State.fetchone (TWEET_ID cfg) (state w) = Some row ->
  bind_param (next_token p) = Ok v ->
  state w' = State.update_progress (TWEET_ID cfg) (text_affinity v)
               (if done p then 1 else 0) (total_users p) n (state w) ->
  checkpointed (TWEET_ID cfg) p w'.
Proof.
  intros Hrow Hv Hst. unfold checkpointed. rewrite Hst, fetchone_update_progress, Hrow.
  eexists _, v. split; [reflexivity|]. now repeat split.
Qed.

Lemma checkpointed_same (t : string) (p : progress) (w w' : world) :
  state w' = state w -> checkpointed t p w -> checkpointed t p w'.
Proof. unfold checkpointed. now intros ->. Qed.

Lemma collect_checkpointed (k : nat) :
  forall p w p' w',
    collect cfg E k p w = (Ok p', w') ->
    checkpointed (TWEET_ID cfg) p w ->
    checkpointed (TWEET_ID cfg) p' w'.
Proof.
  induction k as [|k IH]; intros p w p' w' H Hcp; cbn [collect] in H.
  - destruct (done p); [inversion H; now subst|].
    unfold bind, read_stop_flag in H.
    destruct (stop_flag w || signal E (List.length (trace w))); inversion H; subst;
      now apply (checkpointed_same _ _ w).
  - destruct (done p) eqn:Hdone; [inversion H; now subst|].
    unfold bind at 1 in H. unfold read_stop_flag at 1 in H.
    set (w1 := emit E (EvStopFlag (stop_flag w || signal E (List.length (trace w)))) 0 w)
      in H.
    assert (Hcp1 : checkpointed (TWEET_ID cfg) p w1) by now apply (checkpointed_same _ _ w).
    destruct (stop_flag w || signal E (List.length (trace w)));
      [inversion H; now subst|].
    unfold bind at 1 in H.
    pose proof (fetch_page_same_store (TWEET_ID cfg) (next_token p) w1) as (_ & Hs2 & _).
    destruct (fetch_page cfg E (TWEET_ID cfg) (next_token p) w1) as [[[data|]|e] w2];
      cbn [snd] in Hs2; [| |discriminate].
    + unfold bind at 1 in H.
      destruct (process_page cfg E p data w2) as [[p1|e] w3] eqn:Hpp; [|discriminate].
      apply (IH _ _ _ _ H).
      destruct (process_page_saved _ _ _ _ _ Hpp) as (v & n & Hv & Hst).
      destruct Hcp1 as (row & _ & Hrow & _).
      apply (checkpointed_update p1 v n w2 w3 row); [now rewrite Hs2|assumption..].
    + unfold bind at 1, save_state in H.
      destruct (bind_param (next_token p)) as [v|e] eqn:Hv; [|discriminate].
      cbn [ret] in H. inversion H. subst p' w'.
      destruct Hcp1 as (row & _ & Hrow & _).
      apply (checkpointed_update p v (now w2) w2 _ row); [now rewrite Hs2|assumption|].
      cbn [state set_state]. now rewrite Hdone.
Qed.

(** X20. The checkpoint follows the loop: when the checkpoint row holds
    the cursor, the flag and the count the loop starts with, then at
    every normal end of the loop (done, stopped, ceiling reached, or a
    fetch that gave no page) it holds the cursor, the flag and the count
    the loop ended with, so that a later run resumes from there. *)
Theorem checkpoint_follows_the_loop (k : nat) (p p' : progress) (w w' : world) :
  checkpointed (TWEET_ID cfg) p w ->
  collect cfg E k p w = (Ok p', w') ->
  checkpointed (TWEET_ID cfg) p' w'.
Proof.
  intros Hcp H. exact (collect_checkpointed k p w p' w' H Hcp).
Qed.

(** X21. The next run starts where the loop ended: when the loop ends
    normally with a cursor that is a string or None, [get_state] on the
    checkpoint table it left, in whatever later process, returns that
    cursor, the loop's done flag and the loop's count. *)
Theorem next_run_starts_where_loop_ended (k : nat) (p p' : progress) (w w' : world)
    (cursor : option string) (later : world) :
  checkpointed (TWEET_ID cfg) p w ->
  collect cfg E k p w = (Ok p', w') ->
  next_token p' = py_of_text cursor ->
  state later = state w' ->
  exists last_export,
    get_state (TWEET_ID cfg) later =
    (Ok (next_token p', done p', total_users p', last_export), later).
Proof.
  intros Hcp H Htok Hlater.
  destruct (collect_checkpointed k p w p' w' H Hcp) as (row & v & Hrow & Hv & Hn & Hd & Ht).
  exists (State.last_export_time row).
  assert (Hcur : py_of_text (text_affinity v) = next_token p').
  { rewrite Htok in Hv |- *. destruct cursor; cbn in Hv; inversion Hv; reflexivity. }
  assert (Hflag : negb ((if done p' then 1 else 0) =? 0) = done p')
    by now destruct (done p').
  unfold get_state. now rewrite Hlater, Hrow, Hn, Hd, Ht, Hcur, Hflag.
Qed.

(** *** Runs that do not export *)

(** X22. With EXPORT_MODE neither final nor periodic, a run that does not
    find its checkpoint done writes no file and logs no export, however
    it ends. *)
Theorem run_without_export_mode_writes_nothing (w : world) :
  EXPORT_MODE cfg <> "final"%string ->
  EXPORT_MODE cfg <> "periodic"%string ->
  (forall row, State.fetchone (TWEET_ID cfg) (state w) = Some row -> State.done row = 0) ->
  files (snd (run cfg E w)) = files w /\
  exists evs,
    trace (snd (run cfg E w)) = trace w ++ evs /\ forallb not_export evs = true.
Proof.
  intros Hfinal Hperiodic Hdone.
  destruct (run_not_done cfg E w Hdone) as (p & w0 & _ & Hfiles & Htrace & _ & Hrun).
  rewrite Hrun, <- Hfiles, <- Htrace. clear Hrun.
  assert (Hsteps : steps (collected E)
                     (doM_ collect cfg E (max_pages cfg) p;
                      doM_ read_stop_flag E; final_export cfg E)).
  { apply steps_bind; [apply collected_trans|apply collect_collected|]. intros u.
    apply steps_bind; [apply collected_trans| |].
    - intros w1. split; [apply moves_emit; [reflexivity|lia]|reflexivity].
    - intros u' w1. unfold final_export.
      destruct (String.eqb_spec (EXPORT_MODE cfg) "final") as [|_]; [contradiction|].
      destruct (String.eqb_spec (EXPORT_MODE cfg) "periodic") as [|_]; [contradiction|].
      apply collected_refl. }
  destruct (Hsteps w0) as [(_ & _ & _ & evs & Ht & Hall & _) Hf].
  split; [exact Hf|]. now exists evs.
Qed.

(** *** Politeness *)

(** X23. The loop is polite: after a page that was not the last, unless
    the stop flag is set, at least 2 seconds (1 second in QUICK_TEST mode)
    pass between the moment the page is handed to the loop and the moment
    the loop goes on. *)
Theorem process_page_is_polite (p p' : progress) (data : json) (w w' : world) :
  process_page cfg E p data w = (Ok p', w') ->
  done p' = false ->
  stop_flag w' = false ->
  clock w + (if QUICK_TEST cfg then 1000 else 2000) <= clock w'.
Proof.
  intros H Hdone Hstop.
  destruct (process_page_inv _ _ _ _ _ H) as (tbl & v & _ & Hpol).
  rewrite Hdone in Hpol. cbn [negb] in Hpol.
  match type of Hpol with
  | _ ?w0 = _ => set (ws := w0) in *
  end.
  unfold bind, read_stop_flag in Hpol.
  destruct (stop_flag ws || signal E (List.length (trace ws))) eqn:Hflag.
  - cbn [negb ret] in Hpol. injection Hpol as Hw'. rewrite <- Hw' in Hstop.
    cbn [stop_flag emit] in Hstop. congruence.
  - cbn [negb] in Hpol. unfold sleep in Hpol. injection Hpol as Hw'. rewrite <- Hw'.
    unfold ws. cbn [clock emit set_state set_likers].
    repeat match goal with
           | |- context [Z.of_N (lag E ?a)] =>
               let n := fresh "n" in
               pose proof (N2Z.is_nonneg (lag E a)); set (n := Z.of_N (lag E a)) in *
           end.
    lia.
Qed.

End RunBounds.
(** * The further properties at work on concrete inputs *)

(** X2 on a remote that cannot be reached. *)
Lemma fetch_page_gives_up_after_seven_witness :
  (forall n req, transient (remote E_unreachable n req) = true) /\
  fst (fetch_page cfg_final E_unreachable "42" JNull w_fresh) = Ok None /\
  requests_made (snd (fetch_page cfg_final E_unreachable "42" JNull w_fresh)) = 7%nat /\
  clock w_fresh + 127000 <=
    clock (snd (fetch_page cfg_final E_unreachable "42" JNull w_fresh)) /\
  same_store w_fresh (snd (fetch_page cfg_final E_unreachable "42" JNull w_fresh)).
Proof.
  split; [intros n req; reflexivity|].
  apply (fetch_page_gives_up_after_seven cfg_final E_unreachable "42" JNull w_fresh).
  intros n req. reflexivity.
Defined.

(** X3 on a remote that serves a page at once. *)
Lemma fetch_page_returns_first_success_witness :
  fst (fetch_page cfg_final E_last_page "42" JNull w_fresh) =
    Ok (Some (JObj [ ("data", JArr [ JObj [ ("id", JStr "b") ] ]); ("meta", JObj []) ])) /\
  exists pre at_ms h post,
    trace (snd (fetch_page cfg_final E_last_page "42" JNull w_fresh)) =
      trace w_fresh ++ pre ++
        EvGet at_ms (page_request cfg_final "42" JNull)
          (Response 200 h
             (JObj [ ("data", JArr [ JObj [ ("id", JStr "b") ] ]); ("meta", JObj []) ]))
        :: post /\
    page_diagnostics
      (JObj [ ("data", JArr [ JObj [ ("id", JStr "b") ] ]); ("meta", JObj []) ]) = Ok tt /\
    forallb (fun ev => negb (is_success ev)) pre = true /\
    forallb is_quiet post = true.
Proof.
  split; [reflexivity|].
  apply (fetch_page_returns_first_success cfg_final E_last_page "42" JNull w_fresh).
  reflexivity.
Defined.

(** X4 on a 429 that announces a reset 100 seconds ahead. *)
Lemma rate_limited_retry_waits_witness :
  int_of_header_or_zero (x_rate_limit_reset h_exhausted) = Ok 1700000100 /\
  1700000100 <> 0 /\
  exists w1,
    waited E_not_found w_fresh w1 /\
    ((stop_flag w1 = true /\
      handle_response cfg_final E_not_found 0 (Response 429 h_exhausted JNull)
        (ret None) w_fresh = (Ok None, w1)) \/
     (stop_flag w1 = false /\
      handle_response cfg_final E_not_found 0 (Response 429 h_exhausted JNull)
        (ret None) w_fresh = ret None w1 /\
      clock w_fresh + 5000 <= clock w1 /\
      (QUICK_TEST cfg_final = false -> 0 <= clock w_fresh ->
       1000 * (1700000100 + 2) <= clock w1))).
Proof.
  split; [reflexivity|]. split; [lia|].
  apply (rate_limited_retry_waits cfg_final E_not_found 0 (ret None) w_fresh
           h_exhausted JNull 1700000100); [reflexivity|lia].
Defined.

(** X5 on a response without rate-limit headers. *)
Lemma pace_requests_tolerates_bad_headers_witness :
  headers_unusable no_headers = true /\
  exists d, 1000 <= d <= 3000 /\
            pace_requests cfg_final E_not_found no_headers w_fresh =
              (Ok tt, emit E_not_found (EvSleep d) d w_fresh).
Proof.
  split; [reflexivity|].
  apply (pace_requests_tolerates_bad_headers cfg_final E_not_found no_headers w_fresh).
  reflexivity.
Defined.

(** X6 on a good record followed by one that cannot be bound: the good one
    is not kept. *)
Lemma insert_users_all_or_nothing_witness :
  forallb record_binds [ u_ann ] = true /\
  fst (insert_users E_not_found "42" [ u_ann ] w_fresh) = Ok tt /\
  fst (insert_users E_not_found "42" [ u_ann; u_bad ] w_fresh) = Raise InterfaceError /\
  snd (insert_users E_not_found "42" [ u_ann; u_bad ] w_fresh) = w_fresh.
Proof.
  split; [reflexivity|]. split.
  - apply (proj1 (insert_users_all_or_nothing E_not_found "42" [ u_ann ] w_fresh)).
    reflexivity.
  - split; [reflexivity|].
    apply (proj2 (insert_users_all_or_nothing E_not_found "42" [ u_ann; u_bad ] w_fresh)
             InterfaceError).
    reflexivity.
Defined.

(** X8 on the one stored record and a batch that repeats it. *)
Lemma insert_users_keeps_keys_unique_witness :
  keys_unique (likers w_prior) /\
  keys_unique (likers (snd (insert_users E_not_found "42" [ u_ann; u_bob ] w_prior))).
Proof.
  assert (H : keys_unique (likers w_prior)).
  { unfold keys_unique. simpl. constructor; [intros []|constructor]. }
  split; [exact H|].
  apply (insert_users_keeps_keys_unique E_not_found "42" [ u_ann; u_bob ] w_prior H).
Defined.

(** X9 on a record without id. *)
Lemma insert_users_skips_records_without_id_witness :
  forallb has_no_id [ u_anonymous ] = true /\
  snd (insert_users E_not_found "42" [ u_anonymous ] w_prior) = w_prior.
Proof.
  split; [reflexivity|].
  apply (insert_users_skips_records_without_id E_not_found "42" [ u_anonymous ] w_prior).
  reflexivity.
Defined.

(** X10 on a cursor that is a number: it comes back as text. *)
Lemma saved_state_reads_back_witness :
  is_scalar (JInt 7) = true /\
  exists v st w1 w2,
    bind_param (JInt 7) = Ok v /\
    get_state "42" w_fresh = (Ok st, w1) /\
    save_state "42" (JInt 7) false 5 w1 = (Ok tt, w2) /\
    get_state "42" w2 = (Ok (py_of_text (text_affinity v), false, 5, snd st), w2).
Proof.
  split; [reflexivity|].
  apply (saved_state_reads_back "42" (JInt 7) false 5 w_fresh).
  reflexivity.
Defined.

(** X11 on targets 42 and 43. *)
Lemma other_targets_are_untouched_witness :
  "42"%string <> "43"%string /\
  State.fetchone "42" (state (snd (get_state "43" w_prior))) =
    State.fetchone "42" (state w_prior) /\
  State.fetchone "42" (state (snd (save_state "43" (JStr "X") true 9 w_prior))) =
    State.fetchone "42" (state w_prior) /\
  State.fetchone "42" (state (snd (update_export_time "43" w_prior))) =
    State.fetchone "42" (state w_prior) /\
  Likers.of_tweet "42" (likers (snd (insert_users E_not_found "43" [ u_ann ] w_prior))) =
    Likers.of_tweet "42" (likers w_prior).
Proof.
  split; [discriminate|].
  apply (other_targets_are_untouched E_not_found "43" "42" (JStr "X") true 9 [ u_ann ]
           w_prior).
  discriminate.
Defined.

(** X12 on two records collected in either order. *)
Lemma export_ignores_insertion_order_witness :
  Permutation (likers w_ab) (likers w_ba) /\
  keys_unique (likers w_ab) /\
  exists (p1 p2 : string) (content : csv_file),
    fst (export_csv_with_connection cfg_final E_not_found "42" true w_ab) = Ok p1 /\
    fst (export_csv_with_connection cfg_final E_not_found "42" false w_ba) = Ok p2 /\
    read_file p1
      (files (snd (export_csv_with_connection cfg_final E_not_found "42" true w_ab))) =
      Some content /\
    read_file p2
      (files (snd (export_csv_with_connection cfg_final E_not_found "42" false w_ba))) =
      Some content.
Proof.
  assert (Hp : Permutation (likers w_ab) (likers w_ba)) by apply perm_swap.
  assert (Hu : keys_unique (likers w_ab)).
  { unfold keys_unique. simpl.
    constructor; [intros [H|[]]; discriminate|].
    constructor; [intros []|constructor]. }
  split; [exact Hp|]. split; [exact Hu|].
  apply (export_ignores_insertion_order cfg_final E_not_found "42" true false w_ab w_ba
           Hp Hu).
Defined.

(** X13 on an export next to another file. *)
Lemma export_writes_one_file_witness :
  "out/notes.csv"%string <> snapshot_path cfg_final "42" (now w_prior) /\
  read_file "out/notes.csv"
    (files (snd (export_csv_with_connection cfg_final E_not_found "42" false w_prior))) =
    read_file "out/notes.csv" (files w_prior) /\
  state (snd (export_csv_with_connection cfg_final E_not_found "42" false w_prior)) =
    state w_prior.
Proof.
  assert (Hne : "out/notes.csv"%string <> snapshot_path cfg_final "42" (now w_prior))
    by (vm_compute; discriminate).
  split; [exact Hne|].
  destruct (export_writes_one_file cfg_final E_not_found "42" false w_prior
              "out/notes.csv" Hne) as (Hfile & _ & _ & _ & n & Hstate).
  split; [exact Hfile|exact Hstate].
Defined.

(** X15 on a run for target 42 next to target 43. *)
Lemma run_leaves_other_targets_alone_witness :
  "43"%string <> TWEET_ID cfg_final /\
  State.fetchone "43" (state (snd (run cfg_final E_last_page w_prior))) =
    State.fetchone "43" (state w_prior) /\
  Likers.of_tweet "43" (likers (snd (run cfg_final E_last_page w_prior))) =
    Likers.of_tweet "43" (likers w_prior).
Proof.
  split; [discriminate|].
  apply (run_leaves_other_targets_alone cfg_final E_last_page "43" w_prior).
  discriminate.
Defined.

(** X17 on a target that is done and has no record. *)
Lemma run_on_done_checkpoint_only_exports_witness :
  State.fetchone (TWEET_ID cfg_final) (state w_done_empty) =
    Some (State.Row "42" None 1 None 0 0) /\
  State.done (State.Row "42" None 1 None 0 0) <> 0 /\
  exists w' row',
    run cfg_final E_not_found w_done_empty = (Ok tt, w') /\
    trace w' = trace w_done_empty ++
      [EvExport (snapshot_path cfg_final (TWEET_ID cfg_final) (now w_done_empty))] /\
    read_file (snapshot_path cfg_final (TWEET_ID cfg_final) (now w_done_empty)) (files w') =
      Some (snapshot (TWEET_ID cfg_final) (likers w_done_empty)) /\
    requests_made w' = requests_made w_done_empty /\
    likers w' = likers w_done_empty /\
    State.fetchone (TWEET_ID cfg_final) (state w') = Some row' /\
    same_progress (State.Row "42" None 1 None 0 0) row' /\
    State.last_export_time row' = now w'.
Proof.
  split; [reflexivity|]. split; [discriminate|].
  apply (run_on_done_checkpoint_only_exports cfg_final E_not_found w_done_empty
           (State.Row "42" None 1 None 0 0)); [reflexivity|discriminate].
Defined.

(** X18 on a process that finds the stop flag set. *)
Lemma run_when_stopped_fetches_nothing_witness :
  stop_flag w_stopped = true /\
  State.fetchone (TWEET_ID cfg_final) (state w_stopped) =
    Some (State.Row "42" None 0 None 1 0) /\
  exists w' row',
    run cfg_final E_last_page w_stopped = (Ok tt, w') /\
    requests_made w' = requests_made w_stopped /\
    likers w' = likers w_stopped /\
    State.fetchone (TWEET_ID cfg_final) (state w') = Some row' /\
    same_progress (State.Row "42" None 0 None 1 0) row'.
Proof.
  split; [reflexivity|]. split; [reflexivity|].
  apply (run_when_stopped_fetches_nothing cfg_final E_last_page w_stopped
           (State.Row "42" None 0 None 1 0)); reflexivity.
Defined.

(** X19 on a remote that answers 404. *)
Lemma run_survives_well_formed_answers_witness :
  (forall n r, answer_ok (remote E_not_found n r) = true) /\
  fst (run cfg_final E_not_found w_prior) = Ok tt /\
  fst (main cfg_final E_not_found w_prior) = 0.
Proof.
  split; [intros n r; reflexivity|].
  apply (run_survives_well_formed_answers cfg_final E_not_found w_prior).
  intros n r. reflexivity.
Defined.

(** X20 on a loop that fetches the last page. *)
Lemma checkpoint_follows_the_loop_witness :
  checkpointed (TWEET_ID cfg_final) (Progress JNull false 1) w_prior /\
  collect cfg_final E_last_page 2 (Progress JNull false 1) w_prior =
    (Ok (Progress JNull true 2),
     snd (collect cfg_final E_last_page 2 (Progress JNull false 1) w_prior)) /\
  checkpointed (TWEET_ID cfg_final) (Progress JNull true 2)
    (snd (collect cfg_final E_last_page 2 (Progress JNull false 1) w_prior)).
Proof.
  assert (H : checkpointed (TWEET_ID cfg_final) (Progress JNull false 1) w_prior).
  { exists (State.Row "42" None 0 None 1 0), SNull. repeat split. }
  split; [exact H|]. split; [reflexivity|].
  apply (checkpoint_follows_the_loop cfg_final E_last_page 2 (Progress JNull false 1)
           (Progress JNull true 2) w_prior
           (snd (collect cfg_final E_last_page 2 (Progress JNull false 1) w_prior)) H).
  reflexivity.
Defined.

(** X21 on the same loop, read by a later process. *)
Lemma next_run_starts_where_loop_ended_witness :
  checkpointed (TWEET_ID cfg_final) (Progress JNull false 1) w_prior /\
  exists last_export,
    get_state (TWEET_ID cfg_final)
      (restart (snd (collect cfg_final E_last_page 2 (Progress JNull false 1) w_prior))) =
    (Ok (JNull, true, 2, last_export),
     restart (snd (collect cfg_final E_last_page 2 (Progress JNull false 1) w_prior))).
Proof.
  assert (H : checkpointed (TWEET_ID cfg_final) (Progress JNull false 1) w_prior).
  { exists (State.Row "42" None 0 None 1 0), SNull. repeat split. }
  split; [exact H|].
  apply (next_run_starts_where_loop_ended cfg_final E_last_page 2
           (Progress JNull false 1) (Progress JNull true 2) w_prior
           (snd (collect cfg_final E_last_page 2 (Progress JNull false 1) w_prior))
           None
           (restart (snd (collect cfg_final E_last_page 2 (Progress JNull false 1) w_prior)))
           H); reflexivity.
Defined.

(** X22 on a run in export mode none. *)
Lemma run_without_export_mode_writes_nothing_witness :
  EXPORT_MODE cfg_none <> "final"%string /\
  EXPORT_MODE cfg_none <> "periodic"%string /\
  files (snd (run cfg_none E_last_page w_prior)) = files w_prior /\
  exists evs,
    trace (snd (run cfg_none E_last_page w_prior)) = trace w_prior ++ evs /\
    forallb not_export evs = true.
Proof.
  split; [discriminate|]. split; [discriminate|].
  apply (run_without_export_mode_writes_nothing cfg_none E_last_page w_prior);
    try discriminate.
  intros row H. inversion H. reflexivity.
Defined.

(** X23 on a page that announces another one. *)
Lemma process_page_is_polite_witness :
  process_page cfg_final E_not_found (Progress JNull false 1) page_with_more w_prior =
    (Ok (Progress (JStr "X") false 2),
     snd (process_page cfg_final E_not_found (Progress JNull false 1) page_with_more
            w_prior)) /\
  clock w_prior + 2000 <=
    clock (snd (process_page cfg_final E_not_found (Progress JNull false 1) page_with_more
                  w_prior)).
Proof.
  split; [reflexivity|].
  apply (process_page_is_polite cfg_final E_not_found (Progress JNull false 1)
           (Progress (JStr "X") false 2) page_with_more w_prior
           (snd (process_page cfg_final E_not_found (Progress JNull false 1)
                   page_with_more w_prior)));
    reflexivity.
Defined.
